(** * pyParamETL: incremental table replication (main.py)

    A shallow embedding of [main.py]: the five procedures
    [p_read_config], [p_connect_to_source], [p_connect_to_target],
    [p_get_table_definition] and [p_move_data_for_table], written in a
    state-and-exception monad over a small model of what the program
    talks to (the configuration files, the PostgreSQL servers and the
    psycopg2 connection objects), followed by the properties of the
    replication algorithm.

    Conventions of the model:
    - the columns of the model are integer columns: a value is [None]
      (SQL NULL) or an integer, and an [updated_date] is a count of
      time units, which [str] prints in decimal;
    - an SQL text is a term of [query] or of [insert], one constructor
      per statement the program builds; [render] and [render_insert]
      give the text the f-strings of the source produce, and the store
      interprets the term;
    - identifiers are compared verbatim (no case folding);
    - the store is PostgreSQL cut down to what the program asks of it:
      tables in schemas, a catalog of their columns, NOT NULL columns,
      one transaction per connection made durable by [commit]; an
      INSERT is checked for its arity, its column names and NOT NULL,
      not for the range of its values in the declared types: a
      property of the data an INSERT leaves takes as a hypothesis that
      the INSERT went through;
    - the source and the target connection are the two connection
      objects of one run, [Source] and [Target];
    - [while True] is run on fuel, one unit per pass, and a run that
      exhausts it ends in [OutOfFuel]; a stream of [n] rows needs no
      more than [n + 1] units;
    - the world keeps a trace of the calls made to the outside (connect,
      execute, fetch, executemany, commit, close, log, print). *)

From Stdlib Require Import List String Ascii ZArith Lia Bool Arith.
From Stdlib Require Import DecimalString.
Import ListNotations.
Open Scope string_scope.
Open Scope list_scope.

(* ================================================================== *)
(** ** Python values and exceptions *)
(* ================================================================== *)

Inductive value : Type :=
| VNone
| VInt (n : Z).

Definition row := list value.

(** [str(v)], as the f-string on line 152 applies it to the watermark. *)
Definition py_str (v : value) : string :=
  match v with
  | VNone => "None"
  | VInt n => NilEmpty.string_of_int (Z.to_int n)
  end.

Definition value_eqb (a b : value) : bool :=
  match a, b with
  | VNone, VNone => true
  | VInt x, VInt y => Z.eqb x y
  | _, _ => false
  end.

(** Every exception below is a subclass of Python's [Exception], so the
    [except Exception] clauses of the source catch all of them. *)
Inductive exn : Type :=
| FileNotFoundError (path : string)
| KeyError (key : string)
| YAMLError (path : string)
| OperationalError (msg : string)
| InterfaceError (msg : string)
| UndefinedTable (schema table : string)
| UndefinedColumn (column : string)
| DuplicateColumn (column : string)
| SqlSyntaxError (sql : string)
| InvalidTextRepresentation (literal : string)
| NotNullViolation (column : string)
| IndexError (msg : string)
| TypeError (msg : string)
| AttributeError (msg : string).

(** [str(e)] as used in the log line. *)
Definition exn_str (e : exn) : string :=
  match e with
  | FileNotFoundError p => "[Errno 2] No such file or directory: '" ++ p ++ "'"
  | KeyError k => "'" ++ k ++ "'"
  | YAMLError p => "could not parse " ++ p
  | OperationalError m => m
  | InterfaceError m => m
  | UndefinedTable s t => "relation " ++ s ++ "." ++ t ++ " does not exist"
  | UndefinedColumn c => "column " ++ c ++ " does not exist"
  | DuplicateColumn c => "column " ++ c ++ " specified more than once"
  | SqlSyntaxError q => "syntax error in " ++ q
  | InvalidTextRepresentation l => "invalid input syntax for type bigint: " ++ l
  | NotNullViolation c => "null value in column " ++ c ++ " violates not-null constraint"
  | IndexError m => m
  | TypeError m => m
  | AttributeError m => m
  end.

(* ================================================================== *)
(** ** SQL statements built by the program *)
(* ================================================================== *)

(** One constructor per query text of main.py:
    - [SelectColumns]: line 96, the catalog query of
      [p_get_table_definition];
    - [SelectCount]: lines 138-139;
    - [SelectMaxUpdated]: lines 147-148;
    - [SelectFrom]: lines 143-144 (no predicate) and 150-152 (with the
      watermark spliced into the predicate). *)
Inductive query : Type :=
| SelectColumns (table_name : string)
| SelectCount (schema table_name : string)
| SelectMaxUpdated (schema table_name : string)
| SelectFrom (columns : list string) (schema table_name : string)
             (watermark : option value).

(** The INSERT template of lines 133-134: the table, the column list
    and one [%s] placeholder per element of that list. *)
Record insert : Type := mkInsert {
  i_schema : string;
  i_table : string;
  i_columns : list string;
  i_placeholders : list string
}.

(** [', '.join(l)] *)
Definition join (l : list string) : string := String.concat ", " l.

Definition render (q : query) : string :=
  match q with
  | SelectColumns _ =>
      "SELECT column_name, data_type FROM information_schema.columns WHERE table_name = %s"
  | SelectCount s t =>
      "SELECT COUNT(" ++ "*) " ++ "FROM " ++ s ++ "." ++ t
  | SelectMaxUpdated s t =>
      "SELECT MAX(updated_date) " ++ "FROM " ++ s ++ "." ++ t
  | SelectFrom cols s t None =>
      "SELECT " ++ join cols ++ " " ++ "FROM " ++ s ++ "." ++ t
  | SelectFrom cols s t (Some w) =>
      "SELECT " ++ join cols ++ " " ++ "FROM " ++ s ++ "." ++ t ++ " "
      ++ "WHERE updated_date > '" ++ py_str w ++ "'"
  end.

Definition render_insert (q : insert) : string :=
  "INSERT INTO " ++ i_schema q ++ "." ++ i_table q
  ++ " (" ++ join (i_columns q) ++ ") "
  ++ "VALUES (" ++ join (i_placeholders q) ++ ")".

(** The load kinds of the planner, read off the source SELECT. *)
Inductive load_kind : Type := FULL | DELTA.

Definition kind_of (q : query) : option load_kind :=
  match q with
  | SelectFrom _ _ _ None => Some FULL
  | SelectFrom _ _ _ (Some _) => Some DELTA
  | _ => None
  end.

(* ================================================================== *)
(** ** The relational store *)
(* ================================================================== *)

Record table : Type := mkTable {
  t_schema : string;
  t_name : string;
  t_columns : list (string * string);   (* (column_name, data_type), catalog order *)
  t_not_null : list string;             (* columns declared NOT NULL *)
  t_rows : list row
}.

Definition database := list table.

Definition is_table (schema name : string) (t : table) : bool :=
  String.eqb (t_schema t) schema && String.eqb (t_name t) name.

Definition find_table (db : database) (schema name : string) : option table :=
  find (is_table schema name) db.

(** [information_schema.columns WHERE table_name = name]: the catalog
    rows of every table with that name, whatever its schema. *)
Definition catalog_columns (db : database) (name : string)
  : list (string * string) :=
  flat_map (fun t => if String.eqb (t_name t) name then t_columns t else []) db.

Fixpoint column_index (cols : list string) (c : string) : option nat :=
  match cols with
  | [] => None
  | c' :: rest =>
      if String.eqb c' c then Some 0
      else option_map S (column_index rest c)
  end.

Definition column_names (t : table) : list string := map fst (t_columns t).

(** Positions, in the table, of the columns of a select list. *)
Fixpoint resolve (tcols : list string) (cols : list string)
  : exn + list nat :=
  match cols with
  | [] => inr []
  | c :: rest =>
      match column_index tcols c with
      | None => inl (UndefinedColumn c)
      | Some i =>
          match resolve tcols rest with
          | inl e => inl e
          | inr idxs => inr (i :: idxs)
          end
      end
  end.

Definition project (idxs : list nat) (r : row) : row :=
  map (fun i => nth i r VNone) idxs.

(** [updated_date > w] on one row: NULL compares to nothing. *)
Definition newer_than (i : nat) (w : Z) (r : row) : bool :=
  match nth i r VNone with
  | VInt u => Z.ltb w u
  | VNone => false
  end.

Definition sql_count (db : database) (schema name : string) : exn + nat :=
  match find_table db schema name with
  | None => inl (UndefinedTable schema name)
  | Some t => inr (List.length (t_rows t))
  end.

Definition value_max (a b : value) : value :=
  match a, b with
  | VNone, _ => b
  | _, VNone => a
  | VInt x, VInt y => VInt (Z.max x y)
  end.

(** [MAX(updated_date)]: NULL when no row has a non-null value. *)
Definition sql_max_updated (db : database) (schema name : string)
  : exn + value :=
  match find_table db schema name with
  | None => inl (UndefinedTable schema name)
  | Some t =>
      match column_index (column_names t) "updated_date" with
      | None => inl (UndefinedColumn "updated_date")
      | Some i =>
          inr (fold_left value_max
                 (map (fun r => nth i r VNone) (t_rows t)) VNone)
      end
  end.

(** [SELECT cols FROM schema.name [WHERE updated_date > 'literal']].
    The literal is coerced to the column's type when the statement is
    analysed: the text [None] is no number. *)
Definition sql_select (db : database) (cols : list string)
           (schema name : string) (watermark : option value)
  : exn + list row :=
  match find_table db schema name with
  | None => inl (UndefinedTable schema name)
  | Some t =>
      match resolve (column_names t) cols with
      | inl e => inl e
      | inr idxs =>
          match watermark with
          | None => inr (map (project idxs) (t_rows t))
          | Some lit =>
              match column_index (column_names t) "updated_date" with
              | None => inl (UndefinedColumn "updated_date")
              | Some i =>
                  match lit with
                  | VNone => inl (InvalidTextRepresentation (py_str lit))
                  | VInt w =>
                      inr (map (project idxs)
                             (filter (newer_than i w) (t_rows t)))
                  end
              end
          end
      end
  end.

Fixpoint has_dup (l : list string) : option string :=
  match l with
  | [] => None
  | c :: rest =>
      if existsb (String.eqb c) rest then Some c else has_dup rest
  end.

(** The row an INSERT builds: each table column takes the parameter
    standing at the position of its name in the INSERT's column list,
    and NULL when it is not named. *)
Definition build_row (tcols : list string) (cols : list string) (params : row)
  : row :=
  map (fun c => match column_index cols c with
                | Some i => nth i params VNone
                | None => VNone
                end) tcols.

Fixpoint null_violation (tcols : list string) (not_null : list string) (r : row)
  : option string :=
  match tcols, r with
  | c :: tcols', v :: r' =>
      if existsb (String.eqb c) not_null && value_eqb v VNone then Some c
      else null_violation tcols' not_null r'
  | _, _ => None
  end.

Fixpoint add_row (db : database) (schema name : string) (r : row) : database :=
  match db with
  | [] => []
  | t :: rest =>
      if is_table schema name t
      then mkTable (t_schema t) (t_name t) (t_columns t) (t_not_null t)
                   (t_rows t ++ [r]) :: rest
      else t :: add_row rest schema name r
  end.

(** One execution of the INSERT template with the parameters of one
    row. psycopg2 first splices the parameters into the placeholders
    (too few: IndexError, too many: TypeError), then the server runs
    the statement. *)
Definition sql_insert (db : database) (q : insert) (params : row)
  : exn + database :=
  let placeholders := List.length (i_placeholders q) in
  if Nat.ltb (List.length params) placeholders
  then inl (IndexError "tuple index out of range")
  else if Nat.ltb placeholders (List.length params)
  then inl (TypeError "not all arguments converted during string formatting")
  else
    match i_columns q with
    | [] => inl (SqlSyntaxError (render_insert q))
    | _ =>
        match find_table db (i_schema q) (i_table q) with
        | None => inl (UndefinedTable (i_schema q) (i_table q))
        | Some t =>
            match resolve (column_names t) (i_columns q) with
            | inl e => inl e
            | inr _ =>
                match has_dup (i_columns q) with
                | Some c => inl (DuplicateColumn c)
                | None =>
                    let r := build_row (column_names t) (i_columns q) params in
                    match null_violation (column_names t) (t_not_null t) r with
                    | Some c => inl (NotNullViolation c)
                    | None => inr (add_row db (i_schema q) (i_table q) r)
                    end
                end
            end
        end
    end.

(* ================================================================== *)
(** ** The world of one process: files, servers, connections, trace *)
(* ================================================================== *)

(** The keyword arguments of [psycopg2.connect]. *)
Record dsn : Type := mkDsn {
  d_host : string;
  d_database : string;
  d_user : string;
  d_password : string;
  d_port : string
}.

Definition dsn_eqb (a b : dsn) : bool :=
  String.eqb (d_host a) (d_host b)
  && String.eqb (d_database a) (d_database b)
  && String.eqb (d_user a) (d_user b)
  && String.eqb (d_password a) (d_password b)
  && String.eqb (d_port a) (d_port b).

(** What [yaml.safe_load] returns for a configuration file. *)
Definition config := list (string * string).

(** The two connection objects of a run, named by the procedure that
    creates them. A handle is such a name. *)
Inductive role : Type := Source | Target.

(** A psycopg2 connection with its cursor. [c_view] is what the session
    reads: the committed data of its server and its own uncommitted
    inserts. [c_catalog] and [c_result] are the rows of the cursor's
    last query that were not fetched yet. *)
Record connection : Type := mkConn {
  c_dsn : dsn;
  c_view : database;
  c_catalog : list (string * string);
  c_result : list row;
  c_closed : bool
}.

Inductive event : Type :=
| EvConnect (r : role) (d : dsn)
| EvExecute (r : role) (q : query)
| EvFetchOne (r : role)
| EvFetchAll (r : role)
| EvFetchMany (r : role) (size : nat) (rows : list row)
| EvExecuteMany (r : role) (q : insert) (rows : list row)
| EvCommit (r : role)
| EvClose (r : role)
| EvLogError (msg : string)
| EvPrint (msg : string).

(** The two locals of [p_move_data_for_table] that its [finally] block
    reads after a raise. *)
Record frame : Type := mkFrame {
  l_connection_source : option role;
  l_connection_target : option role
}.

Record world : Type := mkWorld {
  w_files : list (string * option config);   (* [None]: not valid YAML *)
  w_servers : list (dsn * database);         (* committed data per server *)
  w_source : option connection;
  w_target : option connection;
  w_frame : frame;
  w_trace : list event                       (* calls made, oldest first *)
}.

Definition get_conn (r : role) (w : world) : option connection :=
  match r with Source => w_source w | Target => w_target w end.

Definition set_conn (r : role) (c : connection) (w : world) : world :=
  match r with
  | Source => mkWorld (w_files w) (w_servers w) (Some c) (w_target w)
                      (w_frame w) (w_trace w)
  | Target => mkWorld (w_files w) (w_servers w) (w_source w) (Some c)
                      (w_frame w) (w_trace w)
  end.

Definition set_servers (s : list (dsn * database)) (w : world) : world :=
  mkWorld (w_files w) s (w_source w) (w_target w) (w_frame w) (w_trace w).

Definition set_frame (f : frame) (w : world) : world :=
  mkWorld (w_files w) (w_servers w) (w_source w) (w_target w) f (w_trace w).

Definition add_event (e : event) (w : world) : world :=
  mkWorld (w_files w) (w_servers w) (w_source w) (w_target w) (w_frame w)
          (w_trace w ++ [e]).

Fixpoint lookup_file (fs : list (string * option config)) (path : string)
  : option (option config) :=
  match fs with
  | [] => None
  | (p, c) :: rest => if String.eqb p path then Some c else lookup_file rest path
  end.

Fixpoint lookup_key (cfg : config) (key : string) : option string :=
  match cfg with
  | [] => None
  | (k, v) :: rest => if String.eqb k key then Some v else lookup_key rest key
  end.

Fixpoint lookup_server (s : list (dsn * database)) (d : dsn) : option database :=
  match s with
  | [] => None
  | (d', db) :: rest => if dsn_eqb d' d then Some db else lookup_server rest d
  end.

Fixpoint store_server (s : list (dsn * database)) (d : dsn) (db : database)
  : list (dsn * database) :=
  match s with
  | [] => []
  | (d', db') :: rest =>
      if dsn_eqb d' d then (d', db) :: rest
      else (d', db') :: store_server rest d db
  end.

(* ================================================================== *)
(** ** The monad: state, exceptions, [try]/[except]/[finally] *)
(* ================================================================== *)

(** [OutOfFuel] is the model's bound on [while True]; it is no Python
    exception and no handler sees it. *)
Inductive outcome (A : Type) : Type :=
| Return (a : A)
| Raise (e : exn)
| OutOfFuel.

Arguments Return {A} a.
Arguments Raise {A} e.
Arguments OutOfFuel {A}.

Definition M (A : Type) : Type := world -> outcome A * world.

Definition ret {A} (a : A) : M A := fun w => (Return a, w).

Definition bind {A B} (m : M A) (k : A -> M B) : M B :=
  fun w =>
    match m w with
    | (Return a, w') => k a w'
    | (Raise e, w') => (Raise e, w')
    | (OutOfFuel, w') => (OutOfFuel, w')
    end.

Definition raise {A} (e : exn) : M A := fun w => (Raise e, w).

Declare Scope monad_scope.
Delimit Scope monad_scope with monad.
Notation "x <- m ;; k" := (bind m (fun x => k))
  (at level 61, m at next level, right associativity) : monad_scope.
Notation "m ;; k" := (bind m (fun _ => k))
  (at level 61, right associativity) : monad_scope.
Open Scope monad_scope.

(** [try: body / except Exception as e: handler e] *)
Definition try_except {A} (body : M A) (handler : exn -> M A) : M A :=
  fun w =>
    match body w with
    | (Raise e, w') => handler e w'
    | r => r
    end.

(** [try: body / finally: final]. An exception of the [finally] block
    replaces whatever the body produced. *)
Definition try_finally {A} (body : M A) (final : M unit) : M A :=
  fun w =>
    match body w with
    | (OutOfFuel, w') => (OutOfFuel, w')
    | (r, w') =>
        match final w' with
        | (Return _, w'') => (r, w'')
        | (Raise e, w'') => (Raise e, w'')
        | (OutOfFuel, w'') => (OutOfFuel, w'')
        end
    end.

Definition emit (e : event) : M unit := fun w => (Return tt, add_event e w).

(** [logging.error(msg)] and [print("Error: ", e)]. *)
Definition logging_error (msg : string) : M unit := emit (EvLogError msg).
Definition print (msg : string) : M unit := emit (EvPrint msg).

(** The [except] clause every procedure of main.py ends with:
    log, print, bare [raise]. *)
Definition log_and_reraise {A} (e : exn) : M A :=
  logging_error ("An error occurred: " ++ exn_str e) ;;
  print ("Error:  " ++ exn_str e) ;;
  raise e.

(* ================================================================== *)
(** ** yaml, psycopg2 *)
(* ================================================================== *)

(** [with open(path, 'r') as file: yaml.safe_load(file)] *)
Definition yaml_safe_load (path : string) : M config :=
  fun w =>
    match lookup_file (w_files w) path with
    | None => (Raise (FileNotFoundError path), w)
    | Some None => (Raise (YAMLError path), w)
    | Some (Some cfg) => (Return cfg, w)
    end.

(** [cfg[key]] *)
Definition getitem (cfg : config) (key : string) : M string :=
  match lookup_key cfg key with
  | Some v => ret v
  | None => raise (KeyError key)
  end.

(** [psycopg2.connect(...)]: the new connection object is the one the
    caller's role names. *)
Definition psycopg2_connect (r : role) (d : dsn) : M role :=
  emit (EvConnect r d) ;;
  fun w =>
    match lookup_server (w_servers w) d with
    | None => (Raise (OperationalError "could not connect to server"), w)
    | Some db => (Return r, set_conn r (mkConn d db [] [] false) w)
    end.

(** The live connection behind a handle; psycopg2 refuses a closed one. *)
Definition live (r : role) : M connection :=
  fun w =>
    match get_conn r w with
    | Some c =>
        if c_closed c then (Raise (InterfaceError "connection already closed"), w)
        else (Return c, w)
    | None => (Raise (InterfaceError "connection already closed"), w)
    end.

Definition update (r : role) (c : connection) : M unit :=
  fun w => (Return tt, set_conn r c w).

Definition set_result (c : connection) (cat : list (string * string))
           (rows : list row) : connection :=
  mkConn (c_dsn c) (c_view c) cat rows (c_closed c).

Definition set_view (c : connection) (db : database) : connection :=
  mkConn (c_dsn c) db (c_catalog c) (c_result c) (c_closed c).

(** What the server answers to a query on the session's view. *)
Definition run_query (db : database) (q : query)
  : exn + (list (string * string) * list row) :=
  match q with
  | SelectColumns n => inr (catalog_columns db n, [])
  | SelectCount s t =>
      match sql_count db s t with
      | inl e => inl e
      | inr n => inr ([], [[VInt (Z.of_nat n)]])
      end
  | SelectMaxUpdated s t =>
      match sql_max_updated db s t with
      | inl e => inl e
      | inr v => inr ([], [[v]])
      end
  | SelectFrom cols s t wm =>
      match sql_select db cols s t wm with
      | inl e => inl e
      | inr rows => inr ([], rows)
      end
  end.

(** [cursor.execute(q)]: a client-side cursor holds the whole result. *)
Definition execute (r : role) (q : query) : M unit :=
  emit (EvExecute r q) ;;
  c <- live r ;;
  match run_query (c_view c) q with
  | inl e => raise e
  | inr (cat, rows) => update r (set_result c cat rows)
  end.

(** [cursor.fetchall()] on the catalog query. *)
Definition fetchall (r : role) : M (list (string * string)) :=
  emit (EvFetchAll r) ;;
  c <- live r ;;
  update r (set_result c [] (c_result c)) ;;
  ret (c_catalog c).

(** [cursor.fetchone()[0]] *)
Definition fetchone_0 (r : role) : M value :=
  emit (EvFetchOne r) ;;
  c <- live r ;;
  match c_result c with
  | [] => raise (TypeError "'NoneType' object is not subscriptable")
  | first :: rest =>
      update r (set_result c (c_catalog c) rest) ;;
      match first with
      | [] => raise (IndexError "tuple index out of range")
      | v :: _ => ret v
      end
  end.

(** [cursor.fetchmany(size=n)] *)
Definition fetchmany (r : role) (size : nat) : M (list row) :=
  c <- live r ;;
  emit (EvFetchMany r size (firstn size (c_result c))) ;;
  update r (set_result c (c_catalog c) (skipn size (c_result c))) ;;
  ret (firstn size (c_result c)).

(** The statement is executed once per parameter row, in order; the
    first failure stops the batch, the rows before it stay in the open
    transaction. *)
Fixpoint insert_rows (db : database) (q : insert) (rows : list row)
  : database * option exn :=
  match rows with
  | [] => (db, None)
  | r :: rest =>
      match sql_insert db q r with
      | inl e => (db, Some e)
      | inr db' => insert_rows db' q rest
      end
  end.

(** [cursor.executemany(template, rows)] *)
Definition executemany (r : role) (q : insert) (rows : list row) : M unit :=
  emit (EvExecuteMany r q rows) ;;
  c <- live r ;;
  match insert_rows (c_view c) q rows with
  | (db, None) => update r (set_view c db)
  | (db, Some e) => update r (set_view c db) ;; raise e
  end.

(** [connection.commit()] *)
Definition commit (r : role) : M unit :=
  emit (EvCommit r) ;;
  c <- live r ;;
  fun w => (Return tt, set_servers (store_server (w_servers w) (c_dsn c) (c_view c)) w).

(** [connection.close()]: closing twice is allowed; what was not
    committed is gone with the session. *)
Definition close (r : role) : M unit :=
  emit (EvClose r) ;;
  fun w =>
    match get_conn r w with
    | Some c =>
        (Return tt, set_conn r (mkConn (c_dsn c) (c_view c) (c_catalog c)
                                       (c_result c) true) w)
    | None => (Return tt, w)
    end.

(** [handle.close()] where the handle is a local that may still hold
    [None]. *)
Definition close_handle (h : option role) : M unit :=
  match h with
  | Some r => close r
  | None => raise (AttributeError "'NoneType' object has no attribute 'close'")
  end.

(** [with connection.cursor() as cursor: body]: the cursor is closed on
    the way out, whatever the body did. *)
Definition with_cursor {A} (r : role) (body : M A) : M A :=
  live r ;;
  try_finally body
    (fun w =>
       match get_conn r w with
       | Some c => (Return tt, set_conn r (set_result c [] []) w)
       | None => (Return tt, w)
       end).

(* ================================================================== *)
(** ** main.py *)
(* ================================================================== *)

(** Lines 22-31. *)
Definition p_read_config (i_yaml_file : string) : M config :=
  try_except
    (o_db_config <- yaml_safe_load i_yaml_file ;;
     ret o_db_config)
    log_and_reraise.

(** The five keyword arguments, evaluated in the order written. *)
Definition connect_with (r : role) (l_db_config : config) : M role :=
  host <- getitem l_db_config "host" ;;
  database <- getitem l_db_config "database" ;;
  user <- getitem l_db_config "user" ;;
  password <- getitem l_db_config "password" ;;
  port <- getitem l_db_config "port" ;;
  psycopg2_connect r (mkDsn host database user password port).

(** Lines 42-56. *)
Definition p_connect_to_source : M role :=
  l_db_config <- p_read_config "config/source_db.yml" ;;
  try_except
    (o_connection <- connect_with Source l_db_config ;;
     ret o_connection)
    log_and_reraise.

(** Lines 66-80. *)
Definition p_connect_to_target : M role :=
  l_db_config <- p_read_config "config/target_db.yml" ;;
  try_except
    (o_connection <- connect_with Target l_db_config ;;
     ret o_connection)
    log_and_reraise.

(** Lines 93-103. *)
Definition p_get_table_definition (i_connection : role) (i_table_name : string)
  : M (list (string * string)) :=
  try_except
    (o_table_definition <-
       with_cursor i_connection
         (execute i_connection (SelectColumns i_table_name) ;;
          fetchall i_connection) ;;
     ret o_table_definition)
    log_and_reraise.

Definition set_l_connection_source (h : option role) : M unit :=
  fun w => (Return tt,
            set_frame (mkFrame h (l_connection_target (w_frame w))) w).

Definition set_l_connection_target (h : option role) : M unit :=
  fun w => (Return tt,
            set_frame (mkFrame (l_connection_source (w_frame w)) h) w).

Definition get_frame : M frame := fun w => (Return (w_frame w), w).

(** Lines 137-152: the emptiness test on the target and the source
    SELECT it chooses. *)
Definition select_source_rows (l_source_cursor l_target_cursor : role)
           (i_table_name i_source_schema i_target_schema : string)
           (l_target_columns : list string) : M unit :=
  execute l_target_cursor (SelectCount i_target_schema i_table_name) ;;
  l_target_row_count <- fetchone_0 l_target_cursor ;;
  if value_eqb l_target_row_count (VInt 0)
  then
    execute l_source_cursor
      (SelectFrom l_target_columns i_source_schema i_table_name None)
  else
    execute l_target_cursor (SelectMaxUpdated i_target_schema i_table_name) ;;
    l_max_update_date <- fetchone_0 l_target_cursor ;;
    execute l_source_cursor
      (SelectFrom l_target_columns i_source_schema i_table_name
                  (Some l_max_update_date)).

(** Lines 154-162: [while True]. Each unit of fuel pays for one pass. *)
Fixpoint transfer_loop (fuel : nat) (l_source_cursor l_target_cursor : role)
         (insert_query_template : insert) : M unit :=
  match fuel with
  | O => fun w => (OutOfFuel, w)
  | S fuel' =>
      rows <- fetchmany l_source_cursor 1000 ;;
      match rows with
      | [] => ret tt
      | _ :: _ =>
          executemany l_target_cursor insert_query_template rows ;;
          commit l_target_cursor ;;
          transfer_loop fuel' l_source_cursor l_target_cursor
                        insert_query_template
      end
  end.

(** Lines 122-162: the body of the [try]. *)
Definition move_data_body (fuel : nat)
           (i_table_name i_source_schema i_target_schema : string) : M unit :=
  l_connection_source <- p_connect_to_source ;;
  set_l_connection_source (Some l_connection_source) ;;
  l_source_table_definition <-
    p_get_table_definition l_connection_source i_table_name ;;
  let l_source_columns := map fst l_source_table_definition in
  l_connection_target <- p_connect_to_target ;;
  set_l_connection_target (Some l_connection_target) ;;
  l_target_table_definition <-
    p_get_table_definition l_connection_target i_table_name ;;
  let l_target_columns := map fst l_target_table_definition in
  let insert_query_template :=
    mkInsert i_target_schema i_table_name l_source_columns
             (repeat "%s" (List.length l_source_columns)) in
  with_cursor l_connection_source
    (with_cursor l_connection_target
       (select_source_rows l_connection_source l_connection_target
          i_table_name i_source_schema i_target_schema l_target_columns ;;
        transfer_loop fuel l_connection_source l_connection_target
          insert_query_template)).

(** Lines 118-169. *)
Definition p_move_data_for_table (fuel : nat)
           (i_table_name i_source_schema i_target_schema : string) : M unit :=
  set_l_connection_source None ;;
  set_l_connection_target None ;;
  try_finally
    (try_except
       (move_data_body fuel i_table_name i_source_schema i_target_schema)
       log_and_reraise)
    (f <- get_frame ;;
     close_handle (l_connection_source f) ;;
     f <- get_frame ;;
     close_handle (l_connection_target f)).

(* ================================================================== *)
(** ** Batches of a result stream: [chunks] *)
(* ================================================================== *)

(** The successive [fetchmany(n)] results over a stream [l]. *)
Fixpoint chunks_fuel {A : Type} (fuel n : nat) (l : list A) : list (list A) :=
  match fuel, l with
  | S f, _ :: _ => firstn n l :: chunks_fuel f n (skipn n l)
  | _, _ => []
  end.

Definition chunks {A : Type} (n : nat) (l : list A) : list (list A) :=
  chunks_fuel (List.length l) n l.

(* ================================================================== *)
(** ** Events of the planning and of the transfer loop *)
(* ================================================================== *)

(** The events of one pass of the loop that inserts batch [b]. *)
Definition pass_events (q : insert) (b : list row) : list event :=
  [EvFetchMany Source 1000 b; EvExecuteMany Target q b; EvCommit Target].

(** What the transfer loop is allowed to do over a stream [rs]. *)
Definition loop_event (q : insert) (rs : list row) (e : event) : Prop :=
  match e with
  | EvFetchMany Source _ b => incl b rs
  | EvExecuteMany Target q' b => q' = q /\ b <> [] /\ incl b rs
  | EvCommit Target => True
  | _ => False
  end.

(** What the planning of lines 137-152 is allowed to do. *)
Definition plan_event (e : event) : Prop :=
  match e with
  | EvExecute _ _ | EvFetchOne _ => True
  | _ => False
  end.

(* ================================================================== *)
(** ** Reading a trace; a run that reaches both stores *)
(* ================================================================== *)

Definition role_eqb (a b : role) : bool :=
  match a, b with
  | Source, Source | Target, Target => true
  | _, _ => false
  end.

(** The queries a trace shows executed on one connection, in order. *)
Definition queries_on (r : role) (tr : list event) : list query :=
  flat_map (fun e => match e with
                     | EvExecute r' q => if role_eqb r r' then [q] else []
                     | _ => []
                     end) tr.

(** The batches handed to [executemany], in order. *)
Definition inserted_batches (tr : list event) : list (list row) :=
  flat_map (fun e => match e with
                     | EvExecuteMany _ _ b => [b]
                     | _ => []
                     end) tr.

(** The INSERT templates used by [executemany], in order. *)
Definition insert_templates (tr : list event) : list insert :=
  flat_map (fun e => match e with
                     | EvExecuteMany _ q _ => [q]
                     | _ => []
                     end) tr.

Definition commits (tr : list event) : nat :=
  List.length (filter (fun e => match e with EvCommit _ => true | _ => false end) tr).

(** The connections a trace shows closed, in order. *)
Definition closes (tr : list event) : list role :=
  flat_map (fun e => match e with EvClose r => [r] | _ => [] end) tr.

(** The messages written to the log, in order. *)
Definition logged (tr : list event) : list string :=
  flat_map (fun e => match e with EvLogError m => [m] | _ => [] end) tr.

(** The rows the source SELECT of a run returns; none when the
    statement is refused. *)
Definition selected (dbs : database) (cols : list string) (ss tn : string)
           (wm : option value) : list row :=
  match sql_select dbs cols ss tn wm with
  | inr rs => rs
  | inl _ => []
  end.

(** The watermark argument of the source SELECT of a run over a
    target store [dbt]: none for an empty target table, the answer to
    the MAX query otherwise. [None] when the target refuses one of the
    two queries. *)
Definition planned_watermark (dbt : database) (ts tn : string)
  : option (option value) :=
  match sql_count dbt ts tn with
  | inl _ => None
  | inr 0 => Some None
  | inr (S _) =>
      match sql_max_updated dbt ts tn with
      | inl _ => None
      | inr v => Some (Some v)
      end
  end.

(** The calls on the target cursor that lead to that watermark. *)
Definition plan_events (ts tn : string) (wm : option value) : list event :=
  [EvExecute Target (SelectCount ts tn); EvFetchOne Target]
  ++ match wm with
     | None => []
     | Some _ => [EvExecute Target (SelectMaxUpdated ts tn); EvFetchOne Target]
     end.

(** The configuration file at [path] holds the five keys of [d]. *)
Definition reads (fs : list (string * option config)) (path : string) (d : dsn)
  : Prop :=
  exists cfg,
    lookup_file fs path = Some (Some cfg)
    /\ lookup_key cfg "host" = Some (d_host d)
    /\ lookup_key cfg "database" = Some (d_database d)
    /\ lookup_key cfg "user" = Some (d_user d)
    /\ lookup_key cfg "password" = Some (d_password d)
    /\ lookup_key cfg "port" = Some (d_port d).

(** Both configuration files are in place and both servers answer:
    the source server holds [dbs], the target server [dbt]. *)
Definition reachable (w : world) (ds dt : dsn) (dbs dbt : database) : Prop :=
  reads (w_files w) "config/source_db.yml" ds
  /\ reads (w_files w) "config/target_db.yml" dt
  /\ lookup_server (w_servers w) ds = Some dbs
  /\ lookup_server (w_servers w) dt = Some dbt.

(** A session after its cursor and itself were closed. *)
Definition closed_session (c : connection) : connection :=
  mkConn (c_dsn c) (c_view c) [] [] true.

Definition prelude_events (ds dt : dsn) (tn : string) : list event :=
  [EvConnect Source ds; EvExecute Source (SelectColumns tn); EvFetchAll Source;
   EvConnect Target dt; EvExecute Target (SelectColumns tn); EvFetchAll Target].

Definition error_events (e : exn) : list event :=
  [EvLogError ("An error occurred: " ++ exn_str e);
   EvPrint ("Error:  " ++ exn_str e)].

Definition close_events : list event := [EvClose Source; EvClose Target].

Definition both_handles : frame := mkFrame (Some Source) (Some Target).

(* ================================================================== *)
(** ** The source table seen from a DELTA load *)
(* ================================================================== *)

(** The rows of the source table of a run. *)
Definition source_rows (dbs : database) (ss tn : string) : list row :=
  match find_table dbs ss tn with
  | Some t => t_rows t
  | None => []
  end.

(** The [updated_date] of a row of the source table. *)
Definition updated_date_of (dbs : database) (ss tn : string) (r : row) : value :=
  match find_table dbs ss tn with
  | Some t =>
      match column_index (column_names t) "updated_date" with
      | Some i => nth i r VNone
      | None => VNone
      end
  | None => VNone
  end.

(** A row of the source table as the select list [cols] shows it. *)
Definition projected (dbs : database) (ss tn : string) (cols : list string)
           (r : row) : row :=
  match find_table dbs ss tn with
  | Some t =>
      match resolve (column_names t) cols with
      | inr idxs => project idxs r
      | inl _ => []
      end
  | None => []
  end.

(** [a <= b] on column values, NULL below every integer. *)
Definition value_le (a b : value) : Prop :=
  match a, b with
  | VNone, _ => True
  | VInt x, VInt y => (x <= y)%Z
  | VInt _, VNone => False
  end.

(** The table with other rows. *)
Definition with_rows (t : table) (rows : list row) : table :=
  mkTable (t_schema t) (t_name t) (t_columns t) (t_not_null t) rows.

(* ================================================================== *)
(** ** Concrete stores and worlds *)
(* ================================================================== *)

Definition source_dsn : dsn := mkDsn "source.example" "shop" "etl" "secret" "5432".

Definition target_dsn : dsn := mkDsn "target.example" "warehouse" "etl" "secret" "5432".

(** A configuration file in the format the header of [p_read_config]
    asks for. *)
Definition yaml_of (d : dsn) : config :=
  [("database", d_database d); ("user", d_user d);
   ("password", d_password d); ("host", d_host d); ("port", d_port d)].

Definition both_configs : list (string * option config) :=
  [("config/source_db.yml", Some (yaml_of source_dsn));
   ("config/target_db.yml", Some (yaml_of target_dsn))].

(** A process that has not run anything yet. *)
Definition fresh_world (files : list (string * option config))
           (servers : list (dsn * database)) : world :=
  mkWorld files servers None None (mkFrame None None) [].

Definition demo_world (source_tables target_tables : database) : world :=
  fresh_world both_configs
    [(source_dsn, source_tables); (target_dsn, target_tables)].

Definition id_then_date : list (string * string) :=
  [("id", "bigint"); ("updated_date", "bigint")].

Definition date_then_id : list (string * string) :=
  [("updated_date", "bigint"); ("id", "bigint")].

Definition products (schema : string) (columns : list (string * string))
           (not_null : list string) (rows : list row) : table :=
  mkTable schema "products" columns not_null rows.

(** Lines 175-176: the call the script makes. *)
Definition main (fuel : nat) : M unit :=
  p_move_data_for_table fuel "products" "Core" "dwh".

(** The committed rows of [dwh.products] on the target server. *)
Definition target_rows (w : world) : option (list row) :=
  match lookup_server (w_servers w) target_dsn with
  | Some db => option_map t_rows (find_table db "dwh" "products")
  | None => None
  end.

(** The value a row holds in the column named [c]. *)
Definition cell (columns : list (string * string)) (r : row) (c : string)
  : value :=
  match column_index (map fst columns) c with
  | Some i => nth i r VNone
  | None => VNone
  end.

(** A session on a server where [products] exists in two schemas. *)
Definition two_schemas : database :=
  [products "Core" id_then_date [] [];
   products "staging" [("sku", "text")] [] []].

Definition two_schemas_world : world :=
  mkWorld [] [(source_dsn, two_schemas)]
          (Some (mkConn source_dsn two_schemas [] [] false)) None
          (mkFrame (Some Source) None) [].

(** The claim that an empty column list stops the run, as a property
    of one run. *)
Definition empty_definition_is_error (w : world) (fuel : nat)
           (tn ss ts : string) : Prop :=
  forall ds dt dbs dbt,
    reachable w ds dt dbs dbt ->
    catalog_columns dbs tn = [] \/ catalog_columns dbt tn = [] ->
    exists e, fst (p_move_data_for_table fuel tn ss ts w) = Raise e.

(** Both stores have a [products] table declared without columns. *)
Definition bare_source : database := [products "Core" [] [] []].

Definition bare_target : database := [products "dwh" [] [] []].

Definition two_products : database :=
  [products "Core" id_then_date [] [[VInt 1; VInt 10]; [VInt 2; VInt 20]]].

Definition no_products : database := [products "dwh" id_then_date [] []].

Definition one_product : database :=
  [products "dwh" id_then_date [] [[VInt 1; VInt 10]]].

(** A stream of 2500 rows in the source cursor, an empty one-column
    target table. *)
Definition many_rows : list row :=
  map (fun i => [VInt (Z.of_nat i)]) (seq 1 2500).

Definition numbers (schema : string) (rows : list row) : database :=
  [mkTable schema "numbers" [("n", "integer")] ["n"] rows].

Definition numbers_insert : insert := mkInsert "dwh" "numbers" ["n"] ["%s"].

Definition mid_transfer (rows : list row) : world :=
  mkWorld both_configs
    [(source_dsn, numbers "Core" rows); (target_dsn, numbers "dwh" [])]
    (Some (mkConn source_dsn (numbers "Core" rows) [] rows false))
    (Some (mkConn target_dsn (numbers "dwh" []) [] [] false))
    both_handles [].

(** 2500 source rows of which the 1500th holds NULL, and a target
    column declared NOT NULL: the insert of batch 2 of 3 fails. *)
Definition broken_rows : list row :=
  map (fun i => if Nat.eqb i 1500 then [VNone] else [VInt (Z.of_nat i)])
      (seq 1 2500).

(** The source lists (id, updated_date), the target lists
    (updated_date, id); the source holds the product with id 1
    updated at 100. *)
Definition permuted_source : database :=
  [products "Core" id_then_date [] [[VInt 1; VInt 100]]].

Definition permuted_target : database := [products "dwh" date_then_id [] []].

(** The same target, holding one row updated at 50. *)
Definition permuted_target_at_50 : database :=
  [products "dwh" date_then_id [] [[VInt 50; VInt 0]]].

(** The target is not empty and no row of it has an [updated_date]. *)
Definition null_dates_target : database :=
  [products "dwh" id_then_date [] [[VInt 7; VNone]]].

(** The source configuration file is not there. *)
Definition no_source_config : world :=
  fresh_world [("config/target_db.yml", Some (yaml_of target_dsn))]
    [(source_dsn, two_products); (target_dsn, no_products)].

(** The target server does not answer. *)
Definition target_down : world :=
  fresh_world both_configs [(source_dsn, two_products)].

(** The source server does not answer. *)
Definition source_down : world :=
  fresh_world both_configs [(target_dsn, no_products)].

(* ================================================================== *)
(** ** What a connection procedure comes to *)
(* ================================================================== *)

(** The keys [psycopg2.connect] is given, in the order the call of
    lines 45-51 evaluates them. *)
Definition required_keys : list string :=
  ["host"; "database"; "user"; "password"; "port"].

Definition has_key (cfg : config) (k : string) : bool :=
  match lookup_key cfg k with Some _ => true | None => false end.

(** The first of them a configuration lacks. *)
Definition first_missing (cfg : config) : option string :=
  find (fun k => negb (has_key cfg k)) required_keys.

Definition value_of (cfg : config) (k : string) : string :=
  match lookup_key cfg k with Some v => v | None => "" end.

(** The connection parameters a complete configuration holds. *)
Definition dsn_of (cfg : config) : dsn :=
  mkDsn (value_of cfg "host") (value_of cfg "database") (value_of cfg "user")
        (value_of cfg "password") (value_of cfg "port").

(** What a connection procedure comes to, given the files and the
    servers: the exception it raises, or the parameters it connects
    with and the data found there. *)
Definition connect_result (fs : list (string * option config))
           (sv : list (dsn * database)) (path : string)
  : exn + (dsn * database) :=
  match lookup_file fs path with
  | None => inl (FileNotFoundError path)
  | Some None => inl (YAMLError path)
  | Some (Some cfg) =>
      match first_missing cfg with
      | Some k => inl (KeyError k)
      | None =>
          match lookup_server sv (dsn_of cfg) with
          | None => inl (OperationalError "could not connect to server")
          | Some db => inr (dsn_of cfg, db)
          end
      end
  end.

(** The calls to [psycopg2.connect] it makes on the way. *)
Definition connect_calls (r : role) (fs : list (string * option config))
           (path : string) : list event :=
  match lookup_file fs path with
  | Some (Some cfg) =>
      match first_missing cfg with
      | None => [EvConnect r (dsn_of cfg)]
      | Some _ => []
      end
  | _ => []
  end.

Definition add_events (evs : list event) (w : world) : world :=
  mkWorld (w_files w) (w_servers w) (w_source w) (w_target w) (w_frame w)
          (w_trace w ++ evs).

(* ================================================================== *)
(** ** Writes of a run; stores that describe the table alike *)
(* ================================================================== *)

(** The connections a trace shows written to: bulk inserts and commits. *)
Definition writers (tr : list event) : list role :=
  flat_map (fun e => match e with
                     | EvExecuteMany r _ _ => [r]
                     | EvCommit r => [r]
                     | _ => []
                     end) tr.

(** What the block of lines 137-162 is allowed to do. *)
Definition block_event (q : insert) (rs : list row) (e : event) : Prop :=
  plan_event e \/ loop_event q rs e.

(** The exception psycopg2 raises when the number of parameters of a
    row is not the number of placeholders. *)
Definition arity_error (params placeholders : nat) : exn :=
  if Nat.ltb params placeholders
  then IndexError "tuple index out of range"
  else TypeError "not all arguments converted during string formatting".

(** The rows the source answers with when asked for its own columns. *)
Definition matching (st : table) (wm : option value) : list row :=
  match wm with
  | None => t_rows st
  | Some (VInt W) =>
      match column_index (column_names st) "updated_date" with
      | Some i => filter (newer_than i W) (t_rows st)
      | None => []
      end
  | Some VNone => []
  end.

(** The two stores describe the table in the same way: one table of
    that name on each side, the same columns with the same types in
    the same order, no column twice, and source rows of that width. *)
Definition aligned (dbs dbt : database) (tn ss ts : string) (st tg : table)
  : Prop :=
  find_table dbs ss tn = Some st
  /\ find_table dbt ts tn = Some tg
  /\ catalog_columns dbs tn = t_columns st
  /\ catalog_columns dbt tn = t_columns tg
  /\ t_columns st = t_columns tg
  /\ NoDup (column_names tg)
  /\ Forall (fun r => List.length r = List.length (column_names tg)) (t_rows st).

(* ================================================================== *)
(** ** Further stores and worlds *)
(* ================================================================== *)

(** A source configuration that stops after the database name. *)
Definition partial_source_config : world :=
  fresh_world
    [("config/source_db.yml", Some [("host", "source.example"); ("database", "shop")]);
     ("config/target_db.yml", Some (yaml_of target_dsn))]
    [(source_dsn, two_products); (target_dsn, no_products)].

(** A world whose source connection was closed. *)
Definition closed_source_world : world :=
  mkWorld both_configs [(source_dsn, two_products)]
          (Some (mkConn source_dsn two_products [] [] true)) None
          (mkFrame (Some Source) None) [].

(** [products] between two tables of other names. *)
Definition three_tables : database :=
  [mkTable "Core" "customers" [("id", "bigint")] [] [];
   products "Core" id_then_date [] [];
   mkTable "Core" "orders" [("id", "bigint"); ("total", "bigint")] [] []].

Definition three_tables_world : world :=
  mkWorld [] [(source_dsn, three_tables)]
          (Some (mkConn source_dsn three_tables [] [] false)) None
          (mkFrame (Some Source) None) [].

(** A source table with the one row the target already has. *)
Definition one_source_product : database :=
  [products "Core" id_then_date [] [[VInt 1; VInt 10]]].

(** An empty target table with a column the source table lacks. *)
Definition priced_target : database :=
  [products "dwh" (id_then_date ++ [("price", "bigint")]) [] []].

(** A target table with a row and no [updated_date] column. *)
Definition undated_target : database :=
  [products "dwh" [("id", "bigint")] [] [[VInt 1]]].

(** A source table without columns that has a row. *)
Definition bare_source_row : database := [products "Core" [] [] [[]]].

(** A source table with one column more than the target table. *)
Definition priced_source : database :=
  [products "Core" (id_then_date ++ [("price", "bigint")]) []
     [[VInt 1; VInt 10; VInt 5]]].

(* ================================================================== *)
(** * Properties *)
(* ================================================================== *)

(* ================================================================== *)
(** ** Batches of a result stream *)
(* ================================================================== *)

Section Chunks.
Context {A : Type}.

Lemma chunks_fuel_enough n : forall f (l : list A),
  List.length l <= f -> chunks_fuel f (S n) l = chunks (S n) l.
Proof.
  unfold chunks. induction f as [f IH] using lt_wf_ind. intros l Hl.
  destruct l as [|a l]; [destruct f; reflexivity|].
  destruct f as [|f]; [cbn in Hl; lia|].
  cbn [chunks_fuel List.length]. f_equal.
  assert (Hk : List.length (skipn (S n) (a :: l)) <= List.length l)
    by (rewrite length_skipn; cbn [List.length]; lia).
  cbn [List.length] in Hl.
  rewrite (IH f) by lia.
  destruct (Nat.eq_dec (List.length l) f) as [->|Hne].
  - rewrite (IH f); [reflexivity | lia | lia].
  - rewrite (IH (List.length l)); [reflexivity | lia | lia].
Qed.

Lemma chunks_cons n (l : list A) :
  l <> [] -> chunks (S n) l = firstn (S n) l :: chunks (S n) (skipn (S n) l).
Proof.
  intros Hl. destruct l as [|a l]; [congruence|].
  unfold chunks at 1. cbn [chunks_fuel List.length]. f_equal.
  apply chunks_fuel_enough. rewrite length_skipn. cbn [List.length]. lia.
Qed.

Lemma concat_chunks n (l : list A) : List.concat (chunks (S n) l) = l.
Proof.
  remember (List.length l) as k eqn:Hk. revert l Hk.
  induction k as [k IH] using lt_wf_ind. intros l Hk.
  destruct l as [|a l]; [reflexivity|].
  rewrite chunks_cons by congruence. cbn [List.concat].
  rewrite (IH (List.length (skipn (S n) (a :: l)))); try reflexivity.
  - apply firstn_skipn.
  - rewrite length_skipn. subst k. cbn [List.length]. lia.
Qed.

Lemma firstn_nonempty n (l : list A) : l <> [] -> firstn (S n) l <> [].
Proof. destruct l; [congruence | cbn; discriminate]. Qed.

End Chunks.

(* ================================================================== *)
(** ** Facts about the store *)
(* ================================================================== *)

Lemma insert_rows_app q : forall a b db,
  insert_rows db q (a ++ b) =
  match insert_rows db q a with
  | (db1, None) => insert_rows db1 q b
  | (db1, Some e) => (db1, Some e)
  end.
Proof.
  induction a as [|r a IH]; intros b db; simpl.
  - reflexivity.
  - destruct (sql_insert db q r); [reflexivity | apply IH].
Qed.

Lemma insert_rows_nil q db : insert_rows db q [] = (db, None).
Proof. reflexivity. Qed.

Lemma dsn_eqb_refl d : dsn_eqb d d = true.
Proof. unfold dsn_eqb. now rewrite !String.eqb_refl. Qed.

Lemma store_server_twice s d a b :
  store_server (store_server s d a) d b = store_server s d b.
Proof.
  induction s as [|[d' db'] s IH]; simpl; [reflexivity|].
  destruct (dsn_eqb d' d) eqn:E; simpl; rewrite E; [reflexivity|].
  now rewrite IH.
Qed.

Lemma lookup_store_same s d db0 db :
  lookup_server s d = Some db0 ->
  lookup_server (store_server s d db) d = Some db.
Proof.
  induction s as [|[d' db'] s IH]; simpl; [discriminate|].
  destruct (dsn_eqb d' d) eqn:E; simpl; rewrite E; [reflexivity | exact IH].
Qed.

Lemma lookup_store_other s d d' db :
  dsn_eqb d d' = false ->
  lookup_server (store_server s d db) d' = lookup_server s d'.
Proof.
  intros Hne. induction s as [|[d0 db0] s IH]; simpl; [reflexivity|].
  destruct (dsn_eqb d0 d) eqn:E; simpl.
  - destruct (dsn_eqb d0 d') eqn:E'; [|reflexivity].
    exfalso. unfold dsn_eqb in *.
    repeat match goal with
    | H : _ && _ = true |- _ => apply andb_prop in H; destruct H
    | H : String.eqb _ _ = true |- _ => apply String.eqb_eq in H
    end.
    destruct d0, d, d'; simpl in *; subst. now rewrite !String.eqb_refl in Hne.
  - destruct (dsn_eqb d0 d'); [reflexivity | exact IH].
Qed.

Arguments lookup_file : simpl never.
Arguments lookup_key : simpl never.
Arguments lookup_server : simpl never.
Arguments store_server : simpl never.
Arguments catalog_columns : simpl never.
Arguments sql_count : simpl never.
Arguments sql_max_updated : simpl never.
Arguments sql_select : simpl never.
Arguments insert_rows : simpl never.
Arguments firstn : simpl never.
Arguments skipn : simpl never.

(* ================================================================== *)
(** ** The two blocks of the transfer, on a world with both sessions *)
(* ================================================================== *)

Ltac run_ops :=
  unfold execute, fetchone_0, fetchall, fetchmany, executemany, commit, close,
    emit, bind, live, update, raise, ret, set_servers, add_event, set_result,
    set_view;
  cbn.

Section Blocks.

Variables (fs : list (string * option config)) (fr : frame).
Variables (ds dt : dsn) (vs : database).

Local Abbreviation W sv cs ct tr := (mkWorld fs sv (Some cs) (Some ct) fr tr).
Local Abbreviation src cat rs := (mkConn ds vs cat rs false).
Local Abbreviation tgt vt cat rt := (mkConn dt vt cat rt false).

Lemma execute_source sv cat rs ct tr q :
  execute Source q (W sv (src cat rs) ct tr) =
  match run_query vs q with
  | inl e => (Raise e, W sv (src cat rs) ct (tr ++ [EvExecute Source q]))
  | inr (cat', rs') =>
      (Return tt, W sv (src cat' rs') ct (tr ++ [EvExecute Source q]))
  end.
Proof. run_ops. destruct (run_query vs q) as [e|[cat' rs']]; reflexivity. Qed.

Lemma execute_target sv cs vt cat rt tr q :
  execute Target q (W sv cs (tgt vt cat rt) tr) =
  match run_query vt q with
  | inl e => (Raise e, W sv cs (tgt vt cat rt) (tr ++ [EvExecute Target q]))
  | inr (cat', rt') =>
      (Return tt, W sv cs (tgt vt cat' rt') (tr ++ [EvExecute Target q]))
  end.
Proof. run_ops. destruct (run_query vt q) as [e|[cat' rt']]; reflexivity. Qed.

Lemma fetchone_target sv cs vt cat v r0 rt tr :
  fetchone_0 Target (W sv cs (tgt vt cat ((v :: r0) :: rt)) tr) =
  (Return v, W sv cs (tgt vt cat rt) (tr ++ [EvFetchOne Target])).
Proof. run_ops. reflexivity. Qed.

Section Select.

Variables (tn ss ts : string) (cols : list string).

Local Abbreviation count_events :=
  [EvExecute Target (SelectCount ts tn); EvFetchOne Target].

Local Abbreviation max_events :=
  [EvExecute Target (SelectMaxUpdated ts tn); EvFetchOne Target].

Lemma select_count_fails sv cs vt cat rt tr e :
  sql_count vt ts tn = inl e ->
  select_source_rows Source Target tn ss ts cols (W sv cs (tgt vt cat rt) tr) =
  (Raise e, W sv cs (tgt vt cat rt) (tr ++ [EvExecute Target (SelectCount ts tn)])).
Proof.
  intros Hc. unfold select_source_rows. unfold bind at 1.
  rewrite execute_target. cbn [run_query]. rewrite Hc. reflexivity.
Qed.

Lemma select_full sv cs vt cat rt tr :
  sql_count vt ts tn = inr 0 ->
  select_source_rows Source Target tn ss ts cols (W sv cs (tgt vt cat rt) tr) =
  execute Source (SelectFrom cols ss tn None)
    (W sv cs (tgt vt [] []) (tr ++ count_events)).
Proof.
  intros Hc. unfold select_source_rows. unfold bind at 1.
  rewrite execute_target. cbn [run_query]. rewrite Hc.
  unfold bind at 1. rewrite fetchone_target. cbn [value_eqb Z.of_nat Z.eqb].
  rewrite <- app_assoc. reflexivity.
Qed.

Lemma select_max_fails sv cs vt cat rt tr n e :
  sql_count vt ts tn = inr (S n) ->
  sql_max_updated vt ts tn = inl e ->
  select_source_rows Source Target tn ss ts cols (W sv cs (tgt vt cat rt) tr) =
  (Raise e, W sv cs (tgt vt [] [])
              (tr ++ count_events ++ [EvExecute Target (SelectMaxUpdated ts tn)])).
Proof.
  intros Hc Hm. unfold select_source_rows. unfold bind at 1.
  rewrite execute_target. cbn [run_query]. rewrite Hc.
  unfold bind at 1. rewrite fetchone_target.
  replace (value_eqb (VInt (Z.of_nat (S n))) (VInt 0)) with false by reflexivity.
  unfold bind at 1. rewrite execute_target. cbn [run_query]. rewrite Hm.
  rewrite <- !app_assoc. reflexivity.
Qed.

Lemma select_delta sv cs vt cat rt tr n wm :
  sql_count vt ts tn = inr (S n) ->
  sql_max_updated vt ts tn = inr wm ->
  select_source_rows Source Target tn ss ts cols (W sv cs (tgt vt cat rt) tr) =
  execute Source (SelectFrom cols ss tn (Some wm))
    (W sv cs (tgt vt [] []) (tr ++ count_events ++ max_events)).
Proof.
  intros Hc Hm. unfold select_source_rows. unfold bind at 1.
  rewrite execute_target. cbn [run_query]. rewrite Hc.
  unfold bind at 1. rewrite fetchone_target.
  replace (value_eqb (VInt (Z.of_nat (S n))) (VInt 0)) with false by reflexivity.
  unfold bind at 1. rewrite execute_target. cbn [run_query]. rewrite Hm.
  unfold bind at 1. rewrite fetchone_target.
  rewrite <- !app_assoc. reflexivity.
Qed.

End Select.

Section Loop.

Variables (q : insert) (cs_cat ct_cat : list (string * string)) (rt : list row).

Lemma fetchmany_source sv rs ct tr n :
  fetchmany Source n (W sv (src cs_cat rs) ct tr) =
  (Return (firstn n rs),
   W sv (src cs_cat (skipn n rs)) ct (tr ++ [EvFetchMany Source n (firstn n rs)])).
Proof. run_ops. reflexivity. Qed.

Lemma executemany_target sv cs vt tr b :
  executemany Target q b (W sv cs (tgt vt ct_cat rt) tr) =
  match insert_rows vt q b with
  | (v, None) =>
      (Return tt, W sv cs (tgt v ct_cat rt) (tr ++ [EvExecuteMany Target q b]))
  | (v, Some e) =>
      (Raise e, W sv cs (tgt v ct_cat rt) (tr ++ [EvExecuteMany Target q b]))
  end.
Proof. run_ops. destruct (insert_rows vt q b) as [v [e|]]; reflexivity. Qed.

Lemma commit_target sv cs vt tr :
  commit Target (W sv cs (tgt vt ct_cat rt) tr) =
  (Return tt, W (store_server sv dt vt) cs (tgt vt ct_cat rt) (tr ++ [EvCommit Target])).
Proof. run_ops. reflexivity. Qed.

(** One pass of [while True]. *)
Lemma transfer_loop_pass fuel sv rs vt tr :
  transfer_loop (S fuel) Source Target q (W sv (src cs_cat rs) (tgt vt ct_cat rt) tr) =
  match rs with
  | [] =>
      (Return tt,
       W sv (src cs_cat []) (tgt vt ct_cat rt) (tr ++ [EvFetchMany Source 1000 []]))
  | _ :: _ =>
      let b := firstn 1000 rs in
      match insert_rows vt q b with
      | (v, None) =>
          transfer_loop fuel Source Target q
            (W (store_server sv dt v) (src cs_cat (skipn 1000 rs))
               (tgt v ct_cat rt) (tr ++ pass_events q b))
      | (v, Some e) =>
          (Raise e,
           W sv (src cs_cat (skipn 1000 rs)) (tgt v ct_cat rt)
             (tr ++ [EvFetchMany Source 1000 b; EvExecuteMany Target q b]))
      end
  end.
Proof.
  cbn [transfer_loop]. unfold bind at 1. rewrite fetchmany_source.
  destruct rs as [|r rs'].
  - rewrite firstn_nil, skipn_nil. reflexivity.
  - cbv zeta. destruct (firstn 1000 (r :: rs')) as [|r0 b0] eqn:Eb.
    + exfalso. revert Eb. apply (firstn_nonempty 999 (r :: rs')). discriminate.
    + unfold bind at 1. rewrite executemany_target.
      destruct (insert_rows vt q (r0 :: b0)) as [v [e|]].
      * rewrite <- app_assoc. reflexivity.
      * unfold bind at 1. rewrite commit_target.
        unfold pass_events. rewrite <- !app_assoc. reflexivity.
Qed.

(** Every insert succeeds: each batch is fetched, inserted and
    committed in turn, and the empty fetch ends the loop. *)
Lemma transfer_loop_ok : forall fuel rs vt sv tr v',
  List.length rs < fuel ->
  insert_rows vt q rs = (v', None) ->
  transfer_loop fuel Source Target q (W sv (src cs_cat rs) (tgt vt ct_cat rt) tr) =
  (Return tt,
   W (match rs with [] => sv | _ :: _ => store_server sv dt v' end)
     (src cs_cat []) (tgt v' ct_cat rt)
     (tr ++ flat_map (pass_events q) (chunks 1000 rs)
         ++ [EvFetchMany Source 1000 []])).
Proof.
  induction fuel as [|fuel IH]; intros rs vt sv tr v' Hf Hi; [lia|].
  rewrite transfer_loop_pass. destruct rs as [|r rs'].
  - rewrite insert_rows_nil in Hi. inversion Hi; subst. reflexivity.
  - cbv zeta. rewrite <- (firstn_skipn 1000 (r :: rs')) in Hi.
    rewrite insert_rows_app in Hi.
    destruct (insert_rows vt q (firstn 1000 (r :: rs'))) as [v [e|]];
      [discriminate|].
    rewrite (IH _ _ _ _ v'); [| rewrite length_skipn; cbn [List.length] in *; lia | exact Hi].
    rewrite (chunks_cons 999 (r :: rs')) by discriminate. cbn [flat_map].
    rewrite <- !app_assoc. f_equal. f_equal.
    destruct (skipn 1000 (r :: rs')) eqn:Es.
    + rewrite insert_rows_nil in Hi. inversion Hi; subst. reflexivity.
    + apply store_server_twice.
Qed.

(** [k] full batches go through and the next one fails: the loop ends
    there with the exception of the failing insert. *)
Lemma transfer_loop_fails : forall k fuel good rest vt sv tr v1 v2 e,
  k < fuel ->
  List.length good = k * 1000 ->
  insert_rows vt q good = (v1, None) ->
  insert_rows v1 q (firstn 1000 rest) = (v2, Some e) ->
  transfer_loop fuel Source Target q
    (W sv (src cs_cat (good ++ rest)) (tgt vt ct_cat rt) tr) =
  (Raise e,
   W (match good with [] => sv | _ :: _ => store_server sv dt v1 end)
     (src cs_cat (skipn 1000 rest)) (tgt v2 ct_cat rt)
     (tr ++ flat_map (pass_events q) (chunks 1000 good)
         ++ [EvFetchMany Source 1000 (firstn 1000 rest);
             EvExecuteMany Target q (firstn 1000 rest)])).
Proof.
  induction k as [|k IH]; intros fuel good rest vt sv tr v1 v2 e Hf Hl Hg Hb;
    (destruct fuel as [|fuel]; [lia|]); rewrite transfer_loop_pass.
  - destruct good; [|discriminate]. cbn [app].
    rewrite insert_rows_nil in Hg. inversion Hg; subst.
    destruct rest as [|r rest'].
    + rewrite firstn_nil in Hb. discriminate.
    + cbv zeta. rewrite Hb. reflexivity.
  - assert (Hfg : firstn 1000 (good ++ rest) = firstn 1000 good).
    { rewrite firstn_app. replace (1000 - List.length good) with 0 by lia.
      rewrite firstn_O. apply app_nil_r. }
    assert (Hsg : skipn 1000 (good ++ rest) = skipn 1000 good ++ rest).
    { rewrite skipn_app. replace (1000 - List.length good) with 0 by lia.
      reflexivity. }
    destruct good as [|g good']; [discriminate|]. cbn [app]. cbv zeta.
    change (g :: good' ++ rest) with ((g :: good') ++ rest).
    rewrite Hfg, Hsg.
    rewrite <- (firstn_skipn 1000 (g :: good')) in Hg.
    rewrite insert_rows_app in Hg.
    destruct (insert_rows vt q (firstn 1000 (g :: good'))) as [v [e'|]];
      [discriminate|].
    rewrite (IH _ _ _ _ _ _ v1 v2 e); try assumption; try lia.
    + rewrite (chunks_cons 999 (g :: good')) by discriminate. cbn [flat_map].
      rewrite <- !app_assoc. f_equal. f_equal.
      destruct (skipn 1000 (g :: good')) eqn:Es.
      * rewrite insert_rows_nil in Hg. inversion Hg; subst. reflexivity.
      * apply store_server_twice.
    + rewrite length_skipn, Hl. lia.
Qed.

(** Whatever happens, the loop only fetches from the stream, inserts
    non-empty batches taken from it with the template, and commits. *)
Lemma transfer_loop_any : forall fuel rs vt sv tr,
  exists o sv' rs' vt' evs,
    transfer_loop fuel Source Target q
      (W sv (src cs_cat rs) (tgt vt ct_cat rt) tr) =
    (o, W sv' (src cs_cat rs') (tgt vt' ct_cat rt) (tr ++ evs))
    /\ Forall (loop_event q rs) evs
    /\ (rs = [] -> sv' = sv).
Proof.
  induction fuel as [|fuel IH]; intros rs vt sv tr.
  - exists OutOfFuel, sv, rs, vt, []. rewrite app_nil_r. cbn. auto.
  - rewrite transfer_loop_pass. destruct rs as [|r rs'].
    + exists (Return tt), sv, [], vt, [EvFetchMany Source 1000 []].
      repeat split. constructor; [|constructor]. cbn. apply incl_nil_l.
    + cbv zeta.
      assert (Hin : incl (firstn 1000 (r :: rs')) (r :: rs')).
      { intros x Hx. rewrite <- (firstn_skipn 1000 (r :: rs')).
        apply in_or_app. now left. }
      assert (Hne : firstn 1000 (r :: rs') <> [])
        by (apply (firstn_nonempty 999); discriminate).
      destruct (insert_rows vt q (firstn 1000 (r :: rs'))) as [v [e|]].
      * eexists (Raise e), sv, _, v, _. split; [reflexivity|].
        split; [|discriminate].
        apply Forall_cons; [exact Hin|].
        apply Forall_cons; [cbn; auto | constructor].
      * destruct (IH (skipn 1000 (r :: rs')) v (store_server sv dt v)
                     (tr ++ pass_events q (firstn 1000 (r :: rs'))))
          as (o & sv' & rs'' & vt' & evs & Heq & Hev & _).
        exists o, sv', rs'', vt', (pass_events q (firstn 1000 (r :: rs')) ++ evs).
        rewrite Heq, <- app_assoc. split; [reflexivity|].
        split; [|discriminate].
        apply Forall_app. split.
        -- apply Forall_cons; [exact Hin|].
           apply Forall_cons; [cbn; auto|].
           apply Forall_cons; [exact I | constructor].
        -- eapply Forall_impl; [|exact Hev].
           intros ev Hev'. 
           assert (Hsk : incl (skipn 1000 (r :: rs')) (r :: rs')).
           { intros x Hx. rewrite <- (firstn_skipn 1000 (r :: rs')).
             apply in_or_app. now right. }
           destruct ev as [| | | |[] n b|[] q' b|[]| | |]; cbn in *; auto.
           ++ eapply incl_tran; eauto.
           ++ destruct Hev' as (? & ? & ?). repeat split; auto.
              eapply incl_tran; eauto.
Qed.

End Loop.
End Blocks.

(* ================================================================== *)
(** ** A whole run, when both stores can be reached *)
(* ================================================================== *)

Section Reachable.

Variables (fs : list (string * option config)) (sv : list (dsn * database)).
Variables (ds dt : dsn) (dbs dbt : database).
Hypothesis Hsrc : reads fs "config/source_db.yml" ds.
Hypothesis Htgt : reads fs "config/target_db.yml" dt.
Hypothesis Hs : lookup_server sv ds = Some dbs.
Hypothesis Ht : lookup_server sv dt = Some dbt.

Lemma connect_source_ok src tgt fr tr :
  p_connect_to_source (mkWorld fs sv src tgt fr tr) =
  (Return Source,
   mkWorld fs sv (Some (mkConn ds dbs [] [] false)) tgt fr
      (tr ++ [EvConnect Source ds])).
Proof.
  destruct Hsrc as (cfg & H0 & H1 & H2 & H3 & H4 & H5).
  unfold p_connect_to_source, p_read_config, connect_with, try_except, bind, ret,
    yaml_safe_load, getitem, psycopg2_connect, emit, raise.
  cbn. rewrite H0, H1, H2, H3, H4, H5. cbn.
  destruct ds; cbn in *. rewrite Hs. reflexivity.
Qed.

Lemma connect_target_ok src tgt fr tr :
  p_connect_to_target (mkWorld fs sv src tgt fr tr) =
  (Return Target,
   mkWorld fs sv src (Some (mkConn dt dbt [] [] false)) fr
      (tr ++ [EvConnect Target dt])).
Proof.
  destruct Htgt as (cfg & H0 & H1 & H2 & H3 & H4 & H5).
  unfold p_connect_to_target, p_read_config, connect_with, try_except, bind, ret,
    yaml_safe_load, getitem, psycopg2_connect, emit, raise.
  cbn. rewrite H0, H1, H2, H3, H4, H5. cbn.
  destruct dt; cbn in *. rewrite Ht. reflexivity.
Qed.

End Reachable.

Lemma table_definition_ok r c fs sv src tgt fr tr name :
  get_conn r (mkWorld fs sv src tgt fr tr) = Some c -> c_closed c = false ->
  p_get_table_definition r name (mkWorld fs sv src tgt fr tr) =
  (Return (catalog_columns (c_view c) name),
   set_conn r (set_result c [] [])
     (mkWorld fs sv src tgt fr
        (tr ++ [EvExecute r (SelectColumns name); EvFetchAll r]))).
Proof.
  intros Hc Hl. destruct c; cbn in Hl; subst.
  unfold p_get_table_definition, with_cursor, try_except, try_finally, execute,
    fetchall, bind, ret, live, update, emit, raise.
  destruct r; cbn in *; subst; cbn; rewrite <- app_assoc; reflexivity.
Qed.

Section Run.

Variables (fs : list (string * option config)) (sv : list (dsn * database)).
Variables (ds dt : dsn) (dbs dbt : database).
Hypothesis Hsrc : reads fs "config/source_db.yml" ds.
Hypothesis Htgt : reads fs "config/target_db.yml" dt.
Hypothesis Hs : lookup_server sv ds = Some dbs.
Hypothesis Ht : lookup_server sv dt = Some dbt.

Variables (fuel : nat) (tn ss ts : string).

(* The column lists the two introspections return, and the INSERT
   template built from them. *)
Local Abbreviation scols := (map fst (catalog_columns dbs tn)).
Local Abbreviation tcols := (map fst (catalog_columns dbt tn)).
Local Abbreviation template :=
  (mkInsert ts tn scols (repeat "%s" (List.length scols))).

(* The world when the [with] block of line 136 is entered. *)
Local Abbreviation entered tr :=
  (mkWorld fs sv (Some (mkConn ds dbs [] [] false))
           (Some (mkConn dt dbt [] [] false)) both_handles
           (tr ++ prelude_events ds dt tn)).

Local Abbreviation block :=
  (select_source_rows Source Target tn ss ts tcols ;;
   transfer_loop fuel Source Target template).

Lemma body_prelude src tgt fr tr :
  move_data_body fuel tn ss ts
    (mkWorld fs sv src tgt (mkFrame None (l_connection_target fr)) tr) =
  with_cursor Source (with_cursor Target block)
    (mkWorld fs sv (Some (mkConn ds dbs [] [] false))
       (Some (mkConn dt dbt [] [] false)) both_handles
       (tr ++ prelude_events ds dt tn)).
Proof.
  unfold move_data_body.
  unfold bind at 1. rewrite (connect_source_ok fs sv ds dbs Hsrc Hs).
  unfold bind at 1. unfold set_l_connection_source, set_frame.
  cbn [w_frame w_files w_servers w_source w_target w_trace l_connection_target].
  unfold bind at 1. erewrite table_definition_ok by reflexivity.
  cbn [set_conn set_result c_dsn c_view c_closed w_frame w_files w_servers
       w_source w_target w_trace].
  unfold bind at 1. rewrite (connect_target_ok fs sv dt dbt Htgt Ht).
  unfold bind at 1. unfold set_l_connection_target, set_frame.
  cbn [w_frame w_files w_servers w_source w_target w_trace l_connection_source].
  unfold bind at 1. erewrite table_definition_ok by reflexivity.
  cbn [set_conn set_result c_dsn c_view c_closed w_frame w_files w_servers
       w_source w_target w_trace].
  unfold prelude_events. rewrite <- !app_assoc. reflexivity.
Qed.

(** The run, read off the outcome of the block of lines 137-162. *)
Lemma run_wraps src tgt fr tr o sv' cs' ct' tr' :
  block (entered tr) =
  (o, mkWorld fs sv' (Some cs') (Some ct') both_handles tr') ->
  p_move_data_for_table fuel tn ss ts (mkWorld fs sv src tgt fr tr) =
  match o with
  | Return _ =>
      (Return tt,
       mkWorld fs sv' (Some (closed_session cs')) (Some (closed_session ct'))
               both_handles (tr' ++ close_events))
  | Raise e =>
      (Raise e,
       mkWorld fs sv' (Some (closed_session cs')) (Some (closed_session ct'))
               both_handles (tr' ++ error_events e ++ close_events))
  | OutOfFuel =>
      (OutOfFuel, mkWorld fs sv' (Some cs') (Some ct') both_handles tr')
  end.
Proof.
  intros Hb. unfold p_move_data_for_table.
  unfold bind at 1. unfold set_l_connection_source, set_frame at 1.
  unfold bind at 1. unfold set_l_connection_target, set_frame at 1.
  cbn [w_frame w_files w_servers w_source w_target w_trace
       l_connection_source l_connection_target].
  unfold try_finally at 1. unfold try_except at 1.
  replace (mkFrame None None) with (mkFrame None (l_connection_target (mkFrame None None)))
    by reflexivity.
  rewrite body_prelude.
  unfold with_cursor. unfold bind at 1. unfold live at 1.
  cbn [get_conn w_source c_closed].
  unfold try_finally at 1. unfold bind at 1. unfold live at 1.
  cbn [get_conn w_target c_closed].
  unfold try_finally at 1.
  rewrite Hb.
  destruct o as [[]|e|]; unfold closed_session, close_events, error_events;
    run_ops; unfold log_and_reraise, logging_error, print, get_frame, close_handle;
    run_ops; rewrite <- ?app_assoc; reflexivity.
Qed.

Lemma execute_then_loop wm tr :
  exists o sv' cs' ct' levs,
    (execute Source (SelectFrom tcols ss tn wm) ;;
     transfer_loop fuel Source Target template)
      (mkWorld fs sv (Some (mkConn ds dbs [] [] false))
               (Some (mkConn dt dbt [] [] false)) both_handles tr) =
    (o, mkWorld fs sv' (Some cs') (Some ct') both_handles
          (tr ++ EvExecute Source (SelectFrom tcols ss tn wm) :: levs))
    /\ Forall (loop_event template (selected dbs tcols ss tn wm)) levs
    /\ (selected dbs tcols ss tn wm = [] -> sv' = sv)
    /\ (forall e, sql_select dbs tcols ss tn wm = inl e -> o = Raise e).
Proof.
  unfold bind at 1. rewrite execute_source. cbn [run_query]. unfold selected.
  destruct (sql_select dbs tcols ss tn wm) as [e|rs].
  - eexists (Raise e), sv, _, _, []. repeat split.
    + constructor.
    + intros e' He'. congruence.
  - destruct (transfer_loop_any fs both_handles ds dt dbs template [] [] []
                fuel rs dbt sv (tr ++ [EvExecute Source (SelectFrom tcols ss tn wm)]))
      as (o & sv' & rs' & vt' & evs & Heq & Hev & Hsv).
    rewrite Heq. eexists o, sv', _, _, evs. rewrite <- app_assoc.
    repeat split; try assumption. discriminate.
Qed.

Lemma block_full tr :
  sql_count dbt ts tn = inr 0 ->
  exists o sv' cs' ct' levs,
    block (entered tr) =
    (o, mkWorld fs sv' (Some cs') (Some ct') both_handles
          (w_trace (entered tr)
           ++ [EvExecute Target (SelectCount ts tn); EvFetchOne Target;
               EvExecute Source (SelectFrom tcols ss tn None)] ++ levs))
    /\ Forall (loop_event template (selected dbs tcols ss tn None)) levs
    /\ (selected dbs tcols ss tn None = [] -> sv' = sv)
    /\ (forall e, sql_select dbs tcols ss tn None = inl e -> o = Raise e).
Proof.
  intros Hc.
  destruct (execute_then_loop None
              ((tr ++ prelude_events ds dt tn)
               ++ [EvExecute Target (SelectCount ts tn); EvFetchOne Target]))
    as (o & sv' & cs' & ct' & levs & Heq & Hev & Hsv & Hfail).
  exists o, sv', cs', ct', levs. split; [|repeat split; assumption].
  cbn [w_trace].
  match type of Heq with ?l = _ => transitivity l end.
  - unfold bind at 1. unfold select_source_rows.
    unfold bind at 1. rewrite execute_target. cbn [run_query]. rewrite Hc.
    unfold bind at 1. rewrite fetchone_target. cbn [value_eqb Z.of_nat Z.eqb].
    rewrite <- !app_assoc. reflexivity.
  - rewrite Heq. rewrite <- !app_assoc. reflexivity.
Qed.

Lemma block_delta tr n wm :
  sql_count dbt ts tn = inr (S n) ->
  sql_max_updated dbt ts tn = inr wm ->
  exists o sv' cs' ct' levs,
    block (entered tr) =
    (o, mkWorld fs sv' (Some cs') (Some ct') both_handles
          (w_trace (entered tr)
           ++ [EvExecute Target (SelectCount ts tn); EvFetchOne Target;
               EvExecute Target (SelectMaxUpdated ts tn); EvFetchOne Target;
               EvExecute Source (SelectFrom tcols ss tn (Some wm))] ++ levs))
    /\ Forall (loop_event template (selected dbs tcols ss tn (Some wm))) levs
    /\ (selected dbs tcols ss tn (Some wm) = [] -> sv' = sv)
    /\ (forall e, sql_select dbs tcols ss tn (Some wm) = inl e -> o = Raise e).
Proof.
  intros Hc Hm.
  destruct (execute_then_loop (Some wm)
              ((tr ++ prelude_events ds dt tn)
               ++ [EvExecute Target (SelectCount ts tn); EvFetchOne Target;
                   EvExecute Target (SelectMaxUpdated ts tn); EvFetchOne Target]))
    as (o & sv' & cs' & ct' & levs & Heq & Hev & Hsv & Hfail).
  exists o, sv', cs', ct', levs. split; [|repeat split; assumption].
  cbn [w_trace].
  match type of Heq with ?l = _ => transitivity l end.
  - unfold bind at 1. unfold select_source_rows.
    unfold bind at 1. rewrite execute_target. cbn [run_query]. rewrite Hc.
    unfold bind at 1. rewrite fetchone_target.
    replace (value_eqb (VInt (Z.of_nat (S n))) (VInt 0)) with false by reflexivity.
    unfold bind at 1. rewrite execute_target. cbn [run_query]. rewrite Hm.
    unfold bind at 1. rewrite fetchone_target.
    rewrite <- !app_assoc. reflexivity.
  - rewrite Heq. rewrite <- !app_assoc. reflexivity.
Qed.

Lemma block_count_fails tr e :
  sql_count dbt ts tn = inl e ->
  block (entered tr) =
  (Raise e,
   mkWorld fs sv (Some (mkConn ds dbs [] [] false))
           (Some (mkConn dt dbt [] [] false)) both_handles
           (w_trace (entered tr) ++ [EvExecute Target (SelectCount ts tn)])).
Proof.
  intros Hc. unfold bind at 1.
  erewrite select_count_fails by exact Hc. reflexivity.
Qed.

Lemma block_max_fails tr n e :
  sql_count dbt ts tn = inr (S n) ->
  sql_max_updated dbt ts tn = inl e ->
  block (entered tr) =
  (Raise e,
   mkWorld fs sv (Some (mkConn ds dbs [] [] false))
           (Some (mkConn dt dbt [] [] false)) both_handles
           (w_trace (entered tr)
            ++ [EvExecute Target (SelectCount ts tn); EvFetchOne Target;
                EvExecute Target (SelectMaxUpdated ts tn)])).
Proof.
  intros Hc Hm. unfold bind at 1.
  erewrite select_max_fails by eassumption.
  cbn [w_trace]. rewrite <- !app_assoc. reflexivity.
Qed.

Lemma block_planned tr wm :
  planned_watermark dbt ts tn = Some wm ->
  block (entered tr) =
  (execute Source (SelectFrom tcols ss tn wm) ;;
   transfer_loop fuel Source Target template)
    (mkWorld fs sv (Some (mkConn ds dbs [] [] false))
             (Some (mkConn dt dbt [] [] false)) both_handles
             (w_trace (entered tr) ++ plan_events ts tn wm)).
Proof.
  unfold planned_watermark. intros Hp. unfold bind.
  destruct (sql_count dbt ts tn) as [e|[|n]] eqn:Hc; [discriminate| |].
  - inversion Hp; subst. rewrite select_full by exact Hc.
    unfold plan_events. rewrite app_nil_r. reflexivity.
  - destruct (sql_max_updated dbt ts tn) as [e|v] eqn:Hm; [discriminate|].
    inversion Hp; subst. erewrite select_delta by eassumption.
    unfold plan_events. reflexivity.
Qed.

Lemma block_insert_fails tr wm k good rest v1 v2 e :
  planned_watermark dbt ts tn = Some wm ->
  sql_select dbs tcols ss tn wm = inr (good ++ rest) ->
  List.length good = k * 1000 -> k < fuel ->
  insert_rows dbt template good = (v1, None) ->
  insert_rows v1 template (firstn 1000 rest) = (v2, Some e) ->
  block (entered tr) =
  (Raise e,
   mkWorld fs (match good with [] => sv | _ :: _ => store_server sv dt v1 end)
     (Some (mkConn ds dbs [] (skipn 1000 rest) false))
     (Some (mkConn dt v2 [] [] false)) both_handles
     (w_trace (entered tr) ++ plan_events ts tn wm
      ++ [EvExecute Source (SelectFrom tcols ss tn wm)]
      ++ flat_map (pass_events template) (chunks 1000 good)
      ++ [EvFetchMany Source 1000 (firstn 1000 rest);
          EvExecuteMany Target template (firstn 1000 rest)])).
Proof.
  intros Hp Hsel Hl Hk Hg Hb. rewrite (block_planned tr wm Hp).
  unfold bind at 1. rewrite execute_source. cbn [run_query]. rewrite Hsel.
  rewrite (transfer_loop_fails fs both_handles ds dt dbs template [] [] []
             k fuel good rest dbt sv _ v1 v2 e Hk Hl Hg Hb).
  rewrite <- !app_assoc. reflexivity.
Qed.

Lemma block_all_inserted tr wm rs v' :
  planned_watermark dbt ts tn = Some wm ->
  sql_select dbs tcols ss tn wm = inr rs ->
  List.length rs < fuel ->
  insert_rows dbt template rs = (v', None) ->
  block (entered tr) =
  (Return tt,
   mkWorld fs (match rs with [] => sv | _ :: _ => store_server sv dt v' end)
     (Some (mkConn ds dbs [] [] false))
     (Some (mkConn dt v' [] [] false)) both_handles
     (w_trace (entered tr) ++ plan_events ts tn wm
      ++ [EvExecute Source (SelectFrom tcols ss tn wm)]
      ++ flat_map (pass_events template) (chunks 1000 rs)
      ++ [EvFetchMany Source 1000 []])).
Proof.
  intros Hp Hsel Hf Hi. rewrite (block_planned tr wm Hp).
  unfold bind at 1. rewrite execute_source. cbn [run_query]. rewrite Hsel.
  rewrite (transfer_loop_ok fs both_handles ds dt dbs template [] [] []
             fuel rs dbt sv _ v' Hf Hi).
  rewrite <- !app_assoc. reflexivity.
Qed.

(** Whatever the stores answer, the block plans, then transfers. *)
Lemma block_any tr :
  exists o sv' cs' ct' pevs levs rs,
    block (entered tr) =
    (o, mkWorld fs sv' (Some cs') (Some ct') both_handles
          (w_trace (entered tr) ++ pevs ++ levs))
    /\ Forall plan_event pevs
    /\ Forall (loop_event template rs) levs.
Proof.
  destruct (sql_count dbt ts tn) as [e|[|n]] eqn:Hc.
  - rewrite (block_count_fails tr e Hc).
    eexists _, _, _, _, [EvExecute Target (SelectCount ts tn)], [], [].
    rewrite app_nil_r. repeat split; repeat constructor.
  - destruct (block_full tr Hc)
      as (o & sv' & cs' & ct' & levs & Heq & Hev & _ & _).
    rewrite Heq.
    eexists o, sv', cs', ct',
      [EvExecute Target (SelectCount ts tn); EvFetchOne Target;
       EvExecute Source (SelectFrom tcols ss tn None)], levs, _.
    split; [rewrite <- ?app_assoc; reflexivity|].
    split; [repeat constructor | exact Hev].
  - destruct (sql_max_updated dbt ts tn) as [e|wm] eqn:Hm.
    + rewrite (block_max_fails tr n e Hc Hm).
      eexists _, _, _, _,
        [EvExecute Target (SelectCount ts tn); EvFetchOne Target;
         EvExecute Target (SelectMaxUpdated ts tn)], [], [].
      rewrite app_nil_r. repeat split; repeat constructor.
    + destruct (block_delta tr n wm Hc Hm)
        as (o & sv' & cs' & ct' & levs & Heq & Hev & _ & _).
      rewrite Heq.
      eexists o, sv', cs', ct',
        [EvExecute Target (SelectCount ts tn); EvFetchOne Target;
         EvExecute Target (SelectMaxUpdated ts tn); EvFetchOne Target;
         EvExecute Source (SelectFrom tcols ss tn (Some wm))], levs, _.
      split; [rewrite <- ?app_assoc; reflexivity|].
      split; [repeat constructor | exact Hev].
Qed.

End Run.

(* ================================================================== *)
(** ** Reading traces *)
(* ================================================================== *)

Lemma queries_on_app r a b :
  queries_on r (a ++ b) = queries_on r a ++ queries_on r b.
Proof. apply flat_map_app. Qed.

Lemma inserted_batches_app a b :
  inserted_batches (a ++ b) = inserted_batches a ++ inserted_batches b.
Proof. apply flat_map_app. Qed.

Lemma insert_templates_app a b :
  insert_templates (a ++ b) = insert_templates a ++ insert_templates b.
Proof. apply flat_map_app. Qed.

Lemma closes_app a b : closes (a ++ b) = closes a ++ closes b.
Proof. apply flat_map_app. Qed.

Lemma logged_app a b : logged (a ++ b) = logged a ++ logged b.
Proof. apply flat_map_app. Qed.

Lemma commits_app a b : commits (a ++ b) = commits a + commits b.
Proof. unfold commits. now rewrite filter_app, length_app. Qed.

Lemma loop_events_no_query q rs r evs :
  Forall (loop_event q rs) evs -> queries_on r evs = [].
Proof.
  induction 1 as [|e evs He _ IH]; [reflexivity|].
  unfold queries_on in *. cbn [flat_map]. rewrite IH.
  destruct e as [| | | | [] | [] | [] | | |]; try contradiction; reflexivity.
Qed.

Lemma loop_events_batches q rs evs :
  Forall (loop_event q rs) evs ->
  Forall (fun b => b <> [] /\ incl b rs) (inserted_batches evs).
Proof.
  induction 1 as [|e evs He _ IH]; [constructor|].
  unfold inserted_batches in *. cbn [flat_map].
  apply Forall_app. split; [|exact IH].
  destruct e as [| | | | | r q' b | | | |]; try constructor.
  - destruct r; cbn in He; [contradiction|]. tauto.
  - constructor.
Qed.

Lemma loop_events_templates q rs evs :
  Forall (loop_event q rs) evs ->
  Forall (eq q) (insert_templates evs).
Proof.
  induction 1 as [|e evs He _ IH]; [constructor|].
  unfold insert_templates in *. cbn [flat_map].
  apply Forall_app. split; [|exact IH].
  destruct e as [| | | | | r q' b | | | |]; try constructor.
  - destruct r; cbn in He; [contradiction|]. symmetry. tauto.
  - constructor.
Qed.

(* ================================================================== *)
(** ** The load decision *)
(* ================================================================== *)

(** C1. In every run that reaches both stores, the load decision is
    taken on the row count of the target table. When the count
    is 0 the only statement sent to the source after introspection is
    the SELECT of the target's columns without predicate (a FULL
    load). Otherwise the target is asked for [MAX(updated_date)] and
    the source SELECT carries [WHERE updated_date > '<that value>']
    (a DELTA load). *)
Theorem load_decision_by_target_count
  (w : world) (ds dt : dsn) (dbs dbt : database)
  (fuel : nat) (tn ss ts : string) :
  reachable w ds dt dbs dbt ->
  let tr := w_trace (snd (p_move_data_for_table fuel tn ss ts w)) in
  let tcols := map fst (catalog_columns dbt tn) in
  (sql_count dbt ts tn = inr 0 ->
   queries_on Target tr =
     queries_on Target (w_trace w) ++ [SelectColumns tn; SelectCount ts tn]
   /\ queries_on Source tr =
     queries_on Source (w_trace w)
     ++ [SelectColumns tn; SelectFrom tcols ss tn None]
   /\ kind_of (SelectFrom tcols ss tn None) = Some FULL)
  /\
  (forall n wm,
   sql_count dbt ts tn = inr (S n) ->
   sql_max_updated dbt ts tn = inr wm ->
   queries_on Target tr =
     queries_on Target (w_trace w)
     ++ [SelectColumns tn; SelectCount ts tn; SelectMaxUpdated ts tn]
   /\ queries_on Source tr =
     queries_on Source (w_trace w)
     ++ [SelectColumns tn; SelectFrom tcols ss tn (Some wm)]
   /\ kind_of (SelectFrom tcols ss tn (Some wm)) = Some DELTA
   /\ render (SelectFrom tcols ss tn (Some wm)) =
      ("SELECT " ++ join tcols ++ " FROM " ++ ss ++ "." ++ tn
       ++ " WHERE updated_date > '" ++ py_str wm ++ "'")%string).
Proof.
  destruct w as [fs sv src tgt fr tr0]. unfold reachable. cbn [w_files w_servers w_trace].
  intros (Hsrc & Htgt & Hs & Ht). cbv zeta. split.
  - intros Hc.
    destruct (block_full fs sv ds dt dbs dbt fuel tn ss ts tr0 Hc)
      as (o & sv' & cs' & ct' & levs & Heq & Hev & _ & _).
    rewrite (run_wraps fs sv ds dt dbs dbt Hsrc Htgt Hs Ht fuel tn ss ts
               src tgt fr tr0 _ _ _ _ _ Heq).
    pose proof (loop_events_no_query _ _ Target _ Hev) as HqT.
    pose proof (loop_events_no_query _ _ Source _ Hev) as HqS.
    destruct o as [[]|e|]; cbn [snd w_trace];
      rewrite ?queries_on_app, HqT, HqS; cbn; rewrite ?app_nil_r, <- ?app_assoc;
      auto.
  - intros n wm Hc Hm.
    destruct (block_delta fs sv ds dt dbs dbt fuel tn ss ts tr0 n wm Hc Hm)
      as (o & sv' & cs' & ct' & levs & Heq & Hev & _ & _).
    rewrite (run_wraps fs sv ds dt dbs dbt Hsrc Htgt Hs Ht fuel tn ss ts
               src tgt fr tr0 _ _ _ _ _ Heq).
    pose proof (loop_events_no_query _ _ Target _ Hev) as HqT.
    pose proof (loop_events_no_query _ _ Source _ Hev) as HqS.
    destruct o as [[]|e|]; cbn [snd w_trace];
      rewrite ?queries_on_app, HqT, HqS; cbn; rewrite ?app_nil_r, <- ?app_assoc;
      auto.
Qed.

(* ================================================================== *)
(** ** What a DELTA load selects *)
(* ================================================================== *)

Lemma selected_delta dbs cols ss tn W p :
  In p (selected dbs cols ss tn (Some (VInt W))) ->
  exists r u,
    In r (source_rows dbs ss tn)
    /\ updated_date_of dbs ss tn r = VInt u
    /\ (W < u)%Z
    /\ p = projected dbs ss tn cols r.
Proof.
  unfold selected, sql_select, source_rows, updated_date_of, projected.
  destruct (find_table dbs ss tn) as [t|]; [|intros []].
  destruct (resolve (column_names t) cols) as [e|idxs]; [intros []|].
  destruct (column_index (column_names t) "updated_date") as [i|]; [|intros []].
  intros Hp. apply in_map_iff in Hp. destruct Hp as (r & Hp & Hr).
  apply filter_In in Hr. destruct Hr as (Hr & Hn).
  unfold newer_than in Hn. destruct (nth i r VNone) as [|u] eqn:Eu; [discriminate|].
  exists r, u. repeat split; auto. now apply Z.ltb_lt.
Qed.

Lemma selected_delta_none dbs cols ss tn W :
  (forall r u, In r (source_rows dbs ss tn) ->
               updated_date_of dbs ss tn r = VInt u -> (u <= W)%Z) ->
  selected dbs cols ss tn (Some (VInt W)) = [].
Proof.
  unfold selected, sql_select, source_rows, updated_date_of.
  destruct (find_table dbs ss tn) as [t|]; [|reflexivity].
  destruct (resolve (column_names t) cols) as [e|idxs]; [reflexivity|].
  destruct (column_index (column_names t) "updated_date") as [i|]; [|reflexivity].
  intros Hall.
  replace (filter (newer_than i W) (t_rows t)) with (@nil row); [reflexivity|].
  symmetry. induction (t_rows t) as [|r rows IH]; [reflexivity|].
  cbn [filter]. unfold newer_than at 1.
  destruct (nth i r VNone) as [|u] eqn:Eu.
  - apply IH. intros r' u' Hr'. apply Hall. now right.
  - assert (Hu : (u <= W)%Z) by (apply (Hall r u); [now left | exact Eu]).
    apply Z.ltb_ge in Hu. rewrite Hu.
    apply IH. intros r' u' Hr'. apply Hall. now right.
Qed.

Lemma no_batch_of_nothing q evs :
  Forall (loop_event q []) evs -> inserted_batches evs = [].
Proof.
  intros Hev. apply loop_events_batches in Hev.
  destruct (inserted_batches evs) as [|b bs]; [reflexivity|].
  inversion Hev as [|? ? [Hne Hincl] _]; subst.
  destruct b as [|p b]; [congruence|].
  destruct (Hincl p). now left.
Qed.

(** When the target is not empty and its watermark is [W], every
    parameter row the run hands to the INSERT is the projection of a
    source row whose [updated_date] is greater than [W]: no row at or
    below the watermark is fetched again. So when no source row is
    newer than the watermark, the run inserts nothing and leaves the
    committed data of every server as it was. *)
Theorem delta_inserts_only_newer_rows
  (w : world) (ds dt : dsn) (dbs dbt : database)
  (fuel : nat) (tn ss ts : string) (n : nat) (W : Z) :
  reachable w ds dt dbs dbt ->
  sql_count dbt ts tn = inr (S n) ->
  sql_max_updated dbt ts tn = inr (VInt W) ->
  let final := snd (p_move_data_for_table fuel tn ss ts w) in
  let tcols := map fst (catalog_columns dbt tn) in
  exists new,
    inserted_batches (w_trace final) = inserted_batches (w_trace w) ++ new
    /\ (forall b p, In b new -> In p b ->
        exists r u,
          In r (source_rows dbs ss tn)
          /\ updated_date_of dbs ss tn r = VInt u
          /\ (W < u)%Z
          /\ p = projected dbs ss tn tcols r)
    /\ ((forall r u, In r (source_rows dbs ss tn) ->
                     updated_date_of dbs ss tn r = VInt u -> (u <= W)%Z) ->
        new = [] /\ w_servers final = w_servers w).
Proof.
  destruct w as [fs sv src tgt fr tr0]. unfold reachable.
  cbn [w_files w_servers w_trace].
  intros (Hsrc & Htgt & Hs & Ht) Hc Hm. cbv zeta.
  destruct (block_delta fs sv ds dt dbs dbt fuel tn ss ts tr0 n (VInt W) Hc Hm)
    as (o & sv' & cs' & ct' & levs & Heq & Hev & Hsv & _).
  rewrite (run_wraps fs sv ds dt dbs dbt Hsrc Htgt Hs Ht fuel tn ss ts
             src tgt fr tr0 _ _ _ _ _ Heq).
  exists (inserted_batches levs).
  split; [|split].
  - destruct o as [[]|e|]; cbn [snd w_trace];
      rewrite !inserted_batches_app; cbn [app];
      change (inserted_batches (prelude_events ds dt tn)) with (@nil (list row));
      cbn; rewrite ?app_nil_r; reflexivity.
  - intros b p Hb Hp.
    apply loop_events_batches in Hev. rewrite Forall_forall in Hev.
    destruct (Hev b Hb) as (_ & Hincl).
    apply selected_delta. apply Hincl. exact Hp.
  - intros Hold.
    pose proof (selected_delta_none dbs (map fst (catalog_columns dbt tn))
                  ss tn W Hold) as Hnil.
    rewrite Hnil in Hev. split.
    + eapply no_batch_of_nothing. exact Hev.
    + rewrite (Hsv Hnil). destruct o as [[]|e|]; reflexivity.
Qed.

(* ================================================================== *)
(** ** The batches of the transfer loop *)
(* ================================================================== *)

Lemma chunks_bounds n (l : list row) :
  Forall (fun b => 1 <= List.length b <= S n) (chunks (S n) l).
Proof.
  remember (List.length l) as k eqn:Hk. revert l Hk.
  induction k as [k IH] using lt_wf_ind. intros l Hk.
  destruct l as [|a l]; [constructor|].
  rewrite chunks_cons by discriminate. constructor.
  - rewrite length_firstn. cbn [List.length]. lia.
  - apply (IH (List.length (skipn (S n) (a :: l)))); [|reflexivity].
    rewrite length_skipn. subst k. cbn [List.length]. lia.
Qed.

Lemma inserted_batches_passes q (l : list (list row)) :
  inserted_batches (flat_map (pass_events q) l) = l.
Proof.
  induction l as [|b l IH]; [reflexivity|].
  cbn [flat_map]. rewrite inserted_batches_app, IH. reflexivity.
Qed.

Lemma commits_passes q (l : list (list row)) :
  commits (flat_map (pass_events q) l) = List.length l.
Proof.
  induction l as [|b l IH]; [reflexivity|].
  cbn [flat_map]. rewrite commits_app, IH. reflexivity.
Qed.

Lemma logged_passes q (l : list (list row)) :
  logged (flat_map (pass_events q) l) = [].
Proof.
  induction l as [|b l IH]; [reflexivity|].
  cbn [flat_map]. rewrite logged_app, IH. reflexivity.
Qed.

Lemma chunks_count n : forall k (l : list row),
  List.length l = k * S n -> List.length (chunks (S n) l) = k.
Proof.
  induction k as [|k IH]; intros l Hl.
  - apply length_zero_iff_nil in Hl. subst. reflexivity.
  - assert (H0 : l <> []) by (intros ->; discriminate).
    rewrite (chunks_cons n l H0). cbn [List.length]. f_equal.
    apply IH. rewrite length_skipn. lia.
Qed.

Lemma chunks_2500 (l : list row) :
  List.length l = 2500 ->
  map (@List.length row) (chunks 1000 l) = [1000; 1000; 500].
Proof.
  intros Hl.
  assert (H0 : l <> []) by (intros ->; discriminate).
  rewrite (chunks_cons 999 l H0).
  assert (H1 : List.length (skipn 1000 l) = 1500)
    by (rewrite length_skipn; lia).
  assert (H1' : skipn 1000 l <> []) by (intros E; rewrite E in H1; discriminate).
  rewrite (chunks_cons 999 _ H1').
  assert (H2 : List.length (skipn 1000 (skipn 1000 l)) = 500)
    by (rewrite length_skipn; lia).
  assert (H2' : skipn 1000 (skipn 1000 l) <> [])
    by (intros E; rewrite E in H2; discriminate).
  rewrite (chunks_cons 999 _ H2').
  assert (H3 : skipn 1000 (skipn 1000 (skipn 1000 l)) = []).
  { apply length_zero_iff_nil. rewrite length_skipn. lia. }
  rewrite H3. cbn [map chunks chunks_fuel List.length].
  rewrite !length_firstn, H1, H2, Hl.
  repeat f_equal; lia.
Qed.

(** C5. Over any result stream, as long as the inserts go through, the
    loop does for each successive batch of at most 1000 rows one fetch,
    one bulk insert and one commit, in that order and before the next
    fetch, and the first empty fetch ends it. The batches are never
    empty, and put end to end they are the stream. A stream of 2500
    rows gives three inserts of 1000, 1000 and 500 rows and three
    commits. *)
Theorem transfer_loop_batches
  (w : world) (cs ct : connection) (q : insert) (fuel : nat) (v' : database) :
  w_source w = Some cs -> c_closed cs = false ->
  w_target w = Some ct -> c_closed ct = false ->
  List.length (c_result cs) < fuel ->
  insert_rows (c_view ct) q (c_result cs) = (v', None) ->
  let rs := c_result cs in
  let r := transfer_loop fuel Source Target q w in
  let new := flat_map (pass_events q) (chunks 1000 rs)
             ++ [EvFetchMany Source 1000 []] in
  fst r = Return tt
  /\ w_trace (snd r) = w_trace w ++ new
  /\ Forall (fun b => 1 <= List.length b <= 1000) (chunks 1000 rs)
  /\ List.concat (chunks 1000 rs) = rs
  /\ w_servers (snd r) =
       match rs with
       | [] => w_servers w
       | _ :: _ => store_server (w_servers w) (c_dsn ct) v'
       end
  /\ (List.length rs = 2500 ->
      map (@List.length row) (inserted_batches new) = [1000; 1000; 500]
      /\ commits new = 3).
Proof.
  destruct w as [fs sv src tgt fr tr].
  destruct cs as [ds vs cs_cat rs cs_closed], ct as [dt vt ct_cat rt ct_closed].
  cbn [w_source w_target c_closed c_result c_view c_dsn w_trace w_servers].
  intros -> -> -> -> Hf Hi. cbv zeta.
  rewrite (transfer_loop_ok fs fr ds dt vs q cs_cat ct_cat rt fuel rs vt sv tr v' Hf Hi).
  cbn [fst snd w_trace w_servers].
  repeat split.
  - apply (chunks_bounds 999).
  - apply (concat_chunks 999).
  - rewrite inserted_batches_app, inserted_batches_passes. cbn [inserted_batches flat_map].
    rewrite app_nil_r. now apply chunks_2500.
  - rewrite commits_app, commits_passes.
    rewrite <- (length_map (@List.length row)), (chunks_2500 rs H). reflexivity.
Qed.

(* ================================================================== *)
(** ** A failing insert in the middle of the stream *)
(* ================================================================== *)

Lemma logged_plan ts tn wm : logged (plan_events ts tn wm) = [].
Proof. destruct wm; reflexivity. Qed.

Lemma inserted_batches_plan ts tn wm : inserted_batches (plan_events ts tn wm) = [].
Proof. destruct wm; reflexivity. Qed.

Lemma commits_plan ts tn wm : commits (plan_events ts tn wm) = 0.
Proof. destruct wm; reflexivity. Qed.

(** C6. The source SELECT returned [good ++ rest], [good] being [k]
    full batches that went in, and the insert of the next batch
    fails with [e]. Then the run raises [e] to its caller after logging
    it, the batches handed to the target are those of [good] and the
    failing one and none after it, [k] commits were made, and the
    committed data of the target server is what the inserts of [good]
    left: the earlier batches stay, the failing batch and the later
    ones are not there. *)
Theorem insert_failure_aborts_and_propagates
  (w : world) (ds dt : dsn) (dbs dbt : database)
  (fuel : nat) (tn ss ts : string)
  (wm : option value) (k : nat) (good rest : list row)
  (v1 v2 : database) (e : exn) :
  reachable w ds dt dbs dbt ->
  planned_watermark dbt ts tn = Some wm ->
  let scols := map fst (catalog_columns dbs tn) in
  let tcols := map fst (catalog_columns dbt tn) in
  let template := mkInsert ts tn scols (repeat "%s" (List.length scols)) in
  sql_select dbs tcols ss tn wm = inr (good ++ rest) ->
  List.length good = k * 1000 -> k < fuel ->
  insert_rows dbt template good = (v1, None) ->
  insert_rows v1 template (firstn 1000 rest) = (v2, Some e) ->
  let r := p_move_data_for_table fuel tn ss ts w in
  fst r = Raise e
  /\ (exists new,
        w_trace (snd r) = w_trace w ++ new
        /\ logged new = [("An error occurred: " ++ exn_str e)%string]
        /\ inserted_batches new = chunks 1000 good ++ [firstn 1000 rest]
        /\ commits new = k)
  /\ w_servers (snd r) =
       match good with
       | [] => w_servers w
       | _ :: _ => store_server (w_servers w) dt v1
       end.
Proof.
  destruct w as [fs sv src tgt fr tr0]. unfold reachable.
  cbn [w_files w_servers w_trace].
  intros (Hsrc & Htgt & Hs & Ht) Hp. cbv zeta. intros Hsel Hl Hk Hg Hb.
  pose proof (block_insert_fails fs sv ds dt dbs dbt fuel tn ss ts tr0 wm k
                good rest v1 v2 e Hp Hsel Hl Hk Hg Hb) as Heq.
  rewrite (run_wraps fs sv ds dt dbs dbt Hsrc Htgt Hs Ht fuel tn ss ts
             src tgt fr tr0 _ _ _ _ _ Heq).
  cbn [fst snd w_trace w_servers]. split; [reflexivity|]. split; [|reflexivity].
  eexists. split.
  - rewrite <- !app_assoc. reflexivity.
  - rewrite !logged_app, !inserted_batches_app, !commits_app.
    rewrite logged_plan, inserted_batches_plan, commits_plan.
    rewrite logged_passes, inserted_batches_passes, commits_passes.
    rewrite (chunks_count 999 k good Hl).
    split; [reflexivity|]. split; [reflexivity|].
    unfold commits, prelude_events, error_events, close_events.
    cbn [filter List.length]. lia.
Qed.

(* ================================================================== *)
(** ** Concrete stores *)
(* ================================================================== *)

Ltac reach :=
  unfold reachable, reads; cbn [w_files w_servers demo_world fresh_world];
  repeat split; try (eexists; repeat split; reflexivity); reflexivity.

Lemma demo_reachable s t :
  reachable (demo_world s t) source_dsn target_dsn s t.
Proof. reach. Qed.

(* ================================================================== *)
(** ** Schema introspection *)
(* ================================================================== *)

Lemma catalog_columns_concat db name :
  catalog_columns db name =
  List.concat (map t_columns (filter (fun t => String.eqb (t_name t) name) db)).
Proof.
  unfold catalog_columns. induction db as [|t db IH]; [reflexivity|].
  cbn [flat_map filter]. destruct (String.eqb (t_name t) name).
  - cbn [map List.concat]. now rewrite IH.
  - exact IH.
Qed.

Lemma catalog_columns_absent db name :
  (forall t, In t db -> t_name t <> name) -> catalog_columns db name = [].
Proof.
  unfold catalog_columns. induction db as [|t db IH]; intros Hall; [reflexivity|].
  cbn [flat_map]. destruct (String.eqb_spec (t_name t) name) as [E|_].
  - exfalso. apply (Hall t); [now left | exact E].
  - apply IH. intros t' Ht'. apply Hall. now right.
Qed.

Lemma table_definition_returns r c w name :
  get_conn r w = Some c -> c_closed c = false ->
  fst (p_get_table_definition r name w) =
  Return (catalog_columns (c_view c) name).
Proof.
  intros Hc Hl. destruct w as [fs sv src tgt fr tr].
  rewrite (table_definition_ok r c fs sv src tgt fr tr name Hc Hl). reflexivity.
Qed.

(** C10. The introspection of a live connection returns the catalog
    rows of every table carrying the name, in every schema, one after
    the other: the schema of the task plays no part in it. With a
    [products] table in two schemas the answer is the columns of the
    first followed by the columns of the second. *)
Theorem table_definition_by_name_only
  (r : role) (c : connection) (w : world) (name : string) :
  get_conn r w = Some c -> c_closed c = false ->
  fst (p_get_table_definition r name w) =
    Return (List.concat
              (map t_columns
                   (filter (fun t => String.eqb (t_name t) name) (c_view c))))
  /\ (forall t1 t2,
        c_view c = [t1; t2] -> t_name t1 = name -> t_name t2 = name ->
        fst (p_get_table_definition r name w) =
          Return (t_columns t1 ++ t_columns t2)).
Proof.
  intros Hc Hl. rewrite (table_definition_returns r c w name Hc Hl). split.
  - now rewrite catalog_columns_concat.
  - intros t1 t2 Hv H1 H2. rewrite Hv. unfold catalog_columns.
    cbn [flat_map]. rewrite H1, H2, String.eqb_refl, app_nil_r. reflexivity.
Qed.

Lemma table_definition_by_name_only_witness :
  get_conn Source two_schemas_world
    = Some (mkConn source_dsn two_schemas [] [] false)
  /\ fst (p_get_table_definition Source "products" two_schemas_world) =
     Return [("id", "bigint");
             ("updated_date", "bigint");
             ("sku", "text")].
Proof.
  split; [reflexivity|].
  apply (proj2 (table_definition_by_name_only Source
                  (mkConn source_dsn two_schemas [] [] false)
                  two_schemas_world "products" eq_refl eq_refl)
           (products "Core" id_then_date [] [])
           (products "staging" [("sku", "text")] [] [])
           eq_refl eq_refl eq_refl).
Defined.

(* ================================================================== *)
(** ** Empty column lists *)
(* ================================================================== *)

Lemma sql_count_missing db s t :
  find_table db s t = None -> sql_count db s t = inl (UndefinedTable s t).
Proof. unfold sql_count. now intros ->. Qed.

Lemma sql_select_missing db cols s t wm :
  find_table db s t = None ->
  sql_select db cols s t wm = inl (UndefinedTable s t).
Proof. unfold sql_select. now intros ->. Qed.

(** C8, as stated, fails: with a table that has no columns both
    introspections return the empty list and the run ends normally. *)
Lemma empty_definition_not_an_error :
  ~ empty_definition_is_error (demo_world bare_source bare_target) 1
      "products" "Core" "dwh".
Proof.
  intros H.
  destruct (H source_dsn target_dsn bare_source bare_target
              (demo_reachable bare_source bare_target) (or_introl eq_refl))
    as (e & He).
  vm_compute in He. discriminate He.
Qed.

(* ================================================================== *)
(** ** Runs over the concrete stores *)
(* ================================================================== *)

(** An empty target: FULL load. A target holding the first product:
    DELTA load above its watermark 10. *)
Lemma load_decision_by_target_count_witness :
  reachable (demo_world two_products no_products)
            source_dsn target_dsn two_products no_products
  /\ queries_on Source
       (w_trace (snd (main 5 (demo_world two_products no_products)))) =
     [SelectColumns "products";
      SelectFrom ["id"; "updated_date"] "Core" "products" None]
  /\ queries_on Source
       (w_trace (snd (main 5 (demo_world two_products one_product)))) =
     [SelectColumns "products";
      SelectFrom ["id"; "updated_date"] "Core" "products" (Some (VInt 10))].
Proof.
  split; [reach|]. split.
  - exact (proj1 (proj2 (proj1
             (load_decision_by_target_count
                (demo_world two_products no_products)
                source_dsn target_dsn two_products no_products
                5 "products" "Core" "dwh"
                (demo_reachable two_products no_products)) eq_refl))).
  - exact (proj1 (proj2 (proj2
             (load_decision_by_target_count
                (demo_world two_products one_product)
                source_dsn target_dsn two_products one_product
                5 "products" "Core" "dwh"
                (demo_reachable two_products one_product))
             0 (VInt 10) eq_refl eq_refl))).
Defined.

(** The target holds the first product, watermark 10: only the second
    product's row can be inserted. *)
Lemma delta_inserts_only_newer_rows_witness :
  reachable (demo_world two_products one_product)
            source_dsn target_dsn two_products one_product
  /\ sql_count one_product "dwh" "products" = inr 1
  /\ sql_max_updated one_product "dwh" "products" = inr (VInt 10)
  /\ exists new,
       inserted_batches
         (w_trace (snd (main 5 (demo_world two_products one_product))))
       = new
       /\ forall b p, In b new -> In p b ->
          exists r u,
            In r (source_rows two_products "Core" "products")
            /\ updated_date_of two_products "Core" "products" r = VInt u
            /\ (10 < u)%Z
            /\ p = projected two_products "Core" "products"
                     ["id"; "updated_date"] r.
Proof.
  split; [reach|]. split; [reflexivity|]. split; [reflexivity|].
  destruct (delta_inserts_only_newer_rows
              (demo_world two_products one_product)
              source_dsn target_dsn two_products one_product
              5 "products" "Core" "dwh" 0 10
              (demo_reachable two_products one_product) eq_refl eq_refl)
    as (new & Hnew & Honly & _).
  exists new. split; [exact Hnew | exact Honly].
Defined.

Lemma transfer_loop_batches_witness :
  List.length many_rows < 2501
  /\ insert_rows (numbers "dwh" []) numbers_insert many_rows
     = (numbers "dwh" many_rows, None)
  /\ fst (transfer_loop 2501 Source Target numbers_insert
            (mid_transfer many_rows)) = Return tt
  /\ map (@List.length row)
       (inserted_batches
          (flat_map (pass_events numbers_insert) (chunks 1000 many_rows)
           ++ [EvFetchMany Source 1000 []]))
     = [1000; 1000; 500].
Proof.
  assert (Hlen : List.length many_rows < 2501) by (vm_compute; lia).
  assert (Hins : insert_rows (numbers "dwh" []) numbers_insert many_rows
                 = (numbers "dwh" many_rows, None)) by (vm_compute; reflexivity).
  assert (H2500 : List.length many_rows = 2500) by (vm_compute; reflexivity).
  split; [exact Hlen|]. split; [exact Hins|].
  pose proof (transfer_loop_batches (mid_transfer many_rows)
                (mkConn source_dsn (numbers "Core" many_rows) [] many_rows false)
                (mkConn target_dsn (numbers "dwh" []) [] [] false)
                numbers_insert 2501 (numbers "dwh" many_rows)
                eq_refl eq_refl eq_refl eq_refl Hlen Hins) as H.
  cbv zeta in H. destruct H as (Hret & _ & _ & _ & _ & Hbatches).
  split; [exact Hret | exact (proj1 (Hbatches H2500))].
Defined.

Lemma insert_failure_aborts_and_propagates_witness :
  reachable (demo_world (numbers "Core" broken_rows) (numbers "dwh" []))
            source_dsn target_dsn
            (numbers "Core" broken_rows) (numbers "dwh" [])
  /\ sql_select (numbers "Core" broken_rows) ["n"] "Core" "numbers" None
     = inr (firstn 1000 broken_rows ++ skipn 1000 broken_rows)
  /\ insert_rows (numbers "dwh" (firstn 1000 broken_rows)) numbers_insert
       (firstn 1000 (skipn 1000 broken_rows))
     = (numbers "dwh" (firstn 1499 broken_rows), Some (NotNullViolation "n"))
  /\ fst (p_move_data_for_table 5 "numbers" "Core" "dwh"
            (demo_world (numbers "Core" broken_rows) (numbers "dwh" [])))
     = Raise (NotNullViolation "n")
  /\ w_servers
       (snd (p_move_data_for_table 5 "numbers" "Core" "dwh"
               (demo_world (numbers "Core" broken_rows) (numbers "dwh" []))))
     = [(source_dsn, numbers "Core" broken_rows);
        (target_dsn, numbers "dwh" (firstn 1000 broken_rows))].
Proof.
  assert (Hsel : sql_select (numbers "Core" broken_rows) ["n"] "Core" "numbers" None
                 = inr (firstn 1000 broken_rows ++ skipn 1000 broken_rows))
    by (vm_compute; reflexivity).
  assert (Hlen : List.length (firstn 1000 broken_rows) = 1 * 1000)
    by (vm_compute; reflexivity).
  assert (Hgood : insert_rows (numbers "dwh" []) numbers_insert
                    (firstn 1000 broken_rows)
                  = (numbers "dwh" (firstn 1000 broken_rows), None))
    by (vm_compute; reflexivity).
  assert (Hbad : insert_rows (numbers "dwh" (firstn 1000 broken_rows))
                   numbers_insert (firstn 1000 (skipn 1000 broken_rows))
                 = (numbers "dwh" (firstn 1499 broken_rows),
                    Some (NotNullViolation "n")))
    by (vm_compute; reflexivity).
  assert (Hfuel : 1 < 5) by lia.
  assert (Hsrv : store_server
                   [(source_dsn, numbers "Core" broken_rows);
                    (target_dsn, numbers "dwh" [])]
                   target_dsn (numbers "dwh" (firstn 1000 broken_rows))
                 = [(source_dsn, numbers "Core" broken_rows);
                    (target_dsn, numbers "dwh" (firstn 1000 broken_rows))])
    by reflexivity.
  split; [reach|]. split; [exact Hsel|]. split; [exact Hbad|].
  pose proof (insert_failure_aborts_and_propagates
                (demo_world (numbers "Core" broken_rows) (numbers "dwh" []))
                source_dsn target_dsn
                (numbers "Core" broken_rows) (numbers "dwh" [])
                5 "numbers" "Core" "dwh" None 1
                (firstn 1000 broken_rows) (skipn 1000 broken_rows)
                (numbers "dwh" (firstn 1000 broken_rows))
                (numbers "dwh" (firstn 1499 broken_rows))
                (NotNullViolation "n")
                (demo_reachable _ _) eq_refl Hsel Hlen Hfuel Hgood Hbad) as H.
  cbv zeta in H. destruct H as (Hraise & _ & Hservers).
  split; [exact Hraise|].
  rewrite Hservers. rewrite <- Hsrv.
  vm_compute. reflexivity.
Defined.

(* ================================================================== *)
(** ** The watermark after a load *)
(* ================================================================== *)

Lemma value_le_refl a : value_le a a.
Proof. destruct a; cbn; auto; lia. Qed.

Lemma value_le_trans a b c : value_le a b -> value_le b c -> value_le a c.
Proof. destruct a, b, c; cbn; auto; try lia; tauto. Qed.

Lemma value_max_l a b : value_le a (value_max a b).
Proof. destruct a, b; cbn; auto; lia. Qed.

Lemma value_max_r a b : value_le b (value_max a b).
Proof. destruct a, b; cbn; auto; lia. Qed.

Lemma fold_max_start l : forall a, value_le a (fold_left value_max l a).
Proof.
  induction l as [|v l IH]; intros a; cbn [fold_left].
  - apply value_le_refl.
  - eapply value_le_trans; [apply value_max_l | apply IH].
Qed.

Lemma fold_max_member l : forall a v, In v l -> value_le v (fold_left value_max l a).
Proof.
  induction l as [|x l IH]; intros a v Hin; [destruct Hin|].
  cbn [fold_left]. destruct Hin as [->|Hin].
  - eapply value_le_trans; [apply value_max_r | apply fold_max_start].
  - now apply IH.
Qed.

Lemma find_add_row db s t r tt :
  find_table db s t = Some tt ->
  find_table (add_row db s t r) s t =
  Some (mkTable (t_schema tt) (t_name tt) (t_columns tt) (t_not_null tt)
                (t_rows tt ++ [r])).
Proof.
  unfold find_table. induction db as [|a db IH]; cbn [find add_row]; [discriminate|].
  destruct (is_table s t a) eqn:E.
  - intros H. inversion H; subst. cbn [find].
    unfold is_table in *. cbn [t_schema t_name]. now rewrite E.
  - intros H. cbn [find]. rewrite E. now apply IH.
Qed.

Lemma sql_insert_adds db q p db' tt :
  find_table db (i_schema q) (i_table q) = Some tt ->
  sql_insert db q p = inr db' ->
  db' = add_row db (i_schema q) (i_table q)
          (build_row (column_names tt) (i_columns q) p).
Proof.
  intros Hf. unfold sql_insert. rewrite Hf.
  destruct (Nat.ltb _ _); [discriminate|].
  destruct (Nat.ltb _ _); [discriminate|].
  destruct (i_columns q) eqn:Ec; [discriminate|]. rewrite <- Ec.
  destruct (resolve _ _); [discriminate|].
  destruct (has_dup _); [discriminate|].
  destruct (null_violation _ _ _); [discriminate|].
  now intros H; inversion H.
Qed.

Lemma insert_rows_cons db q p rs :
  insert_rows db q (p :: rs) =
  match sql_insert db q p with
  | inl e => (db, Some e)
  | inr db' => insert_rows db' q rs
  end.
Proof. reflexivity. Qed.

Lemma insert_rows_table q : forall rs db db' tt,
  find_table db (i_schema q) (i_table q) = Some tt ->
  insert_rows db q rs = (db', None) ->
  find_table db' (i_schema q) (i_table q) =
  Some (with_rows tt (t_rows tt ++ map (build_row (column_names tt) (i_columns q)) rs)).
Proof.
  induction rs as [|p rs IH]; intros db db' tt Hf Hi.
  - rewrite insert_rows_nil in Hi. inversion Hi; subst. rewrite Hf.
    cbn [map]. rewrite app_nil_r. destruct tt; reflexivity.
  - rewrite insert_rows_cons in Hi.
    destruct (sql_insert db q p) as [e|db1] eqn:E1; [discriminate|].
    pose proof (sql_insert_adds db q p db1 tt Hf E1) as ->.
    pose proof (find_add_row db _ _ (build_row (column_names tt) (i_columns q) p) tt Hf) as Hf1.
    rewrite (IH _ _ _ Hf1 Hi). unfold with_rows. cbn [t_schema t_name t_columns t_not_null t_rows map].
    unfold column_names. cbn [t_columns]. rewrite <- app_assoc. reflexivity.
Qed.

Lemma column_index_nth cols : forall c i,
  column_index cols c = Some i -> nth i cols "" = c /\ i < List.length cols.
Proof.
  induction cols as [|c0 cols IH]; intros c i; cbn [column_index]; [discriminate|].
  destruct (String.eqb_spec c0 c) as [->|Hne].
  - intros H; inversion H; subst. cbn. split; [reflexivity | lia].
  - destruct (column_index cols c) as [k|] eqn:Ek; cbn [option_map]; [|discriminate].
    intros H; inversion H; subst. destruct (IH c k Ek) as [Hn Hl].
    cbn [nth List.length]. split; [exact Hn | lia].
Qed.

Lemma column_index_in cols c :
  In c cols -> exists i, column_index cols c = Some i.
Proof.
  induction cols as [|c0 cols IH]; intros Hin; [destruct Hin|].
  cbn [column_index]. destruct (String.eqb_spec c0 c) as [->|Hne].
  - now exists 0.
  - destruct Hin as [->|Hin]; [congruence|].
    destruct (IH Hin) as [i ->]. now exists (S i).
Qed.

Lemma nth_map_lt (A B : Type) (f : A -> B) (d : A) (d' : B) : forall l j,
  j < List.length l -> nth j (map f l) d' = f (nth j l d).
Proof.
  induction l as [|a l IH]; intros j Hj; [cbn in Hj; lia|].
  destruct j as [|j]; [reflexivity|]. cbn [map nth]. apply IH. cbn in Hj. lia.
Qed.

Lemma build_row_cell tcols cols p c j :
  column_index tcols c = Some j ->
  nth j (build_row tcols cols p) VNone =
  match column_index cols c with
  | Some i => nth i p VNone
  | None => VNone
  end.
Proof.
  intros Hj. destruct (column_index_nth tcols c j Hj) as [Hn Hl].
  unfold build_row. rewrite (nth_map_lt _ _ _ "" VNone _ _ Hl), Hn. reflexivity.
Qed.

Lemma resolve_nth names : forall cols idxs,
  resolve names cols = inr idxs ->
  List.length idxs = List.length cols
  /\ forall c i', column_index cols c = Some i' ->
                  column_index names c = Some (nth i' idxs 0).
Proof.
  induction cols as [|c0 cols IH]; intros idxs; cbn [resolve].
  - intros H; inversion H; subst. split; [reflexivity|]. intros c i' H'. discriminate.
  - destruct (column_index names c0) as [i0|] eqn:E0; [|discriminate].
    destruct (resolve names cols) as [e|idxs'] eqn:Er; [discriminate|].
    intros H; inversion H; subst. destruct (IH idxs' eq_refl) as [Hl Hall].
    split; [cbn; now rewrite Hl|].
    intros c i'. cbn [column_index].
    destruct (String.eqb_spec c0 c) as [->|Hne].
    + intros H'; inversion H'; subst. exact E0.
    + destruct (column_index cols c) as [k|] eqn:Ek; cbn [option_map]; [|discriminate].
      intros H'; inversion H'; subst. cbn [nth]. now apply Hall.
Qed.

Lemma project_cell idxs r i' :
  i' < List.length idxs ->
  nth i' (project idxs r) VNone = nth (nth i' idxs 0) r VNone.
Proof.
  intros Hl. unfold project. now rewrite (nth_map_lt _ _ _ 0 VNone _ _ Hl).
Qed.

Lemma find_table_in db s t tt :
  find_table db s t = Some tt -> In tt db /\ t_name tt = t.
Proof.
  unfold find_table. intros H. apply find_some in H. destruct H as [Hin Hb].
  split; [exact Hin|]. unfold is_table in Hb. apply andb_prop in Hb.
  now apply String.eqb_eq.
Qed.

Lemma catalog_has_table_columns db s t tt :
  find_table db s t = Some tt -> incl (t_columns tt) (catalog_columns db t).
Proof.
  intros H. destruct (find_table_in db s t tt H) as [Hin Hn].
  intros c Hc. unfold catalog_columns. apply in_flat_map. exists tt.
  split; [exact Hin|]. rewrite Hn, String.eqb_refl. exact Hc.
Qed.

(** The row a source row becomes in the target when the INSERT names
    the columns the SELECT asked for: its updated_date is the source's. *)
Lemma updated_date_lands cols names_s names_t idxs r i j :
  resolve names_s cols = inr idxs ->
  column_index names_s "updated_date" = Some i ->
  column_index names_t "updated_date" = Some j ->
  In "updated_date" cols ->
  nth j (build_row names_t cols (project idxs r)) VNone = nth i r VNone.
Proof.
  intros Hr Hi Hj Hin.
  destruct (column_index_in cols "updated_date" Hin) as [i' Hi'].
  rewrite (build_row_cell names_t cols _ "updated_date" j Hj), Hi'.
  destruct (resolve_nth names_s cols idxs Hr) as [Hl Hall].
  rewrite project_cell
    by (rewrite Hl; apply (column_index_nth cols "updated_date" i' Hi')).
  pose proof (Hall _ _ Hi') as H. rewrite Hi in H. inversion H; subst. reflexivity.
Qed.

Lemma value_le_int W m : value_le (VInt W) m -> exists W', m = VInt W' /\ (W <= W')%Z.
Proof. destruct m as [|W']; cbn; [tauto|]. intros H. now exists W'. Qed.

(** After a DELTA load whose INSERT names the columns its SELECT asked
    for, the watermark of the target is at or above every
    [updated_date] of the source. *)
Lemma watermark_covers_source dbs dbt ss ts tn cols n W rs v' :
  incl (map fst (catalog_columns dbt tn)) cols ->
  sql_count dbt ts tn = inr (S n) ->
  sql_max_updated dbt ts tn = inr (VInt W) ->
  sql_select dbs cols ss tn (Some (VInt W)) = inr rs ->
  insert_rows dbt (mkInsert ts tn cols (repeat "%s" (List.length cols))) rs
    = (v', None) ->
  exists W',
    sql_count v' ts tn = inr (S (n + List.length rs))
    /\ sql_max_updated v' ts tn = inr (VInt W')
    /\ forall r u, In r (source_rows dbs ss tn) ->
                   updated_date_of dbs ss tn r = VInt u -> (u <= W')%Z.
Proof.
  intros Hcols Hc Hm Hsel Hins.
  unfold sql_count in Hc. unfold sql_max_updated in Hm.
  destruct (find_table dbt ts tn) as [tt|] eqn:Hft; [|discriminate].
  inversion Hc as [Hlen]; clear Hc.
  destruct (column_index (column_names tt) "updated_date") as [j|] eqn:Hj;
    [|discriminate].
  inversion Hm as [HW]; clear Hm.
  unfold sql_select in Hsel. unfold source_rows, updated_date_of.
  destruct (find_table dbs ss tn) as [st|] eqn:Hfs; [|discriminate].
  destruct (resolve (column_names st) cols) as [e|idxs] eqn:Hres; [discriminate|].
  destruct (column_index (column_names st) "updated_date") as [i|] eqn:Hi;
    [|discriminate].
  inversion Hsel as [Hrs]; clear Hsel.
  remember (map (project idxs) (filter (newer_than i W) (t_rows st))) as sel eqn:Hsel'.
  subst rs.
  pose proof (insert_rows_table
                (mkInsert ts tn cols (repeat "%s" (List.length cols)))
                sel dbt v' tt Hft Hins) as Hft'.
  cbn [i_schema i_table i_columns] in Hft'.
  assert (Hin : In "updated_date" cols).
  { apply Hcols. apply in_map_iff.
    destruct (column_index_nth _ _ _ Hj) as [Hn Hl].
    unfold column_names in *. rewrite <- Hn.
    assert (Hnth : In (nth j (map fst (t_columns tt)) "") (map fst (t_columns tt)))
      by (apply nth_In; exact Hl).
    apply in_map_iff in Hnth. destruct Hnth as (c & Hc1 & Hc2).
    exists c. split; [exact Hc1|].
    eapply catalog_has_table_columns; eassumption. }
  set (cell := fun r : row => nth j r VNone) in *.
  change (fold_left value_max (map cell (t_rows tt)) VNone = VInt W) in HW.
  set (new := map (build_row (column_names tt) cols) sel) in *.
  assert (Hle : value_le (VInt W)
                  (fold_left value_max (map cell (t_rows tt ++ new)) VNone)).
  { rewrite map_app, fold_left_app, HW. apply fold_max_start. }
  destruct (value_le_int _ _ Hle) as (W' & HW' & HWW').
  exists W'. split; [|split].
  - unfold sql_count. rewrite Hft'. cbn [with_rows t_rows].
    rewrite length_app, Hlen. unfold new. rewrite length_map.
    reflexivity.
  - unfold sql_max_updated. rewrite Hft'.
    unfold column_names, with_rows. cbn [t_columns t_rows].
    unfold column_names in Hj. rewrite Hj.
    change (inr (fold_left value_max (map cell (t_rows tt ++ new)) VNone)
            = @inr exn value (VInt W')).
    now rewrite HW'.
  - intros r u Hr Hu.
    destruct (Z.le_gt_cases u W) as [Hlow|Hhigh]; [lia|].
    assert (Hmem : In (VInt u) (map cell (t_rows tt ++ new))).
    { apply in_map_iff. exists (build_row (column_names tt) cols (project idxs r)).
      split.
      - unfold cell.
        rewrite (updated_date_lands cols (column_names st) (column_names tt)
                   idxs r i j Hres Hi Hj Hin).
        exact Hu.
      - apply in_or_app. right. unfold new. apply in_map. subst sel.
        apply in_map. apply filter_In. split; [exact Hr|].
        unfold newer_than. rewrite Hu. now apply Z.ltb_lt. }
    pose proof (fold_max_member _ VNone _ Hmem) as Hmax.
    rewrite HW' in Hmax. exact Hmax.
Qed.

(** X23. With the two catalogs listing the same columns in the same order,
    a DELTA load that goes through leaves nothing for the next run:
    run again with the source unchanged, the replication inserts no
    row and commits nothing. *)
Lemma rerun_after_delta_inserts_nothing
  (w : world) (ds dt : dsn) (dbs dbt : database)
  (fuel : nat) (tn ss ts : string) (n : nat) (W : Z)
  (rs : list row) (v' : database) :
  reachable w ds dt dbs dbt ->
  dsn_eqb dt ds = false ->
  map fst (catalog_columns dbs tn) = map fst (catalog_columns dbt tn) ->
  sql_count dbt ts tn = inr (S n) ->
  sql_max_updated dbt ts tn = inr (VInt W) ->
  sql_select dbs (map fst (catalog_columns dbt tn)) ss tn (Some (VInt W))
    = inr rs ->
  List.length rs < fuel ->
  insert_rows dbt
    (mkInsert ts tn (map fst (catalog_columns dbs tn))
       (repeat "%s" (List.length (map fst (catalog_columns dbs tn))))) rs
    = (v', None) ->
  let first := p_move_data_for_table fuel tn ss ts w in
  let second := p_move_data_for_table fuel tn ss ts (snd first) in
  fst first = Return tt
  /\ inserted_batches (w_trace (snd second))
     = inserted_batches (w_trace (snd first))
  /\ w_servers (snd second) = w_servers (snd first).
Proof.
  destruct w as [fs sv src tgt fr tr0]. unfold reachable.
  cbn [w_files w_servers w_trace].
  intros (Hsrc & Htgt & Hs & Ht) Hne Hagree Hc Hm Hsel Hfuel Hins. cbv zeta.
  assert (Hp : planned_watermark dbt ts tn = Some (Some (VInt W)))
    by (unfold planned_watermark; now rewrite Hc, Hm).
  pose proof (block_all_inserted fs sv ds dt dbs dbt fuel tn ss ts tr0
                (Some (VInt W)) rs v' Hp Hsel Hfuel Hins) as Heq1.
  rewrite (run_wraps fs sv ds dt dbs dbt Hsrc Htgt Hs Ht fuel tn ss ts
             src tgt fr tr0 _ _ _ _ _ Heq1).
  cbn [fst snd]. split; [reflexivity|].
  rewrite Hagree in Hins.
  destruct (watermark_covers_source dbs dbt ss ts tn
              (map fst (catalog_columns dbt tn)) n W rs v'
              (incl_refl _) Hc Hm Hsel Hins)
    as (W' & Hc' & Hm' & Hcov).
  match goal with
  | |- context [p_move_data_for_table fuel tn ss ts ?w1] =>
      assert (Hreach1 : reachable w1 ds dt dbs v')
  end.
  { unfold reachable. cbn [w_files w_servers].
    split; [exact Hsrc|]. split; [exact Htgt|].
    destruct rs as [|r rs'].
    - rewrite insert_rows_nil in Hins. inversion Hins; subst v'. now split.
    - split.
      + rewrite (lookup_store_other sv dt ds v' Hne). exact Hs.
      + apply (lookup_store_same sv dt dbt v' Ht). }
  match goal with
  | |- context [p_move_data_for_table fuel tn ss ts ?w1] =>
      destruct (delta_inserts_only_newer_rows w1 ds dt dbs v' fuel tn ss ts
                  (n + List.length rs) W' Hreach1 Hc' Hm')
        as (new & Hb & _ & Hnil)
  end.
  destruct (Hnil Hcov) as [-> Hsrv].
  rewrite app_nil_r in Hb. split; [exact Hb | exact Hsrv].
Qed.

Lemma rerun_after_delta_inserts_nothing_witness :
  fst (main 5 (demo_world two_products one_product)) = Return tt
  /\ inserted_batches
       (w_trace (snd (main 5 (snd (main 5 (demo_world two_products one_product))))))
     = inserted_batches (w_trace (snd (main 5 (demo_world two_products one_product)))).
Proof.
  assert (Hf : 1 < 5) by lia.
  pose proof (rerun_after_delta_inserts_nothing
                (demo_world two_products one_product)
                source_dsn target_dsn two_products one_product
                5 "products" "Core" "dwh" 0 10 [[VInt 2; VInt 20]]
                [products "dwh" id_then_date [] [[VInt 1; VInt 10]; [VInt 2; VInt 20]]]
                (demo_reachable _ _) eq_refl eq_refl eq_refl eq_refl eq_refl Hf eq_refl)
    as H.
  cbv zeta in H. destruct H as (H1 & H2 & _). split; [exact H1 | exact H2].
Defined.

(* ================================================================== *)
(** ** Column lists of the SELECT and of the INSERT *)
(* ================================================================== *)

Lemma plan_events_no_template pevs :
  Forall plan_event pevs -> insert_templates pevs = [].
Proof.
  induction 1 as [|e evs He _ IH]; [reflexivity|].
  unfold insert_templates in *. cbn [flat_map]. rewrite IH.
  destruct e; try contradiction; reflexivity.
Qed.

Lemma plan_events_no_close pevs :
  Forall plan_event pevs -> closes pevs = [].
Proof.
  induction 1 as [|e evs He _ IH]; [reflexivity|].
  unfold closes in *. cbn [flat_map]. rewrite IH.
  destruct e; try contradiction; reflexivity.
Qed.

Lemma loop_events_no_close q rs evs :
  Forall (loop_event q rs) evs -> closes evs = [].
Proof.
  induction 1 as [|e evs He _ IH]; [reflexivity|].
  unfold closes in *. cbn [flat_map]. rewrite IH.
  destruct e as [| | | | [] | [] | [] | | |]; try contradiction; reflexivity.
Qed.

(** X24. In every run that reaches both stores, each INSERT handed to the
    target names the columns the source catalog lists, in the source's
    order. *)
Lemma insert_names_the_source_columns
  (w : world) (ds dt : dsn) (dbs dbt : database)
  (fuel : nat) (tn ss ts : string) :
  reachable w ds dt dbs dbt ->
  exists new,
    insert_templates (w_trace (snd (p_move_data_for_table fuel tn ss ts w)))
    = insert_templates (w_trace w) ++ new
    /\ Forall (fun q => i_columns q = map fst (catalog_columns dbs tn)) new.
Proof.
  destruct w as [fs sv src tgt fr tr0]. unfold reachable.
  cbn [w_files w_servers w_trace]. intros (Hsrc & Htgt & Hs & Ht).
  destruct (block_any fs sv ds dt dbs dbt fuel tn ss ts tr0)
    as (o & sv' & cs' & ct' & pevs & levs & rs & Heq & Hp & Hl).
  rewrite (run_wraps fs sv ds dt dbs dbt Hsrc Htgt Hs Ht fuel tn ss ts
             src tgt fr tr0 _ _ _ _ _ Heq).
  exists (insert_templates levs). split.
  - destruct o as [[]|e|]; cbn [snd w_trace];
      rewrite !insert_templates_app, (plan_events_no_template pevs Hp);
      cbn; rewrite ?app_nil_r; reflexivity.
  - apply loop_events_templates in Hl.
    eapply Forall_impl; [|exact Hl]. intros q <-. reflexivity.
Qed.

(** C2: the code at a failing input. The SELECT asks for the target's
    columns (updated_date, id) and the INSERT names the source's
    (id, updated_date): the row fetched as (100, 1) is stored with
    id 100 and updated_date 1, each value in the other's column. *)
Theorem insert_and_select_disagree_on_columns :
  fst (main 5 (demo_world permuted_source permuted_target)) = Return tt
  /\ queries_on Source
       (w_trace (snd (main 5 (demo_world permuted_source permuted_target))))
     = [SelectColumns "products";
        SelectFrom ["updated_date"; "id"] "Core" "products" None]
  /\ insert_templates
       (w_trace (snd (main 5 (demo_world permuted_source permuted_target))))
     = [mkInsert "dwh" "products" ["id"; "updated_date"] ["%s"; "%s"]]
  /\ target_rows (snd (main 5 (demo_world permuted_source permuted_target)))
     = Some [[VInt 1; VInt 100]]
  /\ cell id_then_date [VInt 1; VInt 100] "id" = VInt 1
  /\ cell id_then_date [VInt 1; VInt 100] "updated_date" = VInt 100
  /\ cell date_then_id [VInt 1; VInt 100] "id" = VInt 100
  /\ cell date_then_id [VInt 1; VInt 100] "updated_date" = VInt 1.
Proof. vm_compute. repeat split; reflexivity. Qed.

(** C7: the code at a failing input. The target is not empty, its
    watermark is 50, and the catalogs list the columns in different
    orders. The DELTA run fetches the source row updated at 100 as
    (100, 1) and stores it with updated_date 1, below the watermark;
    the watermark stays at 50, the source is untouched, and the second
    run selects and inserts the same row again. *)
Theorem rerun_inserts_again_under_permuted_catalogs :
  sql_count permuted_target_at_50 "dwh" "products" = inr 1
  /\ sql_max_updated permuted_target_at_50 "dwh" "products" = inr (VInt 50)
  /\ fst (main 5 (demo_world permuted_source permuted_target_at_50)) = Return tt
  /\ inserted_batches
       (w_trace (snd (main 5 (demo_world permuted_source permuted_target_at_50))))
     = [[[VInt 100; VInt 1]]]
  /\ target_rows (snd (main 5 (demo_world permuted_source permuted_target_at_50)))
     = Some [[VInt 50; VInt 0]; [VInt 1; VInt 100]]
  /\ lookup_server
       (w_servers (snd (main 5 (demo_world permuted_source permuted_target_at_50))))
       source_dsn
     = Some permuted_source
  /\ fst (main 5
            (snd (main 5 (demo_world permuted_source permuted_target_at_50))))
     = Return tt
  /\ inserted_batches
       (w_trace
          (snd (main 5
             (snd (main 5 (demo_world permuted_source permuted_target_at_50))))))
     = [[[VInt 100; VInt 1]]; [[VInt 100; VInt 1]]]
  /\ target_rows
       (snd (main 5
          (snd (main 5 (demo_world permuted_source permuted_target_at_50)))))
     = Some [[VInt 50; VInt 0]; [VInt 1; VInt 100]; [VInt 1; VInt 100]].
Proof. vm_compute. repeat split; reflexivity. Qed.

(** With the catalogs in the same order the second run inserts nothing. *)
Lemma aligned_catalogs_rerun_inserts_nothing :
  target_rows (snd (main 5 (demo_world two_products one_product)))
  = Some [[VInt 1; VInt 10]; [VInt 2; VInt 20]]
  /\ target_rows
       (snd (main 5 (snd (main 5 (demo_world two_products one_product)))))
     = Some [[VInt 1; VInt 10]; [VInt 2; VInt 20]].
Proof. vm_compute. split; reflexivity. Qed.

(* ================================================================== *)
(** ** A watermark that is NULL *)
(* ================================================================== *)

(** C3: the code at a failing input. The count is 1, the watermark is
    NULL, and the run sends the source a DELTA SELECT whose predicate
    compares [updated_date] with the text None. *)
Theorem null_watermark_goes_into_the_predicate :
  sql_count null_dates_target "dwh" "products" = inr 1
  /\ sql_max_updated null_dates_target "dwh" "products" = inr VNone
  /\ queries_on Source
       (w_trace (snd (main 5 (demo_world two_products null_dates_target))))
     = [SelectColumns "products";
        SelectFrom ["id"; "updated_date"] "Core" "products" (Some VNone)]
  /\ render (SelectFrom ["id"; "updated_date"] "Core" "products" (Some VNone))
     = "SELECT id, updated_date FROM Core.products WHERE updated_date > 'None'"
  /\ kind_of (SelectFrom ["id"; "updated_date"] "Core" "products" (Some VNone))
     = Some DELTA.
Proof. vm_compute. repeat split; reflexivity. Qed.

(* ================================================================== *)
(** ** Release of the connections *)
(* ================================================================== *)

(** When both connections were acquired, both are closed, the source
    first, whatever the outcome of the transfer (short of the model's
    fuel running out inside the loop). *)
Lemma both_connections_closed
  (w : world) (ds dt : dsn) (dbs dbt : database)
  (fuel : nat) (tn ss ts : string) :
  reachable w ds dt dbs dbt ->
  fst (p_move_data_for_table fuel tn ss ts w) <> OutOfFuel ->
  closes (w_trace (snd (p_move_data_for_table fuel tn ss ts w)))
  = closes (w_trace w) ++ [Source; Target].
Proof.
  destruct w as [fs sv src tgt fr tr0]. unfold reachable.
  cbn [w_files w_servers w_trace]. intros (Hsrc & Htgt & Hs & Ht).
  destruct (block_any fs sv ds dt dbs dbt fuel tn ss ts tr0)
    as (o & sv' & cs' & ct' & pevs & levs & rs & Heq & Hp & Hl).
  rewrite (run_wraps fs sv ds dt dbs dbt Hsrc Htgt Hs Ht fuel tn ss ts
             src tgt fr tr0 _ _ _ _ _ Heq).
  destruct o as [[]|e|]; cbn [fst snd w_trace]; intros Hne;
    try congruence;
    rewrite !closes_app, (plan_events_no_close pevs Hp),
      (loop_events_no_close _ _ _ Hl);
    cbn; rewrite ?app_nil_r; reflexivity.
Qed.

(** C4: the code at two failing inputs. When the source connection is
    never acquired the [finally] block calls [close] on [None] and
    itself fails with an AttributeError; when only the target
    connection is missing the source is closed and the release of the
    target fails the same way. *)
Theorem release_fails_on_a_handle_never_acquired :
  fst (main 5 no_source_config)
  = Raise (AttributeError "'NoneType' object has no attribute 'close'")
  /\ closes (w_trace (snd (main 5 no_source_config))) = []
  /\ fst (main 5 target_down)
     = Raise (AttributeError "'NoneType' object has no attribute 'close'")
  /\ closes (w_trace (snd (main 5 target_down))) = [Source].
Proof. vm_compute. repeat split; reflexivity. Qed.

(* ================================================================== *)
(** ** Propagation of errors *)
(* ================================================================== *)

(** The [except] clause shared by the procedures: what the body raised
    is logged, printed and raised again as it is. *)
Lemma except_clause_reraises (A : Type) (body : M A) (w w' : world) (e : exn) :
  body w = (Raise e, w') ->
  try_except body log_and_reraise w =
  (Raise e,
   add_event (EvPrint ("Error:  " ++ exn_str e))
     (add_event (EvLogError ("An error occurred: " ++ exn_str e)) w')).
Proof. intros H. unfold try_except. rewrite H. reflexivity. Qed.

Lemma read_config_reraises (path : string) (w : world) (e : exn) :
  fst (yaml_safe_load path w) = Raise e ->
  fst (p_read_config path w) = Raise e
  /\ logged (w_trace (snd (p_read_config path w)))
     = logged (w_trace w) ++ [("An error occurred: " ++ exn_str e)%string].
Proof.
  unfold p_read_config, yaml_safe_load, try_except, bind, ret.
  destruct (lookup_file (w_files w) path) as [[cfg|]|]; cbn; intros H;
    inversion H; subst; split; try reflexivity;
    rewrite !logged_app; cbn; rewrite app_nil_r; reflexivity.
Qed.

(** With both connections acquired, the run raises to its caller the
    very exception the transfer block raised, after logging it. *)
Lemma run_reraises_the_block_exception
  (w : world) (ds dt : dsn) (dbs dbt : database)
  (fuel : nat) (tn ss ts : string) (e : exn) :
  reachable w ds dt dbs dbt ->
  fst (p_move_data_for_table fuel tn ss ts w) = Raise e ->
  exists before,
    logged (w_trace (snd (p_move_data_for_table fuel tn ss ts w)))
    = before ++ [("An error occurred: " ++ exn_str e)%string].
Proof.
  destruct w as [fs sv src tgt fr tr0]. unfold reachable.
  cbn [w_files w_servers w_trace]. intros (Hsrc & Htgt & Hs & Ht).
  destruct (block_any fs sv ds dt dbs dbt fuel tn ss ts tr0)
    as (o & sv' & cs' & ct' & pevs & levs & rs & Heq & Hp & Hl).
  rewrite (run_wraps fs sv ds dt dbs dbt Hsrc Htgt Hs Ht fuel tn ss ts
             src tgt fr tr0 _ _ _ _ _ Heq).
  destruct o as [[]|e'|]; cbn [fst snd w_trace]; intros He;
    try discriminate.
  inversion He; subst e'. eexists.
  rewrite !logged_app. cbn. rewrite app_nil_r, !app_assoc. reflexivity.
Qed.

(** C9: the code at a failing input. The connection procedure raises
    an OperationalError and logs it, the replication procedure logs it
    again, and what its caller receives is the AttributeError of the
    [finally] block, not the exception that was logged. *)
Theorem caller_receives_another_exception :
  fst (p_connect_to_source source_down)
  = Raise (OperationalError "could not connect to server")
  /\ logged (w_trace (snd (main 5 source_down)))
     = ["An error occurred: could not connect to server";
        "An error occurred: could not connect to server"]
  /\ fst (main 5 source_down)
     = Raise (AttributeError "'NoneType' object has no attribute 'close'").
Proof. vm_compute. repeat split; reflexivity. Qed.

(* ================================================================== *)
(** ** The connection procedures *)
(* ================================================================== *)

Ltac key_cases cfg :=
  destruct (lookup_key cfg "host") as [?h|] eqn:?Hh;
  [destruct (lookup_key cfg "database") as [?d|] eqn:?Hd;
   [destruct (lookup_key cfg "user") as [?u|] eqn:?Hu;
    [destruct (lookup_key cfg "password") as [?p|] eqn:?Hp;
     [destruct (lookup_key cfg "port") as [?po|] eqn:?Hpo|]|]|]|].

Lemma connect_with_run r cfg w :
  connect_with r cfg w =
  match first_missing cfg with
  | Some k => (Raise (KeyError k), w)
  | None =>
      match lookup_server (w_servers w) (dsn_of cfg) with
      | None => (Raise (OperationalError "could not connect to server"),
                 add_events [EvConnect r (dsn_of cfg)] w)
      | Some db =>
          (Return r, set_conn r (mkConn (dsn_of cfg) db [] [] false)
                       (add_events [EvConnect r (dsn_of cfg)] w))
      end
  end.
Proof.
  unfold connect_with, first_missing, dsn_of, value_of, has_key, getitem,
    psycopg2_connect, bind, ret, raise, emit, add_event, add_events.
  cbn [find required_keys].
  key_cases cfg; cbn [negb]; reflexivity.
Qed.

Ltac finish_log :=
  unfold log_and_reraise, logging_error, print, emit, bind, raise, ret,
    add_event, add_events, error_events, set_conn;
  cbn; rewrite <- ?app_assoc; reflexivity.

Lemma logged_connect_calls r fs path : logged (connect_calls r fs path) = [].
Proof.
  unfold connect_calls. destruct (lookup_file fs path) as [[cfg|]|]; try reflexivity.
  destruct (first_missing cfg); reflexivity.
Qed.

(** A connection procedure, read off [connect_result]. *)
Lemma connect_run (r : role) (path : string) (w : world) :
  (l_db_config <- p_read_config path ;;
   try_except (o_connection <- connect_with r l_db_config ;; ret o_connection)
              log_and_reraise) w =
  match connect_result (w_files w) (w_servers w) path with
  | inl e =>
      (Raise e,
       add_events (connect_calls r (w_files w) path ++ error_events e) w)
  | inr (d, db) =>
      (Return r, set_conn r (mkConn d db [] [] false)
                   (add_events [EvConnect r d] w))
  end.
Proof.
  unfold connect_result, connect_calls, p_read_config, yaml_safe_load.
  unfold bind at 1. unfold try_except at 1. unfold bind at 1.
  destruct (lookup_file (w_files w) path) as [[cfg|]|].
  - cbn [ret]. unfold try_except, bind. rewrite connect_with_run.
    destruct (first_missing cfg) as [k|].
    + destruct w; finish_log.
    + cbn [w_servers add_events].
      destruct (lookup_server (w_servers w) (dsn_of cfg)); destruct w; finish_log.
  - destruct w; finish_log.
  - destruct w; finish_log.
Qed.

Lemma connect_source_run w :
  p_connect_to_source w =
  match connect_result (w_files w) (w_servers w) "config/source_db.yml" with
  | inl e =>
      (Raise e,
       add_events (connect_calls Source (w_files w) "config/source_db.yml"
                   ++ error_events e) w)
  | inr (d, db) =>
      (Return Source, set_conn Source (mkConn d db [] [] false)
                        (add_events [EvConnect Source d] w))
  end.
Proof. exact (connect_run Source "config/source_db.yml" w). Qed.

Lemma connect_target_run w :
  p_connect_to_target w =
  match connect_result (w_files w) (w_servers w) "config/target_db.yml" with
  | inl e =>
      (Raise e,
       add_events (connect_calls Target (w_files w) "config/target_db.yml"
                   ++ error_events e) w)
  | inr (d, db) =>
      (Return Target, set_conn Target (mkConn d db [] [] false)
                        (add_events [EvConnect Target d] w))
  end.
Proof. exact (connect_run Target "config/target_db.yml" w). Qed.

Lemma reads_connect_result fs sv path d db :
  reads fs path d -> lookup_server sv d = Some db ->
  connect_result fs sv path = inr (d, db).
Proof.
  intros (cfg & H0 & H1 & H2 & H3 & H4 & H5) Hs.
  unfold connect_result, first_missing, has_key. rewrite H0.
  cbn [find required_keys]. rewrite H1, H2, H3, H4, H5. cbn [negb].
  assert (Hd : dsn_of cfg = d).
  { unfold dsn_of, value_of. rewrite H1, H2, H3, H4, H5. now destruct d. }
  now rewrite Hd, Hs.
Qed.

(** X1. p_read_config returns what the file holds and touches nothing; a
    file that is missing or is no YAML makes it raise, after one log
    line and one printed line, and change nothing else. *)
Theorem read_config_outcomes (path : string) (w : world) :
  match fst (p_read_config path w) with
  | Return cfg =>
      lookup_file (w_files w) path = Some (Some cfg)
      /\ snd (p_read_config path w) = w
  | Raise e =>
      (e = FileNotFoundError path \/ e = YAMLError path)
      /\ snd (p_read_config path w) = add_events (error_events e) w
  | OutOfFuel => False
  end.
Proof.
  unfold p_read_config, yaml_safe_load, try_except, bind, ret.
  destruct (lookup_file (w_files w) path) as [[cfg|]|]; cbn [fst snd].
  - auto.
  - split; [now right|]. destruct w. finish_log.
  - split; [now left|]. destruct w. finish_log.
Qed.

(** X2. A connection attempt that fails leaves no connection behind: both
    connection slots, the servers, the files and the locals are as
    before, and the log got exactly one line, that of the exception
    raised. *)
Theorem connect_source_failure (w : world) (e : exn) :
  fst (p_connect_to_source w) = Raise e ->
  let w' := snd (p_connect_to_source w) in
  w_source w' = w_source w /\ w_target w' = w_target w
  /\ w_servers w' = w_servers w /\ w_files w' = w_files w
  /\ w_frame w' = w_frame w
  /\ logged (w_trace w')
     = logged (w_trace w) ++ [("An error occurred: " ++ exn_str e)%string].
Proof.
  rewrite connect_source_run.
  destruct (connect_result _ _ _) as [e'|[d db]]; cbn [fst snd]; intros H;
    inversion H; subst.
  cbn [add_events w_source w_target w_servers w_files w_frame w_trace].
  repeat split. rewrite !logged_app, logged_connect_calls. reflexivity.
Qed.

Lemma connect_source_failure_witness :
  fst (p_connect_to_source source_down)
  = Raise (OperationalError "could not connect to server")
  /\ w_source (snd (p_connect_to_source source_down)) = None
  /\ logged (w_trace (snd (p_connect_to_source source_down)))
     = ["An error occurred: could not connect to server"].
Proof.
  split; [reflexivity|].
  pose proof (connect_source_failure source_down
                (OperationalError "could not connect to server") eq_refl) as H.
  cbv zeta in H. destruct H as (H1 & _ & _ & _ & _ & H6).
  split; [exact H1 | exact H6].
Defined.

(** X3. The configuration is read key by key in the order host, database,
    user, password, port: the first key it lacks is the KeyError
    raised, logged once, and psycopg2.connect is not called. *)
Theorem connect_source_missing_key (w : world) (cfg : config) (k : string) :
  lookup_file (w_files w) "config/source_db.yml" = Some (Some cfg) ->
  first_missing cfg = Some k ->
  p_connect_to_source w
  = (Raise (KeyError k), add_events (error_events (KeyError k)) w).
Proof.
  intros Hf Hk. rewrite connect_source_run.
  unfold connect_result, connect_calls. rewrite Hf, Hk. reflexivity.
Qed.

Lemma connect_source_missing_key_witness :
  first_missing [("host", "source.example"); ("database", "shop")] = Some "user"
  /\ p_connect_to_source partial_source_config
     = (Raise (KeyError "user"),
        add_events (error_events (KeyError "user")) partial_source_config).
Proof.
  split; [reflexivity|].
  exact (connect_source_missing_key partial_source_config
           [("host", "source.example"); ("database", "shop")] "user"
           eq_refl eq_refl).
Defined.

(** X4. With the five keys in the file and a server answering to them,
    p_connect_to_source makes one call to psycopg2.connect with those
    five values and returns an open connection that sees the server's
    committed data; the target connection, the servers and the log are
    untouched. *)
Theorem connect_source_success (w : world) (d : dsn) (db : database) :
  reads (w_files w) "config/source_db.yml" d ->
  lookup_server (w_servers w) d = Some db ->
  p_connect_to_source w
  = (Return Source,
     set_conn Source (mkConn d db [] [] false) (add_events [EvConnect Source d] w)).
Proof.
  intros Hr Hs. rewrite connect_source_run.
  now rewrite (reads_connect_result _ _ _ d db Hr Hs).
Qed.

Lemma connect_source_success_witness :
  reads (w_files (demo_world two_products no_products))
        "config/source_db.yml" source_dsn
  /\ fst (p_connect_to_source (demo_world two_products no_products))
     = Return Source
  /\ w_source (snd (p_connect_to_source (demo_world two_products no_products)))
     = Some (mkConn source_dsn two_products [] [] false).
Proof.
  assert (Hr : reads (w_files (demo_world two_products no_products))
                     "config/source_db.yml" source_dsn)
    by (unfold reads; eexists; repeat split; reflexivity).
  split; [exact Hr|].
  rewrite (connect_source_success (demo_world two_products no_products)
             source_dsn two_products Hr eq_refl).
  split; reflexivity.
Defined.

(** X5. p_connect_to_target fails like p_connect_to_source: one log line
    for the exception raised, and nothing else changes; in particular
    a source connection already open stays as it is. *)
Theorem connect_target_failure (w : world) (e : exn) :
  fst (p_connect_to_target w) = Raise e ->
  let w' := snd (p_connect_to_target w) in
  w_source w' = w_source w /\ w_target w' = w_target w
  /\ w_servers w' = w_servers w /\ w_files w' = w_files w
  /\ w_frame w' = w_frame w
  /\ logged (w_trace w')
     = logged (w_trace w) ++ [("An error occurred: " ++ exn_str e)%string].
Proof.
  rewrite connect_target_run.
  destruct (connect_result _ _ _) as [e'|[d db]]; cbn [fst snd]; intros H;
    inversion H; subst.
  cbn [add_events w_source w_target w_servers w_files w_frame w_trace].
  repeat split. rewrite !logged_app, logged_connect_calls. reflexivity.
Qed.

Lemma connect_target_failure_witness :
  fst (p_connect_to_target target_down)
  = Raise (OperationalError "could not connect to server")
  /\ logged (w_trace (snd (p_connect_to_target target_down)))
     = ["An error occurred: could not connect to server"].
Proof.
  split; [reflexivity|].
  pose proof (connect_target_failure target_down
                (OperationalError "could not connect to server") eq_refl) as H.
  cbv zeta in H. destruct H as (_ & _ & _ & _ & _ & H6). exact H6.
Defined.

(** X6. With its five keys and its server, p_connect_to_target opens the
    target connection on the data of config/target_db.yml's server and
    leaves the source connection as it was. *)
Theorem connect_target_success (w : world) (d : dsn) (db : database) :
  reads (w_files w) "config/target_db.yml" d ->
  lookup_server (w_servers w) d = Some db ->
  p_connect_to_target w
  = (Return Target,
     set_conn Target (mkConn d db [] [] false) (add_events [EvConnect Target d] w)).
Proof.
  intros Hr Hs. rewrite connect_target_run.
  now rewrite (reads_connect_result _ _ _ d db Hr Hs).
Qed.

Lemma connect_target_success_witness :
  reads (w_files (demo_world two_products no_products))
        "config/target_db.yml" target_dsn
  /\ fst (p_connect_to_target (demo_world two_products no_products))
     = Return Target
  /\ w_target (snd (p_connect_to_target (demo_world two_products no_products)))
     = Some (mkConn target_dsn no_products [] [] false).
Proof.
  assert (Hr : reads (w_files (demo_world two_products no_products))
                     "config/target_db.yml" target_dsn)
    by (unfold reads; eexists; repeat split; reflexivity).
  split; [exact Hr|].
  rewrite (connect_target_success (demo_world two_products no_products)
             target_dsn no_products Hr eq_refl).
  split; reflexivity.
Defined.

(* ================================================================== *)
(** ** Introspection of one connection *)
(* ================================================================== *)

Lemma catalog_columns_app a b name :
  catalog_columns (a ++ b) name = catalog_columns a name ++ catalog_columns b name.
Proof. unfold catalog_columns. apply flat_map_app. Qed.

(** X7. A live connection is only read: the introspection sends the
    catalog query and fetches its rows, logs nothing, leaves the
    servers, the session's view of the data and the other connection
    as they were, and hands the cursor back empty. *)
Theorem table_definition_is_read_only
  (r : role) (c : connection) (w : world) (name : string) :
  get_conn r w = Some c -> c_closed c = false ->
  let w' := snd (p_get_table_definition r name w) in
  w_servers w' = w_servers w
  /\ w_files w' = w_files w
  /\ w_frame w' = w_frame w
  /\ get_conn r w' = Some (mkConn (c_dsn c) (c_view c) [] [] false)
  /\ (forall r', r' <> r -> get_conn r' w' = get_conn r' w)
  /\ w_trace w' = w_trace w ++ [EvExecute r (SelectColumns name); EvFetchAll r].
Proof.
  intros Hc Hl. destruct w as [fs sv src tgt fr tr].
  rewrite (table_definition_ok r c fs sv src tgt fr tr name Hc Hl).
  cbv zeta. cbn [snd]. unfold set_result. rewrite Hl.
  destruct r; cbn [set_conn get_conn w_servers w_files w_frame w_trace
                   w_source w_target];
    (split; [reflexivity|]); (split; [reflexivity|]); (split; [reflexivity|]);
    (split; [reflexivity|]); (split; [|reflexivity]);
    intros [] Hne; try reflexivity; now elim Hne.
Qed.

Lemma table_definition_is_read_only_witness :
  get_conn Source two_schemas_world
    = Some (mkConn source_dsn two_schemas [] [] false)
  /\ w_servers (snd (p_get_table_definition Source "products" two_schemas_world))
     = w_servers two_schemas_world
  /\ w_trace (snd (p_get_table_definition Source "products" two_schemas_world))
     = [EvExecute Source (SelectColumns "products"); EvFetchAll Source].
Proof.
  split; [reflexivity|].
  pose proof (table_definition_is_read_only Source
                (mkConn source_dsn two_schemas [] [] false)
                two_schemas_world "products" eq_refl eq_refl) as H.
  cbv zeta in H. destruct H as (H1 & _ & _ & _ & _ & H6).
  split; [exact H1 | exact H6].
Defined.

(** X8. When one table only carries the name in the connected database,
    whatever its schema, the introspection returns that table's
    columns, in catalog order. *)
Theorem table_definition_of_the_only_table
  (r : role) (c : connection) (w : world) (name : string)
  (before after : database) (t : table) :
  get_conn r w = Some c -> c_closed c = false ->
  c_view c = before ++ t :: after ->
  t_name t = name ->
  (forall t', In t' (before ++ after) -> t_name t' <> name) ->
  fst (p_get_table_definition r name w) = Return (t_columns t).
Proof.
  intros Hc Hl Hv Hn Hothers.
  rewrite (table_definition_returns r c w name Hc Hl), Hv.
  change (t :: after) with ([t] ++ after).
  rewrite !catalog_columns_app.
  rewrite (catalog_columns_absent before name)
    by (intros t' Ht'; apply Hothers, in_or_app; now left).
  rewrite (catalog_columns_absent after name)
    by (intros t' Ht'; apply Hothers, in_or_app; now right).
  unfold catalog_columns. cbn [flat_map app].
  rewrite Hn, String.eqb_refl, !app_nil_r. reflexivity.
Qed.

Lemma table_definition_of_the_only_table_witness :
  get_conn Source three_tables_world
    = Some (mkConn source_dsn three_tables [] [] false)
  /\ fst (p_get_table_definition Source "products" three_tables_world)
     = Return id_then_date.
Proof.
  split; [reflexivity|].
  apply (table_definition_of_the_only_table Source
           (mkConn source_dsn three_tables [] [] false)
           three_tables_world "products"
           [mkTable "Core" "customers" [("id", "bigint")] [] []]
           [mkTable "Core" "orders" [("id", "bigint"); ("total", "bigint")] [] []]
           (products "Core" id_then_date [] [])
           eq_refl eq_refl eq_refl eq_refl).
  intros t' [<-|[<-|[]]]; discriminate.
Defined.

(** X9. On a connection that was closed, the introspection sends nothing:
    psycopg2 refuses the cursor, and the InterfaceError is logged once
    and raised to the caller. *)
Theorem table_definition_on_closed_connection
  (r : role) (c : connection) (w : world) (name : string) :
  get_conn r w = Some c -> c_closed c = true ->
  p_get_table_definition r name w
  = (Raise (InterfaceError "connection already closed"),
     add_events (error_events (InterfaceError "connection already closed")) w).
Proof.
  intros Hc Hl.
  unfold p_get_table_definition, with_cursor, try_except, bind, live.
  rewrite Hc, Hl. destruct w. finish_log.
Qed.

Lemma table_definition_on_closed_connection_witness :
  get_conn Source closed_source_world
    = Some (mkConn source_dsn two_products [] [] true)
  /\ fst (p_get_table_definition Source "products" closed_source_world)
     = Raise (InterfaceError "connection already closed")
  /\ queries_on Source
       (w_trace (snd (p_get_table_definition Source "products"
                        closed_source_world))) = [].
Proof.
  split; [reflexivity|].
  rewrite (table_definition_on_closed_connection Source
             (mkConn source_dsn two_products [] [] true)
             closed_source_world "products" eq_refl eq_refl).
  split; reflexivity.
Defined.

(* ================================================================== *)
(** ** The run with both connections acquired *)
(* ================================================================== *)

Lemma transfer_loop_more fs fr ds dt vs q cs_cat ct_cat rt :
  forall fuel rs vt sv tr,
  exists o sv' rs' vt' evs,
    transfer_loop fuel Source Target q
      (mkWorld fs sv (Some (mkConn ds vs cs_cat rs false))
               (Some (mkConn dt vt ct_cat rt false)) fr tr) =
    (o, mkWorld fs sv' (Some (mkConn ds vs cs_cat rs' false))
          (Some (mkConn dt vt' ct_cat rt false)) fr (tr ++ evs))
    /\ Forall (loop_event q rs) evs
    /\ (sv' = sv \/ exists v, sv' = store_server sv dt v)
    /\ (List.length rs < fuel -> o <> OutOfFuel).
Proof.
  induction fuel as [|fuel IH]; intros rs vt sv tr.
  - exists OutOfFuel, sv, rs, vt, []. rewrite app_nil_r. cbn.
    repeat split; auto. lia.
  - rewrite transfer_loop_pass. destruct rs as [|r rs'].
    + exists (Return tt), sv, [], vt, [EvFetchMany Source 1000 []].
      repeat split; auto.
      * constructor; [|constructor]. cbn. apply incl_nil_l.
      * discriminate.
    + cbv zeta.
      assert (Hin : incl (firstn 1000 (r :: rs')) (r :: rs')).
      { intros x Hx. rewrite <- (firstn_skipn 1000 (r :: rs')).
        apply in_or_app. now left. }
      assert (Hne : firstn 1000 (r :: rs') <> [])
        by (apply (firstn_nonempty 999); discriminate).
      destruct (insert_rows vt q (firstn 1000 (r :: rs'))) as [v [e|]].
      * eexists (Raise e), sv, _, v, _. split; [reflexivity|].
        split; [|split; [now left | discriminate]].
        apply Forall_cons; [exact Hin|].
        apply Forall_cons; [cbn; auto | constructor].
      * destruct (IH (skipn 1000 (r :: rs')) v (store_server sv dt v)
                     (tr ++ pass_events q (firstn 1000 (r :: rs'))))
          as (o & sv' & rs'' & vt' & evs & Heq & Hev & Hsv & Hfuel).
        exists o, sv', rs'', vt', (pass_events q (firstn 1000 (r :: rs')) ++ evs).
        rewrite Heq, <- app_assoc. split; [reflexivity|].
        assert (Hsk : incl (skipn 1000 (r :: rs')) (r :: rs')).
        { intros x Hx. rewrite <- (firstn_skipn 1000 (r :: rs')).
          apply in_or_app. now right. }
        split; [|split].
        -- apply Forall_app. split.
           ++ apply Forall_cons; [exact Hin|].
              apply Forall_cons; [cbn; auto|].
              apply Forall_cons; [exact I | constructor].
           ++ eapply Forall_impl; [|exact Hev].
              intros ev Hev'.
              destruct ev as [| | | |[] n b|[] q' b|[]| | |]; cbn in *; auto.
              ** eapply incl_tran; eauto.
              ** destruct Hev' as (? & ? & ?). repeat split; auto.
                 eapply incl_tran; eauto.
        -- right. destruct Hsv as [->|[v2 ->]].
           ++ now exists v.
           ++ exists v2. apply store_server_twice.
        -- intros Hlen. apply Hfuel. rewrite length_skipn.
           cbn [List.length] in *. lia.
Qed.

Lemma selected_no_more_than_source dbs cols ss tn wm rs :
  sql_select dbs cols ss tn wm = inr rs ->
  List.length rs <= List.length (source_rows dbs ss tn).
Proof.
  unfold sql_select, source_rows.
  destruct (find_table dbs ss tn) as [t|]; [|discriminate].
  destruct (resolve _ _); [discriminate|].
  destruct wm as [[|W]|].
  - destruct (column_index _ _); discriminate.
  - destruct (column_index _ _); [|discriminate].
    intros H; inversion H; subst. rewrite length_map. apply filter_length_le.
  - intros H; inversion H; subst. now rewrite length_map.
Qed.

Lemma block_more fs sv ds dt dbs dbt fuel tn ss ts tr :
  exists o sv' cs' ct' evs rs,
    (select_source_rows Source Target tn ss ts (map fst (catalog_columns dbt tn)) ;;
     transfer_loop fuel Source Target
       (mkInsert ts tn (map fst (catalog_columns dbs tn))
          (repeat "%s" (List.length (map fst (catalog_columns dbs tn))))))
      (mkWorld fs sv (Some (mkConn ds dbs [] [] false))
               (Some (mkConn dt dbt [] [] false)) both_handles
               (tr ++ prelude_events ds dt tn)) =
    (o, mkWorld fs sv' (Some cs') (Some ct') both_handles
          ((tr ++ prelude_events ds dt tn) ++ evs))
    /\ Forall (block_event
                 (mkInsert ts tn (map fst (catalog_columns dbs tn))
                    (repeat "%s" (List.length (map fst (catalog_columns dbs tn)))))
                 rs) evs
    /\ (sv' = sv \/ exists v, sv' = store_server sv dt v)
    /\ (List.length (source_rows dbs ss tn) < fuel -> o <> OutOfFuel).
Proof.
  destruct (planned_watermark dbt ts tn) as [wm|] eqn:Hp.
  - rewrite (block_planned fs sv ds dt dbs dbt fuel tn ss ts tr wm Hp).
    unfold bind at 1. rewrite execute_source. cbn [run_query w_trace].
    assert (Hplan : Forall plan_event
                      (plan_events ts tn wm
                       ++ [EvExecute Source
                             (SelectFrom (map fst (catalog_columns dbt tn)) ss tn wm)])).
    { unfold plan_events. destruct wm; repeat constructor. }
    destruct (sql_select dbs (map fst (catalog_columns dbt tn)) ss tn wm)
      as [e|rs] eqn:Hsel.
    + eexists (Raise e), sv, _, _, _, []. split.
      * rewrite <- !app_assoc. reflexivity.
      * split; [|split; [now left | discriminate]].
        eapply Forall_impl; [|exact Hplan]. intros ev Hev. now left.
    + destruct (transfer_loop_more fs both_handles ds dt dbs
                  (mkInsert ts tn (map fst (catalog_columns dbs tn))
                     (repeat "%s" (List.length (map fst (catalog_columns dbs tn)))))
                  [] [] [] fuel rs dbt sv
                  (((tr ++ prelude_events ds dt tn) ++ plan_events ts tn wm)
                   ++ [EvExecute Source
                         (SelectFrom (map fst (catalog_columns dbt tn)) ss tn wm)]))
        as (o & sv' & rs' & vt' & evs & Heq & Hev & Hsv & Hfuel).
      rewrite Heq.
      eexists o, sv', _, _,
        ((plan_events ts tn wm
          ++ [EvExecute Source
                (SelectFrom (map fst (catalog_columns dbt tn)) ss tn wm)]) ++ evs),
        rs.
      split; [rewrite <- !app_assoc; reflexivity|].
      split; [|split; [exact Hsv|]].
      * apply Forall_app. split.
        -- eapply Forall_impl; [|exact Hplan]. intros ev Hev'. now left.
        -- eapply Forall_impl; [|exact Hev]. intros ev Hev'. now right.
      * intros Hlen. apply Hfuel.
        pose proof (selected_no_more_than_source _ _ _ _ _ _ Hsel). lia.
  - unfold planned_watermark in Hp.
    destruct (sql_count dbt ts tn) as [e|[|n]] eqn:Hc; [|discriminate|].
    + rewrite (block_count_fails fs sv ds dt dbs dbt fuel tn ss ts tr e Hc).
      eexists (Raise e), sv, _, _, _, []. split; [reflexivity|].
      split; [|split; [now left | discriminate]].
      repeat constructor.
    + destruct (sql_max_updated dbt ts tn) as [e|v] eqn:Hm; [|discriminate].
      rewrite (block_max_fails fs sv ds dt dbs dbt fuel tn ss ts tr n e Hc Hm).
      eexists (Raise e), sv, _, _, _, []. split; [reflexivity|].
      split; [|split; [now left | discriminate]].
      repeat constructor.
Qed.

Lemma block_events_no_log q rs evs :
  Forall (block_event q rs) evs -> logged evs = [].
Proof.
  induction 1 as [|e evs He _ IH]; [reflexivity|].
  unfold logged in *. cbn [flat_map]. rewrite IH.
  destruct He as [He|He]; destruct e as [| | | | [] | [] | [] | | |];
    try contradiction; reflexivity.
Qed.

Lemma block_events_no_close q rs evs :
  Forall (block_event q rs) evs -> closes evs = [].
Proof.
  induction 1 as [|e evs He _ IH]; [reflexivity|].
  unfold closes in *. cbn [flat_map]. rewrite IH.
  destruct He as [He|He]; destruct e as [| | | | [] | [] | [] | | |];
    try contradiction; reflexivity.
Qed.

Lemma block_events_write_to_target q rs evs :
  Forall (block_event q rs) evs -> Forall (eq Target) (writers evs).
Proof.
  induction 1 as [|e evs He _ IH]; [constructor|].
  unfold writers in *. cbn [flat_map]. apply Forall_app. split; [|exact IH].
  destruct He as [He|He]; destruct e as [| | | | [] | [] | [] | | |];
    try contradiction; repeat constructor.
Qed.

Lemma writers_app a b : writers (a ++ b) = writers a ++ writers b.
Proof. apply flat_map_app. Qed.

(** X10. The loop ends: with more fuel than the source table has rows, a
    run that reached both stores returns or raises. *)
Theorem run_ends_within_the_source_rows
  (w : world) (ds dt : dsn) (dbs dbt : database)
  (fuel : nat) (tn ss ts : string) :
  reachable w ds dt dbs dbt ->
  List.length (source_rows dbs ss tn) < fuel ->
  fst (p_move_data_for_table fuel tn ss ts w) <> OutOfFuel.
Proof.
  destruct w as [fs sv src tgt fr tr0]. unfold reachable.
  cbn [w_files w_servers w_trace]. intros (Hsrc & Htgt & Hs & Ht) Hfuel.
  destruct (block_more fs sv ds dt dbs dbt fuel tn ss ts tr0)
    as (o & sv' & cs' & ct' & evs & rs & Heq & Hev & Hsv & Hend).
  rewrite (run_wraps fs sv ds dt dbs dbt Hsrc Htgt Hs Ht fuel tn ss ts
             src tgt fr tr0 _ _ _ _ _ Heq).
  specialize (Hend Hfuel).
  destruct o as [[]|e|]; cbn [fst]; congruence.
Qed.

Lemma run_ends_within_the_source_rows_witness :
  reachable (demo_world two_products one_product)
            source_dsn target_dsn two_products one_product
  /\ List.length (source_rows two_products "Core" "products") < 3
  /\ fst (main 3 (demo_world two_products one_product)) <> OutOfFuel.
Proof.
  assert (Hlen : List.length (source_rows two_products "Core" "products") < 3)
    by (vm_compute; lia).
  split; [reach|]. split; [exact Hlen|].
  exact (run_ends_within_the_source_rows
           (demo_world two_products one_product)
           source_dsn target_dsn two_products one_product
           3 "products" "Core" "dwh" (demo_reachable _ _) Hlen).
Defined.

(** X11. Once both connections are acquired they are both released, the
    source first, whether the transfer returns or raises, and both
    connection objects end up closed with their cursors emptied. *)
Theorem acquired_connections_are_released
  (w : world) (ds dt : dsn) (dbs dbt : database)
  (fuel : nat) (tn ss ts : string) :
  reachable w ds dt dbs dbt ->
  List.length (source_rows dbs ss tn) < fuel ->
  let final := snd (p_move_data_for_table fuel tn ss ts w) in
  closes (w_trace final) = closes (w_trace w) ++ [Source; Target]
  /\ (exists c, w_source final = Some c
                /\ c_closed c = true /\ c_result c = [])
  /\ (exists c, w_target final = Some c
                /\ c_closed c = true /\ c_result c = []).
Proof.
  destruct w as [fs sv src tgt fr tr0]. unfold reachable.
  cbn [w_files w_servers w_trace]. intros (Hsrc & Htgt & Hs & Ht) Hfuel.
  destruct (block_more fs sv ds dt dbs dbt fuel tn ss ts tr0)
    as (o & sv' & cs' & ct' & evs & rs & Heq & Hev & Hsv & Hend).
  rewrite (run_wraps fs sv ds dt dbs dbt Hsrc Htgt Hs Ht fuel tn ss ts
             src tgt fr tr0 _ _ _ _ _ Heq).
  specialize (Hend Hfuel). cbv zeta.
  pose proof (block_events_no_close _ _ _ Hev) as Hnc.
  destruct o as [[]|e|]; [| |congruence];
    cbn [snd w_trace w_source w_target];
    (split; [rewrite !closes_app, Hnc; cbn; rewrite ?app_nil_r; reflexivity|]);
    split; eexists; (split; [reflexivity|]); split; reflexivity.
Qed.

Lemma acquired_connections_are_released_witness :
  reachable (demo_world two_products one_product)
            source_dsn target_dsn two_products one_product
  /\ List.length (source_rows two_products "Core" "products") < 3
  /\ closes (w_trace (snd (main 3 (demo_world two_products one_product))))
     = [Source; Target].
Proof.
  assert (Hlen : List.length (source_rows two_products "Core" "products") < 3)
    by (vm_compute; lia).
  split; [reach|]. split; [exact Hlen|].
  pose proof (acquired_connections_are_released
                (demo_world two_products one_product)
                source_dsn target_dsn two_products one_product
                3 "products" "Core" "dwh" (demo_reachable _ _) Hlen) as H.
  cbv zeta in H. exact (proj1 H).
Defined.

(** X12. A run that reached both stores writes to the log only when it
    fails, and then one line: that of the exception it raises. *)
Theorem run_logs_its_exception_once
  (w : world) (ds dt : dsn) (dbs dbt : database)
  (fuel : nat) (tn ss ts : string) :
  reachable w ds dt dbs dbt ->
  logged (w_trace (snd (p_move_data_for_table fuel tn ss ts w)))
  = logged (w_trace w)
    ++ match fst (p_move_data_for_table fuel tn ss ts w) with
       | Raise e => [("An error occurred: " ++ exn_str e)%string]
       | _ => []
       end.
Proof.
  destruct w as [fs sv src tgt fr tr0]. unfold reachable.
  cbn [w_files w_servers w_trace]. intros (Hsrc & Htgt & Hs & Ht).
  destruct (block_more fs sv ds dt dbs dbt fuel tn ss ts tr0)
    as (o & sv' & cs' & ct' & evs & rs & Heq & Hev & Hsv & Hend).
  rewrite (run_wraps fs sv ds dt dbs dbt Hsrc Htgt Hs Ht fuel tn ss ts
             src tgt fr tr0 _ _ _ _ _ Heq).
  pose proof (block_events_no_log _ _ _ Hev) as Hnl.
  destruct o as [[]|e|]; cbn [fst snd w_trace];
    rewrite !logged_app, Hnl; cbn; rewrite ?app_nil_r; reflexivity.
Qed.

Lemma run_logs_its_exception_once_witness :
  reachable (demo_world [] no_products) source_dsn target_dsn [] no_products
  /\ logged (w_trace (snd (main 3 (demo_world [] no_products))))
     = ["An error occurred: relation Core.products does not exist"].
Proof.
  split; [reach|].
  exact (run_logs_its_exception_once (demo_world [] no_products)
           source_dsn target_dsn [] no_products 3 "products" "Core" "dwh"
           (demo_reachable _ _)).
Defined.

(** X13. A run writes to the target connection and to no other, and the
    committed data of every server but the target's is what it was:
    the source store is only read. *)
Theorem run_writes_to_the_target_only
  (w : world) (ds dt : dsn) (dbs dbt : database)
  (fuel : nat) (tn ss ts : string) :
  reachable w ds dt dbs dbt ->
  let final := snd (p_move_data_for_table fuel tn ss ts w) in
  (exists new, writers (w_trace final) = writers (w_trace w) ++ new
               /\ Forall (eq Target) new)
  /\ (forall d, dsn_eqb dt d = false ->
                lookup_server (w_servers final) d = lookup_server (w_servers w) d).
Proof.
  destruct w as [fs sv src tgt fr tr0]. unfold reachable.
  cbn [w_files w_servers w_trace]. intros (Hsrc & Htgt & Hs & Ht).
  destruct (block_more fs sv ds dt dbs dbt fuel tn ss ts tr0)
    as (o & sv' & cs' & ct' & evs & rs & Heq & Hev & Hsv & Hend).
  rewrite (run_wraps fs sv ds dt dbs dbt Hsrc Htgt Hs Ht fuel tn ss ts
             src tgt fr tr0 _ _ _ _ _ Heq).
  cbv zeta. split.
  - exists (writers evs). split; [|exact (block_events_write_to_target _ rs _ Hev)].
    destruct o as [[]|e|]; cbn [snd w_trace]; rewrite !writers_app; cbn;
      rewrite ?app_nil_r; reflexivity.
  - intros d Hd.
    assert (Hl : lookup_server sv' d = lookup_server sv d).
    { destruct Hsv as [->|[v ->]]; [reflexivity|].
      now apply lookup_store_other. }
    destruct o as [[]|e|]; cbn [snd w_servers]; exact Hl.
Qed.

Lemma run_writes_to_the_target_only_witness :
  reachable (demo_world two_products one_product)
            source_dsn target_dsn two_products one_product
  /\ dsn_eqb target_dsn source_dsn = false
  /\ lookup_server
       (w_servers (snd (main 3 (demo_world two_products one_product))))
       source_dsn
     = Some two_products.
Proof.
  split; [reach|]. split; [reflexivity|].
  pose proof (run_writes_to_the_target_only
                (demo_world two_products one_product)
                source_dsn target_dsn two_products one_product
                3 "products" "Core" "dwh" (demo_reachable _ _)) as H.
  cbv zeta in H. exact (proj2 H source_dsn eq_refl).
Defined.

(* ================================================================== *)
(** ** Runs that do not reach both stores *)
(* ================================================================== *)

Lemma closes_connect_calls r fs path : closes (connect_calls r fs path) = [].
Proof.
  unfold connect_calls. destruct (lookup_file fs path) as [[cfg|]|]; try reflexivity.
  destruct (first_missing cfg); reflexivity.
Qed.

Lemma connect_source_raises w e :
  fst (p_connect_to_source w) = Raise e ->
  connect_result (w_files w) (w_servers w) "config/source_db.yml" = inl e.
Proof.
  rewrite connect_source_run.
  destruct (connect_result _ _ _) as [e'|[d db]]; cbn [fst]; intros H;
    inversion H; reflexivity.
Qed.

Lemma connect_target_raises w e :
  fst (p_connect_to_target w) = Raise e ->
  connect_result (w_files w) (w_servers w) "config/target_db.yml" = inl e.
Proof.
  rewrite connect_target_run.
  destruct (connect_result _ _ _) as [e'|[d db]]; cbn [fst]; intros H;
    inversion H; reflexivity.
Qed.

Lemma queries_connect_calls r r' fs path :
  queries_on r (connect_calls r' fs path) = [].
Proof.
  unfold connect_calls. destruct (lookup_file fs path) as [[cfg|]|]; try reflexivity.
  destruct (first_missing cfg); [reflexivity|]. destruct r, r'; reflexivity.
Qed.

Lemma run_source_failure fs sv src tgt fr tr e fuel tn ss ts :
  connect_result fs sv "config/source_db.yml" = inl e ->
  p_move_data_for_table fuel tn ss ts (mkWorld fs sv src tgt fr tr) =
  (Raise (AttributeError "'NoneType' object has no attribute 'close'"),
   mkWorld fs sv src tgt (mkFrame None None)
     (tr ++ connect_calls Source fs "config/source_db.yml"
         ++ error_events e ++ error_events e)).
Proof.
  intros He. unfold p_move_data_for_table.
  unfold bind at 1. unfold set_l_connection_source, set_frame at 1.
  unfold bind at 1. unfold set_l_connection_target, set_frame at 1.
  cbn [w_frame w_files w_servers w_source w_target w_trace
       l_connection_source l_connection_target].
  unfold try_finally at 1. unfold try_except at 1.
  unfold move_data_body. unfold bind at 1. rewrite connect_source_run.
  cbn [w_files w_servers]. rewrite He.
  unfold log_and_reraise, logging_error, print, get_frame, close_handle,
    add_events, error_events.
  run_ops. rewrite <- !app_assoc. reflexivity.
Qed.

Lemma run_target_failure fs sv src tgt fr tr ds dbs e fuel tn ss ts :
  reads fs "config/source_db.yml" ds ->
  lookup_server sv ds = Some dbs ->
  connect_result fs sv "config/target_db.yml" = inl e ->
  p_move_data_for_table fuel tn ss ts (mkWorld fs sv src tgt fr tr) =
  (Raise (AttributeError "'NoneType' object has no attribute 'close'"),
   mkWorld fs sv (Some (mkConn ds dbs [] [] true)) tgt
     (mkFrame (Some Source) None)
     (tr ++ [EvConnect Source ds; EvExecute Source (SelectColumns tn);
             EvFetchAll Source]
         ++ connect_calls Target fs "config/target_db.yml"
         ++ error_events e ++ error_events e ++ [EvClose Source])).
Proof.
  intros Hsrc Hs He. unfold p_move_data_for_table.
  unfold bind at 1. unfold set_l_connection_source, set_frame at 1.
  unfold bind at 1. unfold set_l_connection_target, set_frame at 1.
  cbn [w_frame w_files w_servers w_source w_target w_trace
       l_connection_source l_connection_target].
  unfold try_finally at 1. unfold try_except at 1.
  unfold move_data_body.
  unfold bind at 1. rewrite (connect_source_ok fs sv ds dbs Hsrc Hs).
  unfold bind at 1. unfold set_l_connection_source, set_frame.
  cbn [w_frame w_files w_servers w_source w_target w_trace l_connection_target].
  unfold bind at 1. erewrite table_definition_ok by reflexivity.
  cbn [set_conn set_result c_dsn c_view c_closed w_frame w_files w_servers
       w_source w_target w_trace].
  unfold bind at 1. rewrite connect_target_run.
  cbn [w_files w_servers]. rewrite He.
  unfold log_and_reraise, logging_error, print, get_frame, close_handle,
    add_events, error_events.
  run_ops. rewrite <- !app_assoc. reflexivity.
Qed.

(** X14. When the source connection cannot be opened, whatever the reason,
    the run logs that reason twice (once in the connection procedure,
    once in its own handler), then fails in its [finally] block on the
    handle that is still None: the caller gets an AttributeError,
    nothing is closed, and no connection and no data changed. *)
Theorem run_without_source_connection
  (w : world) (e : exn) (fuel : nat) (tn ss ts : string) :
  fst (p_connect_to_source w) = Raise e ->
  let final := p_move_data_for_table fuel tn ss ts w in
  fst final
  = Raise (AttributeError "'NoneType' object has no attribute 'close'")
  /\ logged (w_trace (snd final))
     = logged (w_trace w)
       ++ [("An error occurred: " ++ exn_str e)%string;
           ("An error occurred: " ++ exn_str e)%string]
  /\ closes (w_trace (snd final)) = closes (w_trace w)
  /\ w_servers (snd final) = w_servers w
  /\ w_source (snd final) = w_source w
  /\ w_target (snd final) = w_target w.
Proof.
  intros He. apply connect_source_raises in He.
  destruct w as [fs sv src tgt fr tr0]. cbn [w_files w_servers] in He.
  cbv zeta. rewrite (run_source_failure fs sv src tgt fr tr0 e fuel tn ss ts He).
  cbn [fst snd w_trace w_servers w_source w_target].
  split; [reflexivity|].
  split; [|split; [|repeat split]].
  - rewrite !logged_app, logged_connect_calls. cbn.
    rewrite ?app_nil_r. reflexivity.
  - rewrite !closes_app, closes_connect_calls. cbn.
    rewrite ?app_nil_r. reflexivity.
Qed.

Lemma run_without_source_connection_witness :
  fst (p_connect_to_source no_source_config)
  = Raise (FileNotFoundError "config/source_db.yml")
  /\ fst (main 5 no_source_config)
     = Raise (AttributeError "'NoneType' object has no attribute 'close'")
  /\ logged (w_trace (snd (main 5 no_source_config)))
     = ["An error occurred: " ++ exn_str (FileNotFoundError "config/source_db.yml");
        "An error occurred: " ++ exn_str (FileNotFoundError "config/source_db.yml")]%string.
Proof.
  split; [reflexivity|].
  pose proof (run_without_source_connection no_source_config
                (FileNotFoundError "config/source_db.yml")
                5 "products" "Core" "dwh" eq_refl) as H.
  cbv zeta in H. destruct H as (H1 & H2 & _).
  split; [exact H1 | exact H2].
Defined.

(** X15. When the source connection opens and the target connection cannot
    be opened, the source connection is closed, the close of the target
    handle, still None, raises: the caller gets an AttributeError in
    place of the connection error, which is in the log twice; no query
    but the source introspection ran and no data changed. *)
Theorem run_without_target_connection
  (w : world) (ds : dsn) (dbs : database) (e : exn)
  (fuel : nat) (tn ss ts : string) :
  reads (w_files w) "config/source_db.yml" ds ->
  lookup_server (w_servers w) ds = Some dbs ->
  fst (p_connect_to_target w) = Raise e ->
  let final := p_move_data_for_table fuel tn ss ts w in
  fst final
  = Raise (AttributeError "'NoneType' object has no attribute 'close'")
  /\ logged (w_trace (snd final))
     = logged (w_trace w)
       ++ [("An error occurred: " ++ exn_str e)%string;
           ("An error occurred: " ++ exn_str e)%string]
  /\ closes (w_trace (snd final)) = closes (w_trace w) ++ [Source]
  /\ queries_on Source (w_trace (snd final))
     = queries_on Source (w_trace w) ++ [SelectColumns tn]
  /\ queries_on Target (w_trace (snd final)) = queries_on Target (w_trace w)
  /\ w_servers (snd final) = w_servers w
  /\ w_source (snd final) = Some (mkConn ds dbs [] [] true)
  /\ w_target (snd final) = w_target w.
Proof.
  intros Hsrc Hs He. apply connect_target_raises in He.
  destruct w as [fs sv src tgt fr tr0]. cbn [w_files w_servers] in *.
  cbv zeta.
  rewrite (run_target_failure fs sv src tgt fr tr0 ds dbs e fuel tn ss ts
             Hsrc Hs He).
  cbn [fst snd w_trace w_servers w_source w_target].
  split; [reflexivity|].
  split; [|split; [|split; [|split; [|repeat split]]]].
  - rewrite !logged_app, logged_connect_calls. cbn.
    rewrite ?app_nil_r. reflexivity.
  - rewrite !closes_app, closes_connect_calls. cbn.
    rewrite ?app_nil_r. reflexivity.
  - rewrite !queries_on_app, queries_connect_calls. cbn.
    rewrite ?app_nil_r. reflexivity.
  - rewrite !queries_on_app, queries_connect_calls. cbn.
    rewrite ?app_nil_r. reflexivity.
Qed.

Lemma run_without_target_connection_witness :
  reads (w_files target_down) "config/source_db.yml" source_dsn
  /\ fst (p_connect_to_target target_down)
     = Raise (OperationalError "could not connect to server")
  /\ fst (main 5 target_down)
     = Raise (AttributeError "'NoneType' object has no attribute 'close'")
  /\ closes (w_trace (snd (main 5 target_down))) = [Source].
Proof.
  assert (Hr : reads (w_files target_down) "config/source_db.yml" source_dsn)
    by (unfold reads; eexists; repeat split; reflexivity).
  split; [exact Hr|]. split; [reflexivity|].
  pose proof (run_without_target_connection target_down source_dsn two_products
                (OperationalError "could not connect to server")
                5 "products" "Core" "dwh" Hr eq_refl eq_refl) as H.
  cbv zeta in H. destruct H as (H1 & _ & H3 & _).
  split; [exact H1 | exact H3].
Defined.

(* ================================================================== *)
(** ** Statements over a table's own column list *)
(* ================================================================== *)

Lemma column_index_self : forall cols j,
  NoDup cols -> j < List.length cols ->
  column_index cols (nth j cols "") = Some j.
Proof.
  induction cols as [|c rest IH]; intros j Hnd Hj; [cbn in Hj; lia|].
  inversion Hnd as [|? ? Hnotin Hnd']; subst.
  destruct j as [|j]; cbn [nth column_index].
  - now rewrite String.eqb_refl.
  - cbn in Hj. assert (Hj' : j < List.length rest) by lia.
    destruct (String.eqb c (nth j rest "")) eqn:Heq.
    + apply String.eqb_eq in Heq. subst c. elim Hnotin. now apply nth_In.
    + rewrite (IH j Hnd' Hj'). reflexivity.
Qed.

Lemma resolve_total names : forall cols,
  incl cols names -> exists idxs, resolve names cols = inr idxs.
Proof.
  induction cols as [|c rest IH]; intros Hin; [now exists []|].
  cbn [resolve].
  destruct (column_index_in names c (Hin c (or_introl eq_refl))) as [i Hi].
  rewrite Hi.
  destruct (IH (fun x Hx => Hin x (or_intror Hx))) as [idxs Hr].
  rewrite Hr. now eexists.
Qed.

(** Under a select list that is the table's own column list, a row of
    the table's width is projected onto itself. *)
Lemma project_own_columns cols idxs r :
  NoDup cols -> resolve cols cols = inr idxs ->
  List.length r = List.length cols ->
  project idxs r = r.
Proof.
  intros Hnd Hres Hlen.
  destruct (resolve_nth cols cols idxs Hres) as [Hl Hix].
  apply (nth_ext _ _ VNone VNone).
  - unfold project. rewrite length_map. congruence.
  - intros j Hj. unfold project in Hj. rewrite length_map in Hj.
    rewrite project_cell by exact Hj.
    assert (Hj' : j < List.length cols) by congruence.
    pose proof (column_index_self cols j Hnd Hj') as Hself.
    pose proof (Hix _ _ Hself) as H2. rewrite Hself in H2.
    injection H2 as H3. f_equal. symmetry. exact H3.
Qed.

(** An INSERT that names the table's own column list stores the
    parameters as they are. *)
Lemma build_row_own_columns cols r :
  NoDup cols -> List.length r = List.length cols ->
  build_row cols cols r = r.
Proof.
  intros Hnd Hlen. apply (nth_ext _ _ VNone VNone).
  - unfold build_row. rewrite length_map. congruence.
  - intros j Hj. unfold build_row in Hj. rewrite length_map in Hj.
    rewrite (build_row_cell cols cols r (nth j cols "") j)
      by now apply column_index_self.
    now rewrite column_index_self.
Qed.

Lemma sql_select_own_columns db s t st wm :
  find_table db s t = Some st ->
  NoDup (column_names st) ->
  Forall (fun r => List.length r = List.length (column_names st)) (t_rows st) ->
  match wm with
  | None => True
  | Some v => exists W, v = VInt W
              /\ column_index (column_names st) "updated_date" <> None
  end ->
  sql_select db (column_names st) s t wm = inr (matching st wm).
Proof.
  intros Hf Hnd Hlen Hwm. unfold sql_select, matching. rewrite Hf.
  destruct (resolve_total (column_names st) (column_names st) (incl_refl _))
    as [idxs Hr].
  rewrite Hr.
  assert (Hid : forall l, incl l (t_rows st) -> map (project idxs) l = l).
  { intros l Hl. rewrite <- (map_id l) at 2. apply map_ext_in.
    intros r Hin. apply (project_own_columns _ _ _ Hnd Hr).
    rewrite Forall_forall in Hlen. apply Hlen, Hl, Hin. }
  destruct wm as [v|].
  - destruct Hwm as (W & -> & Hcol).
    destruct (column_index (column_names st) "updated_date") as [i|];
      [|congruence].
    rewrite Hid; [reflexivity|]. intros r Hin.
    now apply filter_In in Hin.
  - now rewrite Hid by apply incl_refl.
Qed.

(* ================================================================== *)
(** ** The run, by what the stores answer *)
(* ================================================================== *)

Lemma block_select_fails fs sv ds dt dbs dbt fuel tn ss ts tr wm e :
  planned_watermark dbt ts tn = Some wm ->
  sql_select dbs (map fst (catalog_columns dbt tn)) ss tn wm = inl e ->
  (select_source_rows Source Target tn ss ts (map fst (catalog_columns dbt tn)) ;;
   transfer_loop fuel Source Target
     (mkInsert ts tn (map fst (catalog_columns dbs tn))
        (repeat "%s" (List.length (map fst (catalog_columns dbs tn))))))
    (mkWorld fs sv (Some (mkConn ds dbs [] [] false))
       (Some (mkConn dt dbt [] [] false)) both_handles
       (tr ++ prelude_events ds dt tn)) =
  (Raise e,
   mkWorld fs sv (Some (mkConn ds dbs [] [] false))
     (Some (mkConn dt dbt [] [] false)) both_handles
     ((tr ++ prelude_events ds dt tn) ++ plan_events ts tn wm
      ++ [EvExecute Source
            (SelectFrom (map fst (catalog_columns dbt tn)) ss tn wm)])).
Proof.
  intros Hp Hsel.
  rewrite (block_planned fs sv ds dt dbs dbt fuel tn ss ts tr wm Hp).
  unfold bind at 1. rewrite execute_source. cbn [run_query]. rewrite Hsel.
  cbn [w_trace]. rewrite <- !app_assoc. reflexivity.
Qed.

Lemma queries_on_plan_source ts tn wm :
  queries_on Source (plan_events ts tn wm) = [].
Proof. destruct wm; reflexivity. Qed.

Lemma closes_plan ts tn wm : closes (plan_events ts tn wm) = [].
Proof. destruct wm; reflexivity. Qed.

Lemma closes_passes q (l : list (list row)) :
  closes (flat_map (pass_events q) l) = [].
Proof. induction l as [|b l IH]; [reflexivity|]. cbn. exact IH. Qed.

(** X16. When every insert goes through, the run hands the rows the source
    SELECT returned to the target in batches of at most 1000, in order,
    commits once per batch, logs nothing, closes both connections and
    returns; the target server then holds what the inserts left. *)
Theorem run_transfers_the_selection
  (w : world) (ds dt : dsn) (dbs dbt : database)
  (fuel : nat) (tn ss ts : string)
  (wm : option value) (rs : list row) (v' : database) :
  reachable w ds dt dbs dbt ->
  planned_watermark dbt ts tn = Some wm ->
  sql_select dbs (map fst (catalog_columns dbt tn)) ss tn wm = inr rs ->
  List.length rs < fuel ->
  insert_rows dbt
    (mkInsert ts tn (map fst (catalog_columns dbs tn))
       (repeat "%s" (List.length (map fst (catalog_columns dbs tn))))) rs
    = (v', None) ->
  let r := p_move_data_for_table fuel tn ss ts w in
  fst r = Return tt
  /\ (exists new,
        w_trace (snd r) = w_trace w ++ new
        /\ logged new = []
        /\ inserted_batches new = chunks 1000 rs
        /\ List.concat (inserted_batches new) = rs
        /\ commits new = List.length (chunks 1000 rs)
        /\ closes new = [Source; Target])
  /\ w_servers (snd r) =
       match rs with
       | [] => w_servers w
       | _ :: _ => store_server (w_servers w) dt v'
       end.
Proof.
  destruct w as [fs sv src tgt fr tr0]. unfold reachable.
  cbn [w_files w_servers w_trace].
  intros (Hsrc & Htgt & Hs & Ht) Hp Hsel Hf Hi. cbv zeta.
  pose proof (block_all_inserted fs sv ds dt dbs dbt fuel tn ss ts tr0 wm
                rs v' Hp Hsel Hf Hi) as Heq.
  rewrite (run_wraps fs sv ds dt dbs dbt Hsrc Htgt Hs Ht fuel tn ss ts
             src tgt fr tr0 _ _ _ _ _ Heq).
  cbn [fst snd w_trace w_servers]. split; [reflexivity|]. split; [|reflexivity].
  eexists. split; [rewrite <- !app_assoc; reflexivity|].
  rewrite !logged_app, !inserted_batches_app, !commits_app, !closes_app.
  rewrite logged_plan, inserted_batches_plan, commits_plan, closes_plan.
  rewrite logged_passes, inserted_batches_passes, commits_passes, closes_passes.
  cbn. rewrite ?app_nil_r, ?Nat.add_0_r.
  split; [reflexivity|]. split; [reflexivity|].
  split; [apply (concat_chunks 999)|]. split; reflexivity.
Qed.

Lemma run_transfers_the_selection_witness :
  reachable (demo_world two_products no_products)
            source_dsn target_dsn two_products no_products
  /\ planned_watermark no_products "dwh" "products" = Some None
  /\ fst (main 5 (demo_world two_products no_products)) = Return tt
  /\ w_servers (snd (main 5 (demo_world two_products no_products)))
     = store_server (w_servers (demo_world two_products no_products)) target_dsn
         [products "dwh" id_then_date [] [[VInt 1; VInt 10]; [VInt 2; VInt 20]]].
Proof.
  assert (Hf : 2 < 5) by lia.
  split; [reach|]. split; [reflexivity|].
  pose proof (run_transfers_the_selection
                (demo_world two_products no_products)
                source_dsn target_dsn two_products no_products
                5 "products" "Core" "dwh" None
                [[VInt 1; VInt 10]; [VInt 2; VInt 20]]
                [products "dwh" id_then_date [] [[VInt 1; VInt 10]; [VInt 2; VInt 20]]]
                (demo_reachable _ _) eq_refl eq_refl Hf eq_refl) as H.
  cbv zeta in H. destruct H as (H1 & _ & H3). split; [exact H1 | exact H3].
Defined.

(** X17. When the source SELECT returns no row, the run sends no INSERT,
    commits nothing, leaves every server as it was and returns. *)
Theorem nothing_selected_nothing_written
  (w : world) (ds dt : dsn) (dbs dbt : database)
  (fuel : nat) (tn ss ts : string) (wm : option value) :
  reachable w ds dt dbs dbt ->
  planned_watermark dbt ts tn = Some wm ->
  sql_select dbs (map fst (catalog_columns dbt tn)) ss tn wm = inr [] ->
  0 < fuel ->
  let r := p_move_data_for_table fuel tn ss ts w in
  fst r = Return tt
  /\ inserted_batches (w_trace (snd r)) = inserted_batches (w_trace w)
  /\ commits (w_trace (snd r)) = commits (w_trace w)
  /\ logged (w_trace (snd r)) = logged (w_trace w)
  /\ w_servers (snd r) = w_servers w.
Proof.
  destruct w as [fs sv src tgt fr tr0]. unfold reachable.
  cbn [w_files w_servers w_trace].
  intros (Hsrc & Htgt & Hs & Ht) Hp Hsel Hf. cbv zeta.
  pose proof (block_all_inserted fs sv ds dt dbs dbt fuel tn ss ts tr0 wm
                [] dbt Hp Hsel Hf (insert_rows_nil _ _)) as Heq.
  rewrite (run_wraps fs sv ds dt dbs dbt Hsrc Htgt Hs Ht fuel tn ss ts
             src tgt fr tr0 _ _ _ _ _ Heq).
  cbn [fst snd w_trace w_servers]. split; [reflexivity|].
  rewrite !logged_app, !inserted_batches_app, !commits_app.
  rewrite logged_plan, inserted_batches_plan, commits_plan.
  cbn. rewrite ?app_nil_r, ?Nat.add_0_r.
  split; [reflexivity|]. split; [reflexivity|]. split; reflexivity.
Qed.

Lemma nothing_selected_nothing_written_witness :
  reachable (demo_world one_source_product one_product)
            source_dsn target_dsn one_source_product one_product
  /\ planned_watermark one_product "dwh" "products" = Some (Some (VInt 10))
  /\ fst (main 5 (demo_world one_source_product one_product)) = Return tt
  /\ inserted_batches
       (w_trace (snd (main 5 (demo_world one_source_product one_product))))
     = [].
Proof.
  assert (Hf : 0 < 5) by lia.
  split; [reach|]. split; [reflexivity|].
  pose proof (nothing_selected_nothing_written
                (demo_world one_source_product one_product)
                source_dsn target_dsn one_source_product one_product
                5 "products" "Core" "dwh" (Some (VInt 10))
                (demo_reachable _ _) eq_refl eq_refl Hf) as H.
  cbv zeta in H. destruct H as (H1 & H2 & _). split; [exact H1 | exact H2].
Defined.

(** X18. When the source refuses the SELECT (a column of the target it does
    not have, a table that is not there, a watermark it cannot read),
    the run raises the store's exception after logging it once, and
    nothing was inserted, committed or changed. *)
Theorem refused_select_ends_the_run
  (w : world) (ds dt : dsn) (dbs dbt : database)
  (fuel : nat) (tn ss ts : string) (wm : option value) (e : exn) :
  reachable w ds dt dbs dbt ->
  planned_watermark dbt ts tn = Some wm ->
  sql_select dbs (map fst (catalog_columns dbt tn)) ss tn wm = inl e ->
  let r := p_move_data_for_table fuel tn ss ts w in
  fst r = Raise e
  /\ queries_on Source (w_trace (snd r))
     = queries_on Source (w_trace w)
       ++ [SelectColumns tn;
           SelectFrom (map fst (catalog_columns dbt tn)) ss tn wm]
  /\ logged (w_trace (snd r))
     = logged (w_trace w) ++ [("An error occurred: " ++ exn_str e)%string]
  /\ inserted_batches (w_trace (snd r)) = inserted_batches (w_trace w)
  /\ commits (w_trace (snd r)) = commits (w_trace w)
  /\ w_servers (snd r) = w_servers w.
Proof.
  destruct w as [fs sv src tgt fr tr0]. unfold reachable.
  cbn [w_files w_servers w_trace].
  intros (Hsrc & Htgt & Hs & Ht) Hp Hsel. cbv zeta.
  pose proof (block_select_fails fs sv ds dt dbs dbt fuel tn ss ts tr0 wm e
                Hp Hsel) as Heq.
  rewrite (run_wraps fs sv ds dt dbs dbt Hsrc Htgt Hs Ht fuel tn ss ts
             src tgt fr tr0 _ _ _ _ _ Heq).
  cbn [fst snd w_trace w_servers]. split; [reflexivity|].
  rewrite !queries_on_app, !logged_app, !inserted_batches_app, !commits_app.
  rewrite queries_on_plan_source, logged_plan, inserted_batches_plan, commits_plan.
  cbn. rewrite ?app_nil_r, ?Nat.add_0_r, <- ?app_assoc.
  split; [reflexivity|]. split; [reflexivity|].
  split; [reflexivity|]. split; reflexivity.
Qed.

Lemma refused_select_ends_the_run_witness :
  reachable (demo_world two_products priced_target)
            source_dsn target_dsn two_products priced_target
  /\ planned_watermark priced_target "dwh" "products" = Some None
  /\ fst (main 5 (demo_world two_products priced_target))
     = Raise (UndefinedColumn "price")
  /\ queries_on Source (w_trace (snd (main 5 (demo_world two_products priced_target))))
     = [SelectColumns "products";
        SelectFrom ["id"; "updated_date"; "price"] "Core" "products" None].
Proof.
  split; [reach|]. split; [reflexivity|].
  pose proof (refused_select_ends_the_run
                (demo_world two_products priced_target)
                source_dsn target_dsn two_products priced_target
                5 "products" "Core" "dwh" None (UndefinedColumn "price")
                (demo_reachable _ _) eq_refl eq_refl) as H.
  cbv zeta in H. destruct H as (H1 & H2 & _). split; [exact H1 | exact H2].
Defined.

(** X19. The DELTA path asks the target for MAX(updated_date): a target
    table that has rows and no column of that name makes the run raise
    the store's exception before the source is asked for any row. *)
Theorem delta_needs_updated_date_in_target
  (w : world) (ds dt : dsn) (dbs dbt : database)
  (fuel : nat) (tn ss ts : string) (tt : table) :
  reachable w ds dt dbs dbt ->
  find_table dbt ts tn = Some tt ->
  t_rows tt <> [] ->
  column_index (column_names tt) "updated_date" = None ->
  let r := p_move_data_for_table fuel tn ss ts w in
  fst r = Raise (UndefinedColumn "updated_date")
  /\ queries_on Target (w_trace (snd r))
     = queries_on Target (w_trace w)
       ++ [SelectColumns tn; SelectCount ts tn; SelectMaxUpdated ts tn]
  /\ queries_on Source (w_trace (snd r))
     = queries_on Source (w_trace w) ++ [SelectColumns tn]
  /\ inserted_batches (w_trace (snd r)) = inserted_batches (w_trace w)
  /\ w_servers (snd r) = w_servers w.
Proof.
  destruct w as [fs sv src tgt fr tr0]. unfold reachable.
  cbn [w_files w_servers w_trace].
  intros (Hsrc & Htgt & Hs & Ht) Hft Hrows Hcol. cbv zeta.
  assert (Hc : sql_count dbt ts tn = inr (S (pred (List.length (t_rows tt))))).
  { unfold sql_count. rewrite Hft. destruct (t_rows tt); [congruence|reflexivity]. }
  assert (Hm : sql_max_updated dbt ts tn = inl (UndefinedColumn "updated_date")).
  { unfold sql_max_updated. now rewrite Hft, Hcol. }
  rewrite (run_wraps fs sv ds dt dbs dbt Hsrc Htgt Hs Ht fuel tn ss ts
             src tgt fr tr0 _ _ _ _ _
             (block_max_fails fs sv ds dt dbs dbt fuel tn ss ts tr0 _ _ Hc Hm)).
  cbn [fst snd w_trace w_servers]. split; [reflexivity|].
  rewrite !queries_on_app, !inserted_batches_app.
  cbn. rewrite ?app_nil_r, <- ?app_assoc.
  split; [reflexivity|]. split; [reflexivity|]. split; reflexivity.
Qed.

Lemma delta_needs_updated_date_in_target_witness :
  reachable (demo_world two_products undated_target)
            source_dsn target_dsn two_products undated_target
  /\ fst (main 5 (demo_world two_products undated_target))
     = Raise (UndefinedColumn "updated_date")
  /\ queries_on Source
       (w_trace (snd (main 5 (demo_world two_products undated_target))))
     = [SelectColumns "products"].
Proof.
  assert (Hr : [[VInt 1]] <> @nil row) by discriminate.
  split; [reach|].
  pose proof (delta_needs_updated_date_in_target
                (demo_world two_products undated_target)
                source_dsn target_dsn two_products undated_target
                5 "products" "Core" "dwh"
                (products "dwh" [("id", "bigint")] [] [[VInt 1]])
                (demo_reachable _ _) eq_refl Hr eq_refl) as H.
  cbv zeta in H. destruct H as (H1 & _ & H3 & _). split; [exact H1 | exact H3].
Defined.

(* ================================================================== *)
(** ** Catalogs of different widths *)
(* ================================================================== *)

Lemma sql_select_width db cols s t wm rs :
  sql_select db cols s t wm = inr rs ->
  Forall (fun r => List.length r = List.length cols) rs.
Proof.
  unfold sql_select.
  destruct (find_table db s t) as [st|]; [|discriminate].
  destruct (resolve (column_names st) cols) as [e|idxs] eqn:Hres; [discriminate|].
  destruct (resolve_nth _ _ _ Hres) as [Hl _].
  assert (Hw : forall l, Forall (fun r => List.length r = List.length cols)
                           (map (project idxs) l)).
  { intros l. apply Forall_forall. intros r Hin.
    apply in_map_iff in Hin. destruct Hin as (r0 & <- & _).
    unfold project. now rewrite length_map. }
  destruct wm as [[|W]|].
  - destruct (column_index (column_names st) "updated_date"); discriminate.
  - destruct (column_index (column_names st) "updated_date"); [|discriminate].
    intros H; inversion H; subst. apply Hw.
  - intros H; inversion H; subst. apply Hw.
Qed.

Lemma insert_rows_arity db q r rest :
  List.length r <> List.length (i_placeholders q) ->
  insert_rows db q (r :: rest)
  = (db, Some (arity_error (List.length r) (List.length (i_placeholders q)))).
Proof.
  intros Hne. rewrite insert_rows_cons. unfold sql_insert, arity_error.
  destruct (Nat.ltb (List.length r) (List.length (i_placeholders q))) eqn:H1;
    [reflexivity|].
  destruct (Nat.ltb (List.length (i_placeholders q)) (List.length r)) eqn:H2;
    [reflexivity|].
  apply Nat.ltb_ge in H1, H2. lia.
Qed.

(** X20. The rows are fetched with the target's column list and inserted
    with a template built from the source's: when the two catalogs
    list different numbers of columns for the table, the first INSERT
    fails in psycopg2 (IndexError with too few values, TypeError with
    too many), the run raises it, and nothing is committed. *)
Theorem column_count_mismatch_fails_the_first_insert
  (w : world) (ds dt : dsn) (dbs dbt : database)
  (fuel : nat) (tn ss ts : string) (wm : option value) (rs : list row) :
  reachable w ds dt dbs dbt ->
  planned_watermark dbt ts tn = Some wm ->
  sql_select dbs (map fst (catalog_columns dbt tn)) ss tn wm = inr rs ->
  rs <> [] -> 0 < fuel ->
  List.length (catalog_columns dbt tn) <> List.length (catalog_columns dbs tn) ->
  let r := p_move_data_for_table fuel tn ss ts w in
  fst r = Raise (arity_error (List.length (catalog_columns dbt tn))
                             (List.length (catalog_columns dbs tn)))
  /\ (exists new,
        w_trace (snd r) = w_trace w ++ new
        /\ inserted_batches new = [firstn 1000 rs]
        /\ commits new = 0)
  /\ w_servers (snd r) = w_servers w.
Proof.
  destruct w as [fs sv src tgt fr tr0]. unfold reachable.
  cbn [w_files w_servers w_trace].
  intros (Hsrc & Htgt & Hs & Ht) Hp Hsel Hne Hf Hw. cbv zeta.
  destruct rs as [|r0 rs']; [congruence|].
  pose proof (sql_select_width _ _ _ _ _ _ Hsel) as Hwd.
  inversion Hwd as [|? ? Hr0 _]; subst. rewrite length_map in Hr0.
  assert (Hb : insert_rows dbt
                 (mkInsert ts tn (map fst (catalog_columns dbs tn))
                    (repeat "%s" (List.length (map fst (catalog_columns dbs tn)))))
                 (firstn 1000 (r0 :: rs'))
               = (dbt, Some (arity_error (List.length (catalog_columns dbt tn))
                                         (List.length (catalog_columns dbs tn))))).
  { rewrite firstn_cons, insert_rows_arity;
      cbn [i_placeholders]; rewrite repeat_length, length_map, Hr0;
      [reflexivity | exact Hw]. }
  pose proof (block_insert_fails fs sv ds dt dbs dbt fuel tn ss ts tr0 wm 0
                [] (r0 :: rs') dbt dbt _ Hp Hsel eq_refl Hf
                (insert_rows_nil _ _) Hb) as Heq.
  rewrite (run_wraps fs sv ds dt dbs dbt Hsrc Htgt Hs Ht fuel tn ss ts
             src tgt fr tr0 _ _ _ _ _ Heq).
  cbn [fst snd w_trace w_servers]. split; [reflexivity|]. split; [|reflexivity].
  eexists. split; [rewrite <- !app_assoc; reflexivity|].
  rewrite !inserted_batches_app, !commits_app.
  rewrite inserted_batches_plan, commits_plan.
  cbn. split; reflexivity.
Qed.

Lemma column_count_mismatch_fails_the_first_insert_witness :
  reachable (demo_world priced_source no_products)
            source_dsn target_dsn priced_source no_products
  /\ planned_watermark no_products "dwh" "products" = Some None
  /\ fst (main 5 (demo_world priced_source no_products))
     = Raise (IndexError "tuple index out of range")
  /\ w_servers (snd (main 5 (demo_world priced_source no_products)))
     = w_servers (demo_world priced_source no_products).
Proof.
  assert (Hne : [[VInt 1; VInt 10]] <> @nil row) by discriminate.
  assert (Hf : 0 < 5) by lia.
  assert (Hw : List.length (catalog_columns no_products "products")
               <> List.length (catalog_columns priced_source "products"))
    by (vm_compute; lia).
  split; [reach|]. split; [reflexivity|].
  pose proof (column_count_mismatch_fails_the_first_insert
                (demo_world priced_source no_products)
                source_dsn target_dsn priced_source no_products
                5 "products" "Core" "dwh" None [[VInt 1; VInt 10]]
                (demo_reachable _ _) eq_refl eq_refl Hne Hf Hw) as H.
  cbv zeta in H. destruct H as (H1 & _ & H3). split; [exact H1 | exact H3].
Defined.

(* ================================================================== *)
(** ** The run when the catalogs agree *)
(* ================================================================== *)

Lemma matching_incl st wm : incl (matching st wm) (t_rows st).
Proof.
  unfold matching. destruct wm as [[|W]|]; try apply incl_refl;
    try (intros x []).
  destruct (column_index (column_names st) "updated_date");
    [|intros x []].
  intros x Hx. now apply filter_In in Hx.
Qed.

Lemma matching_length st wm :
  List.length (matching st wm) <= List.length (t_rows st).
Proof.
  unfold matching. destruct wm as [[|W]|]; cbn; try lia.
  destruct (column_index (column_names st) "updated_date"); cbn; try lia.
  apply filter_length_le.
Qed.

Lemma aligned_run fs sv src tgt fr tr ds dt dbs dbt fuel tn ss ts st tg wm v' :
  reads fs "config/source_db.yml" ds ->
  reads fs "config/target_db.yml" dt ->
  lookup_server sv ds = Some dbs ->
  lookup_server sv dt = Some dbt ->
  aligned dbs dbt tn ss ts st tg ->
  planned_watermark dbt ts tn = Some wm ->
  match wm with
  | None => True
  | Some v => exists W, v = VInt W
              /\ column_index (column_names st) "updated_date" <> None
  end ->
  List.length (t_rows st) < fuel ->
  insert_rows dbt
    (mkInsert ts tn (map fst (catalog_columns dbs tn))
       (repeat "%s" (List.length (map fst (catalog_columns dbs tn)))))
    (matching st wm) = (v', None) ->
  let r := p_move_data_for_table fuel tn ss ts (mkWorld fs sv src tgt fr tr) in
  fst r = Return tt
  /\ inserted_batches (w_trace (snd r))
     = inserted_batches tr ++ chunks 1000 (matching st wm)
  /\ exists v'',
       lookup_server (w_servers (snd r)) dt = Some v''
       /\ find_table v'' ts tn
          = Some (with_rows tg (t_rows tg ++ matching st wm)).
Proof.
  intros Hsrc Htgt Hs Ht (Hfs & Hft & Hcs & Hct & Hcols & Hnd & Hlen)
    Hp Hwm Hf Hi. cbv zeta.
  assert (Hnames : column_names st = column_names tg)
    by (unfold column_names; now rewrite Hcols).
  assert (Hsel : sql_select dbs (map fst (catalog_columns dbt tn)) ss tn wm
                 = inr (matching st wm)).
  { rewrite Hct. fold (column_names tg). rewrite <- Hnames.
    apply sql_select_own_columns; try assumption; rewrite Hnames; assumption. }
  assert (Hstored : map (build_row (column_names tg)
                           (map fst (catalog_columns dbs tn)))
                        (matching st wm) = matching st wm).
  { rewrite Hcs. fold (column_names st). rewrite Hnames.
    rewrite <- (map_id (matching st wm)) at 2. apply map_ext_in.
    intros r Hin. apply (build_row_own_columns _ _ Hnd).
    rewrite Forall_forall in Hlen. apply Hlen, (matching_incl st wm), Hin. }
  pose proof (insert_rows_table
                (mkInsert ts tn (map fst (catalog_columns dbs tn))
                   (repeat "%s" (List.length (map fst (catalog_columns dbs tn)))))
                (matching st wm) dbt v' tg Hft Hi) as Hfv.
  cbn [i_schema i_table i_columns] in Hfv. rewrite Hstored in Hfv.
  assert (Hf' : List.length (matching st wm) < fuel).
  { pose proof (matching_length st wm). lia. }
  pose proof (block_all_inserted fs sv ds dt dbs dbt fuel tn ss ts tr wm
                (matching st wm) v' Hp Hsel Hf' Hi) as Heq.
  rewrite (run_wraps fs sv ds dt dbs dbt Hsrc Htgt Hs Ht fuel tn ss ts
             src tgt fr tr _ _ _ _ _ Heq).
  cbn [fst snd w_trace w_servers]. split; [reflexivity|]. split.
  - rewrite !inserted_batches_app, inserted_batches_plan, inserted_batches_passes.
    cbn. rewrite ?app_nil_r. reflexivity.
  - destruct (matching st wm) as [|r0 rs'] eqn:Hm.
    + exists dbt. split; [exact Ht|]. rewrite Hft, app_nil_r. now destruct tg.
    + exists v'. split; [|exact Hfv].
      exact (lookup_store_same sv dt dbt v' Ht).
Qed.

(** X21. FULL load, catalogs in agreement: with an empty target table
    and inserts that go through, the run returns and the target table
    then holds the rows of the source table, all of them, each value
    in its own column, in the source's order. *)
Theorem full_load_copies_the_table
  (w : world) (ds dt : dsn) (dbs dbt : database)
  (fuel : nat) (tn ss ts : string) (st tg : table) (v' : database) :
  reachable w ds dt dbs dbt ->
  aligned dbs dbt tn ss ts st tg ->
  t_rows tg = [] ->
  List.length (t_rows st) < fuel ->
  insert_rows dbt
    (mkInsert ts tn (map fst (catalog_columns dbs tn))
       (repeat "%s" (List.length (map fst (catalog_columns dbs tn)))))
    (t_rows st) = (v', None) ->
  let r := p_move_data_for_table fuel tn ss ts w in
  fst r = Return tt
  /\ inserted_batches (w_trace (snd r))
     = inserted_batches (w_trace w) ++ chunks 1000 (t_rows st)
  /\ exists v'',
       lookup_server (w_servers (snd r)) dt = Some v''
       /\ find_table v'' ts tn = Some (with_rows tg (t_rows st)).
Proof.
  destruct w as [fs sv src tgt fr tr0]. unfold reachable.
  cbn [w_files w_servers w_trace].
  intros (Hsrc & Htgt & Hs & Ht) Hal Hempty Hf Hi.
  assert (Hp : planned_watermark dbt ts tn = Some None).
  { unfold planned_watermark, sql_count.
    destruct Hal as (_ & Hft & _). now rewrite Hft, Hempty. }
  pose proof (aligned_run fs sv src tgt fr tr0 ds dt dbs dbt fuel tn ss ts
                st tg None v' Hsrc Htgt Hs Ht Hal Hp I Hf Hi) as H.
  cbv zeta in *. cbn [matching] in H. rewrite Hempty in H. exact H.
Qed.

Lemma full_load_copies_the_table_witness :
  aligned two_products no_products "products" "Core" "dwh"
          (products "Core" id_then_date [] [[VInt 1; VInt 10]; [VInt 2; VInt 20]])
          (products "dwh" id_then_date [] [])
  /\ fst (main 5 (demo_world two_products no_products)) = Return tt
  /\ exists v',
       lookup_server (w_servers (snd (main 5 (demo_world two_products no_products))))
                     target_dsn = Some v'
       /\ find_table v' "dwh" "products"
          = Some (products "dwh" id_then_date []
                    [[VInt 1; VInt 10]; [VInt 2; VInt 20]]).
Proof.
  assert (Hal : aligned two_products no_products "products" "Core" "dwh"
                  (products "Core" id_then_date [] [[VInt 1; VInt 10]; [VInt 2; VInt 20]])
                  (products "dwh" id_then_date [] [])).
  { unfold aligned. repeat split; try reflexivity.
    - repeat constructor; cbn; intuition discriminate.
    - repeat constructor. }
  assert (Hf : 2 < 5) by lia.
  split; [exact Hal|].
  pose proof (full_load_copies_the_table
                (demo_world two_products no_products)
                source_dsn target_dsn two_products no_products
                5 "products" "Core" "dwh" _ _
                [products "dwh" id_then_date [] [[VInt 1; VInt 10]; [VInt 2; VInt 20]]]
                (demo_reachable _ _) Hal eq_refl Hf eq_refl) as H.
  cbv zeta in H. destruct H as (H1 & _ & H3). split; [exact H1 | exact H3].
Defined.

(** X22. DELTA load, catalogs in agreement: with a target that has rows
    and the watermark W, and inserts that go through, the run returns
    and has appended to the target table the source rows whose
    updated_date is above W, each value in its own column, in the
    source's order, and no other; what the target held stays. *)
Theorem delta_load_appends_the_newer_rows
  (w : world) (ds dt : dsn) (dbs dbt : database)
  (fuel : nat) (tn ss ts : string) (st tg : table) (W : Z) (i : nat)
  (v' : database) :
  reachable w ds dt dbs dbt ->
  aligned dbs dbt tn ss ts st tg ->
  t_rows tg <> [] ->
  sql_max_updated dbt ts tn = inr (VInt W) ->
  column_index (column_names st) "updated_date" = Some i ->
  List.length (t_rows st) < fuel ->
  insert_rows dbt
    (mkInsert ts tn (map fst (catalog_columns dbs tn))
       (repeat "%s" (List.length (map fst (catalog_columns dbs tn)))))
    (filter (newer_than i W) (t_rows st)) = (v', None) ->
  let r := p_move_data_for_table fuel tn ss ts w in
  fst r = Return tt
  /\ inserted_batches (w_trace (snd r))
     = inserted_batches (w_trace w)
       ++ chunks 1000 (filter (newer_than i W) (t_rows st))
  /\ exists v'',
       lookup_server (w_servers (snd r)) dt = Some v''
       /\ find_table v'' ts tn
          = Some (with_rows tg
                    (t_rows tg ++ filter (newer_than i W) (t_rows st))).
Proof.
  destruct w as [fs sv src tgt fr tr0]. unfold reachable.
  cbn [w_files w_servers w_trace].
  intros (Hsrc & Htgt & Hs & Ht) Hal Hrows Hm Hi Hf Hins.
  assert (Hp : planned_watermark dbt ts tn = Some (Some (VInt W))).
  { unfold planned_watermark, sql_count.
    destruct Hal as (_ & Hft & _). rewrite Hft, Hm.
    destruct (t_rows tg); [congruence|reflexivity]. }
  assert (Hwm : exists W0, VInt W = VInt W0
                  /\ column_index (column_names st) "updated_date" <> None).
  { exists W. split; [reflexivity|]. rewrite Hi. discriminate. }
  assert (Hins' : insert_rows dbt
                    (mkInsert ts tn (map fst (catalog_columns dbs tn))
                       (repeat "%s"
                          (List.length (map fst (catalog_columns dbs tn)))))
                    (matching st (Some (VInt W))) = (v', None)).
  { cbn [matching]. rewrite Hi. exact Hins. }
  pose proof (aligned_run fs sv src tgt fr tr0 ds dt dbs dbt fuel tn ss ts
                st tg (Some (VInt W)) v' Hsrc Htgt Hs Ht Hal Hp Hwm Hf Hins') as H.
  cbv zeta in *. cbn [matching] in H. rewrite Hi in H. exact H.
Qed.

Lemma delta_load_appends_the_newer_rows_witness :
  aligned two_products one_product "products" "Core" "dwh"
          (products "Core" id_then_date [] [[VInt 1; VInt 10]; [VInt 2; VInt 20]])
          (products "dwh" id_then_date [] [[VInt 1; VInt 10]])
  /\ sql_max_updated one_product "dwh" "products" = inr (VInt 10)
  /\ fst (main 5 (demo_world two_products one_product)) = Return tt
  /\ exists v',
       lookup_server (w_servers (snd (main 5 (demo_world two_products one_product))))
                     target_dsn = Some v'
       /\ find_table v' "dwh" "products"
          = Some (products "dwh" id_then_date []
                    [[VInt 1; VInt 10]; [VInt 2; VInt 20]]).
Proof.
  assert (Hal : aligned two_products one_product "products" "Core" "dwh"
                  (products "Core" id_then_date [] [[VInt 1; VInt 10]; [VInt 2; VInt 20]])
                  (products "dwh" id_then_date [] [[VInt 1; VInt 10]])).
  { unfold aligned. repeat split; try reflexivity.
    - repeat constructor; cbn; intuition discriminate.
    - repeat constructor. }
  assert (Hr : [[VInt 1; VInt 10]] <> @nil row) by discriminate.
  assert (Hf : 2 < 5) by lia.
  split; [exact Hal|]. split; [reflexivity|].
  pose proof (delta_load_appends_the_newer_rows
                (demo_world two_products one_product)
                source_dsn target_dsn two_products one_product
                5 "products" "Core" "dwh" _ _ 10 1
                [products "dwh" id_then_date [] [[VInt 1; VInt 10]; [VInt 2; VInt 20]]]
                (demo_reachable _ _) Hal Hr eq_refl eq_refl Hf eq_refl) as H.
  cbv zeta in H. destruct H as (H1 & _ & H3). split; [exact H1 | exact H3].
Defined.

(** The INSERT of a run over catalogs in different orders names the
    source's columns, in the source's order. *)
Lemma insert_names_the_source_columns_witness :
  reachable (demo_world permuted_source permuted_target)
            source_dsn target_dsn permuted_source permuted_target
  /\ exists new,
       insert_templates
         (w_trace (snd (main 5 (demo_world permuted_source permuted_target))))
       = new
       /\ Forall (fun q => i_columns q = ["id"; "updated_date"]) new.
Proof.
  split; [reach|].
  destruct (insert_names_the_source_columns
              (demo_world permuted_source permuted_target)
              source_dsn target_dsn permuted_source permuted_target
              5 "products" "Core" "dwh" (demo_reachable _ _))
    as (new & Hnew & Hall).
  exists new. split; [exact Hnew | exact Hall].
Defined.

(* ================================================================== *)
(** ** Empty column lists: what stops the run *)
(* ================================================================== *)

(** A table of the store shows its columns in the catalog: where the
    catalog has none under the name, a SELECT that is answered lists no
    column. *)
Lemma sql_select_without_catalog db cols s t wm rs :
  catalog_columns db t = [] ->
  sql_select db cols s t wm = inr rs -> cols = [].
Proof.
  intros Hcat. unfold sql_select.
  destruct (find_table db s t) as [st|] eqn:Hf; [|discriminate].
  pose proof (catalog_has_table_columns db s t st Hf) as Hincl.
  rewrite Hcat in Hincl. apply incl_l_nil in Hincl.
  unfold column_names. rewrite Hincl.
  destruct cols as [|c cols]; [reflexivity|discriminate].
Qed.

(** A row without values is refused by every INSERT of the program:
    by psycopg2 when the template has a placeholder to fill, by the
    server's parser when it names no column. *)
Lemma insert_rows_without_values db ts tn scols rest :
  insert_rows db (mkInsert ts tn scols (repeat "%s" (List.length scols)))
              ([] :: rest)
  = (db, Some match scols with
              | [] => SqlSyntaxError
                        (render_insert
                           (mkInsert ts tn scols
                              (repeat "%s" (List.length scols))))
              | _ :: _ => IndexError "tuple index out of range"
              end).
Proof.
  rewrite insert_rows_cons. unfold sql_insert.
  destruct scols as [|c scols]; reflexivity.
Qed.

Section Refusals.

Variables (fs : list (string * option config)) (sv : list (dsn * database)).
Variables (src tgt : option connection) (fr : frame) (tr : list event).
Variables (ds dt : dsn) (dbs dbt : database).
Hypothesis Hsrc : reads fs "config/source_db.yml" ds.
Hypothesis Htgt : reads fs "config/target_db.yml" dt.
Hypothesis Hs : lookup_server sv ds = Some dbs.
Hypothesis Ht : lookup_server sv dt = Some dbt.
Variables (fuel : nat) (tn ss ts : string).

Local Abbreviation run :=
  (p_move_data_for_table fuel tn ss ts (mkWorld fs sv src tgt fr tr)).

(* The run raised [e] and moved nothing. *)
Local Abbreviation refused e :=
  (fst run = Raise e
   /\ inserted_batches (w_trace (snd run)) = inserted_batches tr
   /\ commits (w_trace (snd run)) = commits tr
   /\ w_servers (snd run) = sv).

Lemma run_count_refused e :
  sql_count dbt ts tn = inl e -> refused e.
Proof.
  intros Hc.
  rewrite (run_wraps fs sv ds dt dbs dbt Hsrc Htgt Hs Ht fuel tn ss ts
             src tgt fr tr _ _ _ _ _
             (block_count_fails fs sv ds dt dbs dbt fuel tn ss ts tr e Hc)).
  cbn [fst snd w_trace w_servers].
  rewrite !inserted_batches_app, !commits_app. cbn.
  rewrite ?app_nil_r, ?Nat.add_0_r. repeat split; reflexivity.
Qed.

Lemma run_max_refused n e :
  sql_count dbt ts tn = inr (S n) ->
  sql_max_updated dbt ts tn = inl e -> refused e.
Proof.
  intros Hc Hm.
  rewrite (run_wraps fs sv ds dt dbs dbt Hsrc Htgt Hs Ht fuel tn ss ts
             src tgt fr tr _ _ _ _ _
             (block_max_fails fs sv ds dt dbs dbt fuel tn ss ts tr n e Hc Hm)).
  cbn [fst snd w_trace w_servers].
  rewrite !inserted_batches_app, !commits_app. cbn.
  rewrite ?app_nil_r, ?Nat.add_0_r. repeat split; reflexivity.
Qed.

Lemma run_select_refused wm e :
  planned_watermark dbt ts tn = Some wm ->
  sql_select dbs (map fst (catalog_columns dbt tn)) ss tn wm = inl e ->
  refused e.
Proof.
  intros Hp Hsel.
  rewrite (run_wraps fs sv ds dt dbs dbt Hsrc Htgt Hs Ht fuel tn ss ts
             src tgt fr tr _ _ _ _ _
             (block_select_fails fs sv ds dt dbs dbt fuel tn ss ts tr wm e
                Hp Hsel)).
  cbn [fst snd w_trace w_servers].
  rewrite !inserted_batches_app, !commits_app.
  rewrite inserted_batches_plan, commits_plan. cbn.
  rewrite ?app_nil_r, ?Nat.add_0_r. repeat split; reflexivity.
Qed.

Lemma run_selects_nothing wm :
  planned_watermark dbt ts tn = Some wm ->
  sql_select dbs (map fst (catalog_columns dbt tn)) ss tn wm = inr [] ->
  0 < fuel ->
  fst run = Return tt
  /\ inserted_batches (w_trace (snd run)) = inserted_batches tr
  /\ commits (w_trace (snd run)) = commits tr
  /\ w_servers (snd run) = sv.
Proof.
  intros Hp Hsel Hf.
  rewrite (run_wraps fs sv ds dt dbs dbt Hsrc Htgt Hs Ht fuel tn ss ts
             src tgt fr tr _ _ _ _ _
             (block_all_inserted fs sv ds dt dbs dbt fuel tn ss ts tr wm
                [] dbt Hp Hsel Hf (insert_rows_nil _ _))).
  cbn [fst snd w_trace w_servers].
  rewrite !inserted_batches_app, !commits_app.
  rewrite inserted_batches_plan, commits_plan. cbn.
  rewrite ?app_nil_r, ?Nat.add_0_r. repeat split; reflexivity.
Qed.

Lemma run_first_insert_refused wm r0 rs e :
  planned_watermark dbt ts tn = Some wm ->
  sql_select dbs (map fst (catalog_columns dbt tn)) ss tn wm = inr (r0 :: rs) ->
  0 < fuel ->
  insert_rows dbt
    (mkInsert ts tn (map fst (catalog_columns dbs tn))
       (repeat "%s" (List.length (map fst (catalog_columns dbs tn)))))
    (firstn 1000 (r0 :: rs)) = (dbt, Some e) ->
  fst run = Raise e
  /\ commits (w_trace (snd run)) = commits tr
  /\ w_servers (snd run) = sv.
Proof.
  intros Hp Hsel Hf Hb.
  rewrite (run_wraps fs sv ds dt dbs dbt Hsrc Htgt Hs Ht fuel tn ss ts
             src tgt fr tr _ _ _ _ _
             (block_insert_fails fs sv ds dt dbs dbt fuel tn ss ts tr wm 0
                [] (r0 :: rs) dbt dbt e Hp Hsel eq_refl Hf
                (insert_rows_nil _ _) Hb)).
  cbn [fst snd w_trace w_servers].
  rewrite !commits_app, commits_plan. cbn.
  rewrite ?Nat.add_0_r. repeat split; reflexivity.
Qed.

End Refusals.

(** C8, amended. Introspection returns the empty list when no table
    of the store carries the name, and the caller has no check of its
    own on the lists: the stores are what stops the run.
    - The table is missing from the target store: the run raises the
      target's [UndefinedTable], from the COUNT query.
    - It is missing from the source store only: the run raises the
      source's [UndefinedTable], from the SELECT, unless the target
      table has rows and no [updated_date] column, in which case the
      MAX query is refused first.
    In both cases no batch reaches the INSERT, nothing is committed and
    the committed data is unchanged.
    - One of the two column lists is empty: no run commits anything or
      changes the committed data. A refused COUNT, MAX or SELECT is
      raised; when the SELECT answers rows they are rows without
      values and the first INSERT is refused and raised (the server's
      syntax error when the INSERT names no column, the IndexError of
      psycopg2 when it has placeholders to fill); the run returns,
      having sent no INSERT, only when the SELECT answers no row. *)
Theorem empty_definition_is_left_to_the_stores
  (w : world) (ds dt : dsn) (dbs dbt : database)
  (fuel : nat) (tn ss ts : string) :
  reachable w ds dt dbs dbt ->
  let r := p_move_data_for_table fuel tn ss ts w in
  let scols := map fst (catalog_columns dbs tn) in
  let tcols := map fst (catalog_columns dbt tn) in
  let template := mkInsert ts tn scols (repeat "%s" (List.length scols)) in
  let moved_nothing :=
    inserted_batches (w_trace (snd r)) = inserted_batches (w_trace w)
    /\ commits (w_trace (snd r)) = commits (w_trace w)
    /\ w_servers (snd r) = w_servers w in
  (forall r0 c w0 name,
      get_conn r0 w0 = Some c -> c_closed c = false ->
      (forall t, In t (c_view c) -> t_name t <> name) ->
      fst (p_get_table_definition r0 name w0) = Return [])
  /\ (find_table dbt ts tn = None ->
      fst r = Raise (UndefinedTable ts tn) /\ moved_nothing)
  /\ (forall tg,
        find_table dbt ts tn = Some tg -> find_table dbs ss tn = None ->
        fst r = Raise (match t_rows tg,
                             column_index (column_names tg) "updated_date" with
                       | _ :: _, None => UndefinedColumn "updated_date"
                       | _, _ => UndefinedTable ss tn
                       end)
        /\ moved_nothing)
  /\ (catalog_columns dbs tn = [] \/ catalog_columns dbt tn = [] ->
      0 < fuel ->
      commits (w_trace (snd r)) = commits (w_trace w)
      /\ w_servers (snd r) = w_servers w
      /\ match planned_watermark dbt ts tn with
         | None =>
             exists e,
               (sql_count dbt ts tn = inl e \/ sql_max_updated dbt ts tn = inl e)
               /\ fst r = Raise e
         | Some wm =>
             match sql_select dbs tcols ss tn wm with
             | inl e => fst r = Raise e
             | inr [] =>
                 fst r = Return tt
                 /\ inserted_batches (w_trace (snd r))
                    = inserted_batches (w_trace w)
             | inr (_ :: _) =>
                 fst r = Raise
                           match scols with
                           | [] => SqlSyntaxError (render_insert template)
                           | _ :: _ => IndexError "tuple index out of range"
                           end
             end
         end).
Proof.
  intros Hreach. cbv zeta. split.
  { intros r c w0 name Hc Hl Habs.
    rewrite (table_definition_returns r c w0 name Hc Hl).
    now rewrite catalog_columns_absent. }
  destruct w as [fs sv src tgt fr tr0]. unfold reachable in Hreach.
  cbn [w_files w_servers w_trace] in *.
  destruct Hreach as (Hsrc & Htgt & Hs & Ht).
  split; [|split].
  - (* no target table *)
    intros Hmiss.
    exact (run_count_refused fs sv src tgt fr tr0 ds dt dbs dbt Hsrc Htgt Hs Ht
             fuel tn ss ts _ (sql_count_missing dbt ts tn Hmiss)).
  - (* no source table *)
    intros tg Hft Hsm.
    assert (Hc : sql_count dbt ts tn = inr (List.length (t_rows tg)))
      by (unfold sql_count; now rewrite Hft).
    destruct (t_rows tg) as [|row0 rows] eqn:Hrows.
    + apply (run_select_refused fs sv src tgt fr tr0 ds dt dbs dbt Hsrc Htgt Hs Ht
               fuel tn ss ts None).
      * unfold planned_watermark. now rewrite Hc.
      * now apply sql_select_missing.
    + destruct (column_index (column_names tg) "updated_date") as [i|] eqn:Hi.
      * apply (run_select_refused fs sv src tgt fr tr0 ds dt dbs dbt Hsrc Htgt Hs Ht
                 fuel tn ss ts
                 (Some (fold_left value_max
                          (map (fun r => nth i r VNone) (t_rows tg)) VNone))).
        -- unfold planned_watermark, sql_max_updated.
           rewrite Hc, Hft, Hi. reflexivity.
        -- now apply sql_select_missing.
      * apply (run_max_refused fs sv src tgt fr tr0 ds dt dbs dbt Hsrc Htgt Hs Ht
                 fuel tn ss ts (List.length rows)); [exact Hc|].
        unfold sql_max_updated. now rewrite Hft, Hi.
  - (* an empty column list *)
    intros Hempty Hfuel.
    unfold planned_watermark.
    destruct (sql_count dbt ts tn) as [e|n] eqn:Hc.
    { destruct (run_count_refused fs sv src tgt fr tr0 ds dt dbs dbt Hsrc Htgt Hs Ht
                  fuel tn ss ts e Hc) as (H1 & _ & H3 & H4).
      split; [exact H3|]. split; [exact H4|]. exists e. split; [now left|exact H1]. }
    assert (Hplanned : forall wm,
               planned_watermark dbt ts tn = Some wm ->
               commits (w_trace (snd (p_move_data_for_table fuel tn ss ts
                                        (mkWorld fs sv src tgt fr tr0))))
               = commits tr0
               /\ w_servers (snd (p_move_data_for_table fuel tn ss ts
                                    (mkWorld fs sv src tgt fr tr0))) = sv
               /\ match sql_select dbs (map fst (catalog_columns dbt tn)) ss tn wm with
                  | inl e =>
                      fst (p_move_data_for_table fuel tn ss ts
                             (mkWorld fs sv src tgt fr tr0)) = Raise e
                  | inr [] =>
                      fst (p_move_data_for_table fuel tn ss ts
                             (mkWorld fs sv src tgt fr tr0)) = Return tt
                      /\ inserted_batches
                           (w_trace (snd (p_move_data_for_table fuel tn ss ts
                                            (mkWorld fs sv src tgt fr tr0))))
                         = inserted_batches tr0
                  | inr (_ :: _) =>
                      fst (p_move_data_for_table fuel tn ss ts
                             (mkWorld fs sv src tgt fr tr0))
                      = Raise
                          match map fst (catalog_columns dbs tn) with
                          | [] =>
                              SqlSyntaxError
                                (render_insert
                                   (mkInsert ts tn
                                      (map fst (catalog_columns dbs tn))
                                      (repeat "%s"
                                         (List.length
                                            (map fst (catalog_columns dbs tn))))))
                          | _ :: _ => IndexError "tuple index out of range"
                          end
                  end).
    { intros wm Hp.
      destruct (sql_select dbs (map fst (catalog_columns dbt tn)) ss tn wm)
        as [e|[|r0 rs]] eqn:Hsel.
      - destruct (run_select_refused fs sv src tgt fr tr0 ds dt dbs dbt
                    Hsrc Htgt Hs Ht fuel tn ss ts wm e Hp Hsel)
          as (H1 & _ & H3 & H4). auto.
      - destruct (run_selects_nothing fs sv src tgt fr tr0 ds dt dbs dbt
                    Hsrc Htgt Hs Ht fuel tn ss ts wm Hp Hsel Hfuel)
          as (H1 & H2 & H3 & H4). auto.
      - assert (Htc : map fst (catalog_columns dbt tn) = []).
        { destruct Hempty as [He|He]; [|now rewrite He].
          exact (sql_select_without_catalog _ _ _ _ _ _ He Hsel). }
        pose proof (sql_select_width _ _ _ _ _ _ Hsel) as Hwd.
        inversion Hwd as [|? ? Hr0 _]; subst.
        rewrite Htc in Hr0. destruct r0 as [|v0 r0]; [|discriminate Hr0].
        destruct (run_first_insert_refused fs sv src tgt fr tr0 ds dt dbs dbt
                    Hsrc Htgt Hs Ht fuel tn ss ts wm [] rs _ Hp Hsel Hfuel
                    (eq_trans (f_equal _ (firstn_cons 999 [] rs))
                       (insert_rows_without_values dbt ts tn _ (firstn 999 rs))))
          as (H1 & H3 & H4). auto. }
    destruct n as [|n].
    { apply (Hplanned None). unfold planned_watermark. now rewrite Hc. }
    destruct (sql_max_updated dbt ts tn) as [e|v] eqn:Hm.
    { destruct (run_max_refused fs sv src tgt fr tr0 ds dt dbs dbt Hsrc Htgt Hs Ht
                  fuel tn ss ts n e Hc Hm) as (H1 & _ & H3 & H4).
      split; [exact H3|]. split; [exact H4|]. exists e. split; [now right|exact H1]. }
    apply (Hplanned (Some v)). unfold planned_watermark. now rewrite Hc, Hm.
Qed.

Lemma empty_definition_is_left_to_the_stores_witness :
  reachable (demo_world [] no_products) source_dsn target_dsn [] no_products
  /\ fst (main 1 (demo_world [] no_products))
     = Raise (UndefinedTable "Core" "products")
  /\ w_servers (snd (main 1 (demo_world [] no_products)))
     = w_servers (demo_world [] no_products)
  /\ reachable (demo_world bare_source_row bare_target)
               source_dsn target_dsn bare_source_row bare_target
  /\ catalog_columns bare_source_row "products" = []
  /\ fst (main 1 (demo_world bare_source_row bare_target))
     = Raise (SqlSyntaxError "INSERT INTO dwh.products () VALUES ()")
  /\ commits (w_trace (snd (main 1 (demo_world bare_source_row bare_target)))) = 0.
Proof.
  assert (Hf : 0 < 1) by lia.
  pose proof (empty_definition_is_left_to_the_stores
                (demo_world [] no_products) source_dsn target_dsn [] no_products
                1 "products" "Core" "dwh" (demo_reachable _ _)) as H.
  cbv zeta in H. destruct H as (_ & _ & H & _).
  destruct (H (products "dwh" id_then_date [] []) eq_refl eq_refl)
    as (H1 & _ & _ & H4).
  pose proof (empty_definition_is_left_to_the_stores
                (demo_world bare_source_row bare_target)
                source_dsn target_dsn bare_source_row bare_target
                1 "products" "Core" "dwh" (demo_reachable _ _)) as G.
  cbv zeta in G. destruct G as (_ & _ & _ & G).
  destruct (G (or_introl eq_refl) Hf) as (G1 & _ & G3).
  split; [reach|]. split; [exact H1|]. split; [exact H4|].
  split; [reach|]. split; [reflexivity|]. split; [exact G3 | exact G1].
Defined.
